(** * cf_ai_recipe_generator: the session-bound generation orchestrator

    A shallow embedding of [src/worker.ts]: the [SessionDO] durable object
    (bounded history log), [resolveModel], the prompt builders, and the
    three API branches of the worker's [fetch] handler (non-streaming
    generation with auto-continuation and model fallback, streaming
    generation with its non-streaming fallback, and reset).

    Conventions of the embedding:
    - a JavaScript string is a [string] (a sequence of 8-bit code units,
      i.e. the Latin-1 range of UTF-16);
    - [env.AI.run], the durable-object stub and [Date.now] are the
      environment: oracles indexed by the number of calls made so far, so
      that any behaviour (including one that changes from call to call) is
      covered;
    - a handler is a computation in a state-and-exception monad over the
      [World] (the session's storage plus the logs of the calls made);
      a thrown exception keeps the effects made before it. *)

From Stdlib Require Import String Ascii List Bool Arith ZArith Lia.
Import ListNotations.
Open Scope string_scope.

Set Warnings "-register-all".

(* ================================================================= *)
(** ** JavaScript strings *)

Module JsString.

Definition nl : string := String (ascii_of_nat 10) "".

(** [s.startsWith(pat)] *)
Definition startsWith (pat s : string) : bool := String.prefix pat s.

(** [s.includes(pat)] *)
Fixpoint includes (pat s : string) : bool :=
  startsWith pat s ||
  match s with
  | EmptyString => false
  | String _ s' => includes pat s'
  end.

(** [s.endsWith(suffix)] *)
Fixpoint endsWith (suffix s : string) : bool :=
  String.eqb s suffix ||
  match s with
  | EmptyString => false
  | String _ s' => endsWith suffix s'
  end.

(** [s.replaceAll(pat, "")] for a literal, non-empty [pat]: one scan from
    left to right; where [pat] starts the rest of the input its
    characters are skipped, otherwise one character is copied.  [skip]
    counts the characters of a match still to be dropped. *)
Fixpoint removeAllFrom (pat : string) (skip : nat) (s : string) : string :=
  match s with
  | EmptyString => EmptyString
  | String c s' =>
      match skip with
      | S k => removeAllFrom pat k s'
      | O =>
          if startsWith pat s
          then removeAllFrom pat (String.length pat - 1) s'
          else String c (removeAllFrom pat 0 s')
      end
  end.

Definition removeAll (pat s : string) : string := removeAllFrom pat 0 s.

(** White space and line terminators of ECMAScript in the 8-bit range:
    TAB, LF, VT, FF, CR, SP and NBSP. *)
Definition isWhite (c : ascii) : bool :=
  let n := nat_of_ascii c in
  (((9 <=? n) && (n <=? 13)) || (n =? 32) || (n =? 160))%nat.

Fixpoint trimStart (s : string) : string :=
  match s with
  | EmptyString => EmptyString
  | String c s' => if isWhite c then trimStart s' else s
  end.

Fixpoint trimEnd (s : string) : string :=
  match s with
  | EmptyString => EmptyString
  | String c s' =>
      match trimEnd s' with
      | EmptyString => if isWhite c then EmptyString else String c EmptyString
      | t => String c t
      end
  end.

(** [s.trim()] *)
Definition trim (s : string) : string := trimEnd (trimStart s).

Definition lowerChar (c : ascii) : ascii :=
  let n := nat_of_ascii c in
  if (((65 <=? n) && (n <=? 90)) ||
      ((192 <=? n) && (n <=? 222) && negb (n =? 215)))%nat
  then ascii_of_nat (n + 32)
  else c.

(** [s.toLowerCase()] *)
Fixpoint toLowerCase (s : string) : string :=
  match s with
  | EmptyString => EmptyString
  | String c s' => String (lowerChar c) (toLowerCase s')
  end.

(** [parts.join(sep)] *)
Definition join (sep : string) (parts : list string) : string :=
  String.concat sep parts.

(** The character [c] occurs in [s]. *)
Fixpoint hasChar (c : ascii) (s : string) : bool :=
  match s with
  | EmptyString => false
  | String d s' => Ascii.eqb c d || hasChar c s'
  end.

End JsString.
Import JsString.

(* ================================================================= *)
(** ** Exceptions and JSON values *)

(** A thrown [Error] object. *)
Record JsError : Type := mkError { err_name : string; err_message : string }.

Definition TypeError (msg : string) : JsError := mkError "TypeError" msg.

(** [Error.prototype.toString] *)
Definition errorToString (e : JsError) : string :=
  if String.eqb (err_name e) "" then err_message e
  else if String.eqb (err_message e) "" then err_name e
  else err_name e ++ ": " ++ err_message e.

(** [String(err?.message || err)] *)
Definition errorDetail (e : JsError) : string :=
  if String.eqb (err_message e) "" then errorToString e else err_message e.

(** The outcome of an evaluation that may throw. *)
Inductive Exc (A : Type) : Type :=
| Ok (a : A)
| Throw (e : JsError).
Arguments Ok {A} a.
Arguments Throw {A} e.

(** What [JSON.parse] produces.  A number is kept as an integer: the
    handlers only test numbers for being zero. *)
Inductive JSON : Type :=
| JNull
| JBool (b : bool)
| JNum (n : Z)
| JStr (s : string)
| JArr (items : list JSON)
| JObj (fields : list (string * JSON)).

(** Own property of a parsed object; a later duplicate key wins. *)
Definition lookupField (key : string) (fields : list (string * JSON)) : option JSON :=
  fold_left (fun acc kv => if String.eqb (fst kv) key then Some (snd kv) else acc)
            fields None.

(** [(body as any).key] for one of the keys the worker reads: [None] is
    [undefined]; reading a property of [null] throws. *)
Definition getProp (body : JSON) (key : string) : Exc (option JSON) :=
  match body with
  | JNull =>
      Throw (TypeError ("Cannot read properties of null (reading '" ++ key ++ "')"))
  | JObj fields => Ok (lookupField key fields)
  | _ => Ok None
  end.

(** [!v] *)
Definition falsy (v : option JSON) : bool :=
  match v with
  | None | Some JNull | Some (JBool false) => true
  | Some (JNum n) => Z.eqb n 0
  | Some (JStr s) => String.eqb s ""
  | _ => false
  end.

(* ================================================================= *)
(** ** Model identifiers *)

Definition DEFAULT_MODEL : string := "@cf/meta/llama-3.3-70b-instruct-fp8-fast".
Definition FALLBACK_MODEL : string := "@cf/meta/llama-3.1-8b-instruct-fast".

(** The identifiers the model selector of [renderHtml] offers that name a
    model (its third option, ["gpt-5"], is an alias). *)
Definition supportedModels : list string := [DEFAULT_MODEL; FALLBACK_MODEL].

Definition isAlias (m : string) : bool :=
  String.eqb m "gpt-5" || String.eqb m "gpt5" || String.eqb m "gpt-4.1".

(** [resolveModel(model?: string)], applied by the handlers to
    [(body as any).model], which may be any parsed value. *)
Definition resolveModel (model : option JSON) : Exc string :=
  if falsy model then Ok DEFAULT_MODEL
  else match model with
       | Some (JStr s) =>
           let m := toLowerCase s in
           if isAlias m then Ok DEFAULT_MODEL else Ok s
       | _ => Throw (TypeError "model.toLowerCase is not a function")
       end.

(* ================================================================= *)
(** ** Messages and prompts *)

(** A role-tagged message.  Entries read back from the durable object also
    carry the time stamp [ts] the object added; they are passed to the
    model as they are. *)
Record Message : Type := mkMessage {
  role : string;
  content : string;
  ts : option Z
}.

Definition END : string := "<<<END_OF_RECIPE>>>".

Definition buildSystemPrompt : string :=
  join nl
    [ "You are a helpful, safety-conscious recipe generator.";
      "Given a list of ingredients the user has on hand, produce:";
      "- a recipe title";
      "- 1-2 sentence summary";
      "- ingredients list (quantities if possible)";
      "- step-by-step instructions";
      "- optional tips and substitutions";
      "Format as plain text with clear sections.";
      "At the very end of your response, append a single line containing "
        ++ END ++ ". Do not output anything after this marker." ].

(** [`- ${s.trim()}`] for one element of the ingredients array. *)
Definition ingredientLine (v : JSON) : Exc string :=
  match v with
  | JStr s => Ok ("- " ++ trim s)
  | JNull => Throw (TypeError "Cannot read properties of null (reading 'trim')")
  | _ => Throw (TypeError "s.trim is not a function")
  end.

(** [ingredients.map(...)]: the first element that throws ends the map. *)
Fixpoint ingredientLines (ingredients : list JSON) : Exc (list string) :=
  match ingredients with
  | [] => Ok []
  | v :: rest =>
      match ingredientLine v with
      | Throw e => Throw e
      | Ok l =>
          match ingredientLines rest with
          | Throw e => Throw e
          | Ok ls => Ok (l :: ls)
          end
      end
  end.

Definition userPromptFromInputs (ingredients : list JSON) (extras : option string)
  : Exc string :=
  match ingredientLines ingredients with
  | Throw e => Throw e
  | Ok lines =>
      let list := join nl lines in
      let extra :=
        match extras with
        | Some x =>
            if String.eqb (trim x) "" then ""
            else nl ++ "Constraints or preferences: " ++ trim x
        | None => ""
        end in
      Ok ("Here are the ingredients I have:" ++ nl ++ list ++ extra ++ nl ++
          "Generate one approachable recipe. If crucial items are missing, suggest substitutions.")
  end.

Definition systemMsg : Message := mkMessage "system" buildSystemPrompt None.

(** The guard of both history loops:
    [h.role === "user" || h.role === "assistant"]. *)
Definition keepRole (h : Message) : bool :=
  String.eqb (role h) "user" || String.eqb (role h) "assistant".

(** [for (const h of history ?? []) if (...) messages.push(h)] *)
Definition pushHistory (messages history : list Message) : list Message :=
  fold_left (fun msgs h => if keepRole h then msgs ++ [h] else msgs)%list
            history messages.

(** The message sequence of the first call of a request. *)
Definition buildMessages (history : list Message) (userMsg : Message) : list Message :=
  (pushHistory [systemMsg] history ++ [userMsg])%list.

(** The two copies of the continuation protocol. *)
Inductive Attempt : Type := Primary | Secondary.

Definition continuePrompt (a : Attempt) : string :=
  match a with
  | Primary =>
      "Continue exactly where you left off. Do not repeat completed sections. Finish any remaining sections. When you are completely finished, append the end marker "
        ++ END ++ "."
  | Secondary =>
      "Continue exactly where you left off and finish with " ++ END ++ ". Do not repeat."
  end.

(** [contMsgs]: the fresh sequence of a continuation call. *)
Definition contMsgs (a : Attempt) (history : list Message) (userMsg : Message)
           (full : string) : list Message :=
  (pushHistory [systemMsg] history ++
     [ userMsg;
       mkMessage "assistant" full None;
       mkMessage "user" (continuePrompt a) None ])%list.

(* ================================================================= *)
(** ** The durable object [SessionDO] *)

(** The requests the object routes, and everything else.  The fields of
    an append body are strings; a missing field is the empty string (both
    are falsy). *)
Inductive DoRequest : Type :=
| GetHistory
| PostAppend (role content : string)
| PostReset
| DoOther.

Inductive DoResponse : Type :=
| HistoryJson (history : list Message)
| AppendOk (size : nat)
| BadRequest
| ResetOk
| DoNotFound.

(** The value under the storage key ["history"], [None] when absent. *)
Definition Storage : Type := option (list Message).

(** [storage.get("history") ?? []] *)
Definition storedHistory (st : Storage) : list Message :=
  match st with Some h => h | None => [] end.

(** [history.slice(-n)] *)
Definition sliceLast (n : nat) (h : list Message) : list Message :=
  skipn (length h - n) h.

Definition HISTORY_CAP : nat := 20.

(** [SessionDO.fetch]; [now] is the value of [Date.now()]. *)
Definition SessionDO_fetch (now : Z) (request : DoRequest) (st : Storage)
  : DoResponse * Storage :=
  match request with
  | GetHistory => (HistoryJson (storedHistory st), st)
  | PostAppend r c =>
      if String.eqb r "" || String.eqb c "" then (BadRequest, st)
      else
        let history := (storedHistory st ++ [mkMessage r c (Some now)])%list in
        let trimmed := sliceLast HISTORY_CAP history in
        (AppendOk (length trimmed), Some trimmed)
  | PostReset => (ResetOk, None)
  | DoOther => (DoNotFound, st)
  end.

(* ================================================================= *)
(** ** The environment of the worker *)

(** A live stream of the model: the chunks it yields, then either the end
    of the stream or an error. *)
Record AiStream : Type := mkStream {
  chunks : list string;
  stream_error : option JsError
}.

(** What [env.AI.run] resolves to ([Promise<any>]): [null], a string, an
    object with optional [response] and [output_text] fields ([json] is
    its [JSON.stringify]), or a readable stream. *)
Inductive AiResult : Type :=
| AiNull
| AiText (s : string)
| AiObject (response output_text : option string) (json : string)
| AiReadable (s : AiStream).

(** The arguments of one [env.AI.run] call ([temperature] and [top_p] are
    the same constants in every call). *)
Record AiCall : Type := mkCall {
  call_model : string;
  call_messages : list Message;
  call_stream : bool;
  call_max_tokens : nat
}.

(** The collaborators.  The [nat] is the number of calls of that kind made
    before this one.  [do_fault i = Some e]: the [i]-th [stub.fetch]
    rejects with [e] and the object is not reached. *)
Record Env : Type := mkEnv {
  AI_run : nat -> AiCall -> Exc AiResult;
  do_fault : nat -> option JsError;
  date_now : nat -> Z
}.

(** The world of one session: the storage of the object that
    [env.SESSION_DO.get(env.SESSION_DO.idFromName(sid))] selects for that
    session, and the calls made so far, oldest first.  The requests run on
    one world are requests of that session; a statement about more than
    one request says so. *)
Record World : Type := mkWorld {
  storage : Storage;
  ai_log : list AiCall;
  do_log : list DoRequest
}.

(** State and exceptions. *)
Definition M (A : Type) : Type := World -> Exc A * World.

Definition ret {A : Type} (a : A) : M A := fun w => (Ok a, w).

Definition lift {A : Type} (x : Exc A) : M A := fun w => (x, w).

Definition bind {A B : Type} (m : M A) (k : A -> M B) : M B :=
  fun w =>
    match m w with
    | (Ok a, w') => k a w'
    | (Throw e, w') => (Throw e, w')
    end.

(** [try { m } catch (e) { h e }] *)
Definition tryCatch {A : Type} (m : M A) (h : JsError -> M A) : M A :=
  fun w =>
    match m w with
    | (Ok a, w') => (Ok a, w')
    | (Throw e, w') => h e w'
    end.

Notation "x <- m ;; k" := (bind m (fun x => k))
  (at level 61, m at next level, right associativity).

(** The HTTP response of the worker. *)
Inductive ResponseBody : Type :=
| BodyError (error : string) (detail : option string)
| BodyRecipe (model recipe : string) (note : option string)
| BodyOk
| BodyStream (s : AiStream).

Record Response : Type := mkResponse {
  status : nat;
  headers : list (string * string);
  body : ResponseBody
}.

(** [headers.set(name, value)] *)
Fixpoint headersSet (name value : string) (hs : list (string * string))
  : list (string * string) :=
  match hs with
  | [] => [(name, value)]
  | (n, v) :: rest =>
      if String.eqb n name then (name, value) :: rest
      else (n, v) :: headersSet name value rest
  end.

Definition setSessionCookieHeaders (sid : string) : list (string * string) :=
  headersSet "Content-Type" "application/json"
    (headersSet "Set-Cookie"
       ("sid=" ++ sid ++ "; Path=/; HttpOnly; SameSite=Lax; Max-Age=2592000") []).

(** A request to one of the API routes: the session identifier that
    [getOrCreateSessionId] yields for it, and the parsed body ([None] when
    [request.json()] rejects). *)
Record Request : Type := mkRequest {
  req_sid : string;
  req_body : option JSON
}.

(** The fields the handlers read from the body. *)
Record Inputs : Type := mkInputs {
  in_ingredients : list JSON;
  in_extras : option string;
  in_model : string
}.

(** [typeof result === "string" ? result : JSON.stringify(result)] and
    [String(result)] of a model result. *)
Definition stringOrStringify (result : AiResult) : string :=
  match result with
  | AiNull => "null"
  | AiText s => s
  | AiObject _ _ json => json
  | AiReadable _ => "{}"
  end.

Definition toString (result : AiResult) : string :=
  match result with
  | AiNull => "null"
  | AiText s => s
  | AiObject _ _ _ => "[object Object]"
  | AiReadable _ => "[object ReadableStream]"
  end.

(** [result.response ?? result.output_text ?? lastResort(result)];
    the primary copy ends in
    [typeof result === "string" ? result : JSON.stringify(result)],
    the other two in [String(result)]. *)
Definition extractText (lastResort : AiResult -> string) (result : AiResult)
  : Exc string :=
  match result with
  | AiNull => Throw (TypeError "Cannot read properties of null (reading 'response')")
  | AiObject (Some r) _ _ => Ok r
  | AiObject None (Some o) _ => Ok o
  | _ => Ok (lastResort result)
  end.

Definition lastResortOf (a : Attempt) : AiResult -> string :=
  match a with
  | Primary => stringOrStringify
  | Secondary => toString
  end.

Definition noteOf (a : Attempt) : option string :=
  match a with
  | Primary => None
  | Secondary => Some "Auto-fallback used."
  end.

(** [(await historyResp.json()).history ?? []] *)
Definition historyOfResponse (r : DoResponse) : Exc (list Message) :=
  match r with
  | HistoryJson h => Ok h
  | AppendOk _ | ResetOk => Ok []
  | BadRequest | DoNotFound =>
      Throw (mkError "SyntaxError" "Unexpected token in JSON")
  end.

(** [aiStream.tee()] *)
Definition tee (result : AiResult) : Exc (AiStream * AiStream) :=
  match result with
  | AiReadable s => Ok (s, s)
  | AiNull => Throw (TypeError "Cannot read properties of null (reading 'tee')")
  | _ =>
      Throw (TypeError
               "aiStream.tee is not a function or its return value is not iterable")
  end.

Definition MAX_ROUNDS : nat := 4.

Definition emptyInputResponse (sid : string) : Response :=
  mkResponse 400 (setSessionCookieHeaders sid)
             (BodyError "Provide at least one ingredient." None).

Definition failureResponse (sid error : string) (err : JsError) : Response :=
  mkResponse 500 (setSessionCookieHeaders sid)
             (BodyError error (Some (errorDetail err))).

Definition streamHeaders (sid : string) : list (string * string) :=
  headersSet "Cache-Control" "no-cache"
    (headersSet "Content-Type" "text/plain; charset=utf-8"
       (setSessionCookieHeaders sid)).

(** [Array.isArray(v) ? v : []] *)
Definition arrayItems (v : option JSON) : list JSON :=
  match v with Some (JArr items) => items | _ => [] end.

(** [typeof v === "string" ? v : undefined] *)
Definition stringOrUndefined (v : option JSON) : option string :=
  match v with Some (JStr x) => Some x | _ => None end.

(** [await request.json().catch(() => ({}))] *)
Definition bodyOf (req : Request) : JSON :=
  match req_body req with Some b => b | None => JObj [] end.

(** The first statements of both generation routes, up to the check of
    [ingredients.length]. *)
Definition readInputs (req : Request) : Exc Inputs :=
  let body := bodyOf req in
  match getProp body "ingredients" with
  | Throw e => Throw e
  | Ok iv =>
      let ingredients := arrayItems iv in
      match getProp body "extras" with
      | Throw e => Throw e
      | Ok ev =>
          let extras := stringOrUndefined ev in
          match getProp body "model" with
          | Throw e => Throw e
          | Ok mv =>
              match resolveModel mv with
              | Throw e => Throw e
              | Ok model => Ok (mkInputs ingredients extras model)
              end
          end
      end
  end.

Section Worker.

Variable env : Env.

(** [await env.AI.run(model, options)] *)
Definition runAI (c : AiCall) : M AiResult :=
  fun w =>
    (AI_run env (length (ai_log w)) c,
     mkWorld (storage w) (ai_log w ++ [c]) (do_log w)).

(** [await stub.fetch(...)], where [stub] is the object of the session the
    world belongs to. *)
Definition stubFetch (r : DoRequest) : M DoResponse :=
  fun w =>
    let i := length (do_log w) in
    match do_fault env i with
    | Some e => (Throw e, mkWorld (storage w) (ai_log w) (do_log w ++ [r]))
    | None =>
        let (resp, st) := SessionDO_fetch (date_now env i) r (storage w) in
        (Ok resp, mkWorld st (ai_log w) (do_log w ++ [r]))
    end.

(** [runOnce(msgs)] of the non-streaming route. *)
Definition runOnce (a : Attempt) (model : string) (msgs : list Message) : M string :=
  result <- runAI (mkCall model msgs false 3072) ;;
  lift (extractText (lastResortOf a) result).

(** [while (!full.includes(END) && rounds < 4) { ... rounds++ }];
    [remaining] is [4 - rounds]. *)
Fixpoint autoContinue (a : Attempt) (model : string) (history : list Message)
         (userMsg : Message) (remaining : nat) (full : string) : M string :=
  match remaining with
  | O => ret full
  | S k =>
      if includes END full then ret full
      else
        more <- runOnce a model (contMsgs a history userMsg full) ;;
        autoContinue a model history userMsg k
          (full ++ (if endsWith nl full then "" else nl) ++ more)
  end.

(** [let full = await runOnce(messages); while ... ;] *)
Definition continuation (a : Attempt) (model : string) (history : list Message)
           (userMsg : Message) (messages : list Message) : M string :=
  full <- runOnce a model messages ;;
  autoContinue a model history userMsg MAX_ROUNDS full.

(** The two appends that save the exchange. *)
Definition persist (userMsg : Message) (assistantText : string) : M unit :=
  _ <- stubFetch (PostAppend (role userMsg) (content userMsg)) ;;
  _ <- stubFetch (PostAppend "assistant" assistantText) ;;
  ret tt.

(** The body of one [try] block of the non-streaming route. *)
Definition attempt (a : Attempt) (model sid : string) (history : list Message)
           (userMsg : Message) (messages : list Message) : M Response :=
  full <- continuation a model history userMsg messages ;;
  let clean := trim (removeAll END full) in
  _ <- persist userMsg clean ;;
  ret (mkResponse 200 (setSessionCookieHeaders sid)
                  (BodyRecipe model clean (noteOf a))).

(** The [try]/[catch] of the non-streaming route: the primary attempt,
    then, when it throws and the model is not the fallback model, the
    same protocol against the fallback model; [err] is the exception of
    the primary attempt. *)
Definition fallbackPolicy (model sid : string) (history : list Message)
           (userMsg : Message) (messages : list Message) : M Response :=
  tryCatch
    (attempt Primary model sid history userMsg messages)
    (fun err =>
       if negb (String.eqb model FALLBACK_MODEL)
       then tryCatch
              (attempt Secondary FALLBACK_MODEL sid history userMsg messages)
              (fun _ => ret (failureResponse sid "AI request failed" err))
       else ret (failureResponse sid "AI request failed" err)).

(** [POST /api/recipe] *)
Definition api_recipe (req : Request) : M Response :=
  let sid := req_sid req in
  inp <- lift (readInputs req) ;;
  match in_ingredients inp with
  | [] => ret (emptyInputResponse sid)
  | _ :: _ =>
      historyResp <- stubFetch GetHistory ;;
      history <- lift (historyOfResponse historyResp) ;;
      prompt <- lift (userPromptFromInputs (in_ingredients inp) (in_extras inp)) ;;
      let userMsg := mkMessage "user" prompt None in
      let messages := buildMessages history userMsg in
      fallbackPolicy (in_model inp) sid history userMsg messages
  end.

(** The task handed to [ctx.waitUntil]: drain the second branch of the
    tee, then save the exchange; a failing append is swallowed. *)
Definition drainAndPersist (s2 : AiStream) (userMsg : Message) : M unit :=
  match stream_error s2 with
  | Some e => lift (Throw e)
  | None =>
      let acc := String.concat "" (chunks s2) in
      tryCatch (persist userMsg acc) (fun _ => ret tt)
  end.

(** [ctx.waitUntil(task)]: the task runs to its end and its rejection
    reaches nobody.  Its effects are sequenced after the statements that
    precede the [return] of the response. *)
Definition waitUntil (task : M unit) : M unit :=
  tryCatch task (fun _ => ret tt).

(** The [try] block of the streaming route. *)
Definition streamAttempt (model sid : string) (userMsg : Message)
           (messages : list Message) : M Response :=
  aiStream <- runAI (mkCall model messages true 1536) ;;
  s12 <- lift (tee aiStream) ;;
  _ <- waitUntil (drainAndPersist (snd s12) userMsg) ;;
  ret (mkResponse 200 (streamHeaders sid) (BodyStream (fst s12))).

(** Its [catch] block; [err] is the exception of the [try] block. *)
Definition streamFallback (model sid : string) (userMsg : Message)
           (messages : list Message) (err : JsError) : M Response :=
  tryCatch
    (result <- runAI (mkCall model messages false 1536) ;;
     text <- lift (extractText toString result) ;;
     _ <- persist userMsg text ;;
     ret (mkResponse 200 (setSessionCookieHeaders sid)
                     (BodyRecipe model text (Some "Stream fallback used."))))
    (fun _ => ret (failureResponse sid "AI streaming failed" err)).

Definition streamingRoute (model sid : string) (userMsg : Message)
           (messages : list Message) : M Response :=
  tryCatch (streamAttempt model sid userMsg messages)
           (streamFallback model sid userMsg messages).

(** [POST /api/recipe/stream] *)
Definition api_recipe_stream (req : Request) : M Response :=
  let sid := req_sid req in
  inp <- lift (readInputs req) ;;
  match in_ingredients inp with
  | [] => ret (emptyInputResponse sid)
  | _ :: _ =>
      historyResp <- stubFetch GetHistory ;;
      history <- lift (historyOfResponse historyResp) ;;
      prompt <- lift (userPromptFromInputs (in_ingredients inp) (in_extras inp)) ;;
      let userMsg := mkMessage "user" prompt None in
      let messages := buildMessages history userMsg in
      streamingRoute (in_model inp) sid userMsg messages
  end.

(** [POST /api/reset] *)
Definition api_reset (req : Request) : M Response :=
  _ <- stubFetch PostReset ;;
  ret (mkResponse 200 (setSessionCookieHeaders (req_sid req)) BodyOk).

(** *** Vocabulary of the statements *)

(** The world after one more model call. *)
Definition logCall (c : AiCall) (w : World) : World :=
  mkWorld (storage w) (ai_log w ++ [c]) (do_log w).

(** The text [runOnce] obtains from the [i]-th model call. *)
Definition answer (a : Attempt) (i : nat) (c : AiCall) : Exc string :=
  match AI_run env i c with
  | Ok result => extractText (lastResortOf a) result
  | Throw e => Throw e
  end.

End Worker.

(** The non-streaming call [runOnce] makes. *)
Definition plainCall (model : string) (msgs : list Message) : AiCall :=
  mkCall model msgs false 3072.

(** A request as the front end sends it: a list of texts, optional
    constraints, optional model identifier. *)
Definition generationRequest (sid : string) (rawInputs : list string)
           (constraints modelId : option string) : Request :=
  mkRequest sid
    (Some (JObj
       ([("ingredients", JArr (map JStr rawInputs))]
        ++ match constraints with Some x => [("extras", JStr x)] | None => [] end
        ++ match modelId with Some m => [("model", JStr m)] | None => [] end)%list)).

(** The recipe text of a response, if it carries one. *)
Definition recipeOf (r : Exc Response) : option string :=
  match r with
  | Ok resp => match body resp with BodyRecipe _ t _ => Some t | _ => None end
  | Throw _ => None
  end.

Definition isStreamBody (b : ResponseBody) : bool :=
  match b with BodyStream _ => true | _ => false end.



(** The character that opens the end marker. *)
Definition OPEN : ascii := "<"%char.

(** The character [c0] occurs in [s] only as the first character of whole
    occurrences of [pat], reading from left to right ([skip] as in
    [removeAllFrom]). *)
Fixpoint wholeMarkersFrom (pat : string) (c0 : ascii) (skip : nat) (s : string)
  : bool :=
  match s with
  | EmptyString => true
  | String c s' =>
      match skip with
      | S k => wholeMarkersFrom pat c0 k s'
      | O =>
          if startsWith pat s
          then wholeMarkersFrom pat c0 (String.length pat - 1) s'
          else negb (Ascii.eqb c c0) && wholeMarkersFrom pat c0 0 s'
      end
  end.

Definition wholeMarkers (s : string) : bool := wholeMarkersFrom END OPEN 0 s.

(** Every text the model hands to [runOnce] uses [OPEN] only in whole end
    markers. *)
Definition markersWhole (env : Env) : Prop :=
  forall i c result a text,
    AI_run env i c = Ok result ->
    extractText (lastResortOf a) result = Ok text ->
    wholeMarkers text = true.

(** [c] is a continuation call of the protocol: a non-streaming call to
    [model] whose sequence re-sends an accumulated text that does not
    contain the end marker. *)
Definition continuationCall (a : Attempt) (model : string) (history : list Message)
           (userMsg : Message) (c : AiCall) : Prop :=
  exists full,
    includes END full = false /\
    c = plainCall model (contMsgs a history userMsg full).

(** The value of a field of the request body, [None] when the body has
    no such field (a body that is no object has none). *)
Definition fieldOf (req : Request) (key : string) : option JSON :=
  match bodyOf req with
  | JObj fields => lookupField key fields
  | _ => None
  end.

Definition isJStr (v : JSON) : bool :=
  match v with JStr _ => true | _ => false end.


(** [c] is a call of a run of the protocol for [messages]: the initial
    call or a continuation call, against some model. *)
Definition protocolCall (history : list Message) (userMsg : Message)
           (messages : list Message) (c : AiCall) : Prop :=
  exists model,
    c = plainCall model messages \/
    exists a, continuationCall a model history userMsg c.

(** *** Environments and requests used as examples *)

Definition emptyWorld : World := mkWorld None [] [].

Definition noFault : nat -> option JsError := fun _ => None.

Definition clock0 : nat -> Z := fun _ => 0%Z.

(** A model that answers every call with the same text. *)
Definition constantAI (text : string) : nat -> AiCall -> Exc AiResult :=
  fun _ _ => Ok (AiText text).

Definition eggsRequest : Request := generationRequest "s1" ["eggs"] None None.

(** The model never emits the end marker. *)
Definition envNoMarker : Env := mkEnv (constantAI "part") noFault clock0.

(** The model finishes in one call. *)
Definition envComplete : Env :=
  mkEnv (constantAI ("Omelette" ++ nl ++ END)) noFault clock0.

(** The model emits an end marker inside another one. *)
Definition envNested : Env :=
  mkEnv (constantAI "<<<END_OF<<<END_OF_RECIPE>>>_RECIPE>>>") noFault clock0.

Definition storeDown : JsError := mkError "Error" "Durable Object unavailable".

(** The model finishes in one call; the history can be read, and every
    later [stub.fetch] rejects. *)
Definition envStoreDown : Env :=
  mkEnv (constantAI ("Omelette" ++ nl ++ END))
        (fun i => match i with O => None | S _ => Some storeDown end)
        clock0.

Definition modelDown : JsError := mkError "Error" "model overloaded".

(** Streaming calls reject; the model never emits the end marker. *)
Definition envStreamDown : Env :=
  mkEnv (fun _ c => if call_stream c then Throw modelDown else Ok (AiText "part"))
        noFault clock0.

(** Every model call rejects. *)
Definition envAllDown : Env :=
  mkEnv (fun _ _ => Throw modelDown) noFault clock0.

(** The primary model rejects, the fallback model finishes in one call. *)
Definition envPrimaryDown : Env :=
  mkEnv (fun _ c => if String.eqb (call_model c) FALLBACK_MODEL
                    then Ok (AiText ("Omelette" ++ nl ++ END))
                    else Throw modelDown)
        noFault clock0.

(** Two blank ingredients. *)
Definition blankRequest : Request :=
  mkRequest "s1" (Some (JObj [("ingredients", JArr [JStr ""; JStr "   "])])).

Definition sampleEntry : Message := mkMessage "user" "hello" (Some 0%Z).

Definition eggsMsg : Message :=
  mkMessage "user"
    ("Here are the ingredients I have:" ++ nl ++ "- eggs" ++ nl ++
     "Generate one approachable recipe. If crucial items are missing, suggest substitutions.")
    None.

(* ================================================================= *)
(** ** Session cookies, routing and the inline page *)

(** [headers.get(name)] *)
Fixpoint headersGet (name : string) (hs : list (string * string)) : option string :=
  match hs with
  | [] => None
  | (n, v) :: rest => if String.eqb n name then Some v else headersGet name rest
  end.

(** The value [setSessionCookieHeaders] gives to [Set-Cookie]. *)
Definition sessionCookie (sid : string) : string :=
  "sid=" ++ sid ++ "; Path=/; HttpOnly; SameSite=Lax; Max-Age=2592000".

Definition SEMI : ascii := ";"%char.

(** What [[^;]+] takes at the head of [s]: the characters before the first
    semicolon. *)
Fixpoint untilSemicolon (s : string) : string :=
  match s with
  | EmptyString => EmptyString
  | String c s' => if Ascii.eqb c SEMI then EmptyString else String c (untilSemicolon s')
  end.

(** [s.slice(n)] *)
Fixpoint dropChars (n : nat) (s : string) : string :=
  match n, s with
  | S k, String _ s' => dropChars k s'
  | _, _ => s
  end.

(** [/sid=([^;]+)/.exec(cookie)]: the first group of the leftmost match, a
    position where [sid=] is followed by at least one character other than
    a semicolon. *)
Fixpoint matchSid (cookie : string) : option string :=
  match cookie with
  | EmptyString => None
  | String _ rest =>
      if startsWith "sid=" cookie
      then match untilSemicolon (dropChars 4 cookie) with
           | EmptyString => matchSid rest
           | String c v => Some (String c v)
           end
      else matchSid rest
  end.

(** [getOrCreateSessionId]: [cookieHeader] is
    [request.headers.get("Cookie")] and [uuid] the value
    [crypto.randomUUID()] returns when it is called. *)
Definition getOrCreateSessionId (cookieHeader : option string) (uuid : string)
  : string :=
  let cookie := match cookieHeader with Some c => c | None => "" end in
  match matchSid cookie with
  | Some sid => sid
  | None => uuid
  end.

(** A request as the worker's [fetch] receives it. *)
Record HttpRequest : Type := mkHttp {
  http_method : string;
  http_pathname : string;
  http_cookie : option string;
  http_json : option JSON
}.

(** What the worker has besides the model and the session object: the
    source of fresh identifiers and the optional static assets binding
    ([assets request] is what [env.ASSETS.fetch(request)] resolves to). *)
Record Platform : Type := mkPlatform {
  randomUUID : string;
  ASSETS : option (HttpRequest -> Exc string)
}.

(** The response of [fetch]: of an API route, of the assets binding, the
    page of [renderHtml] (status 200), or the plain 404. *)
Inductive WorkerResponse : Type :=
| ApiResponse (r : Response)
| AssetResponse (asset : string)
| InlineHtml
| NotFound.

Definition sessionRequest (plat : Platform) (request : HttpRequest) : Request :=
  mkRequest (getOrCreateSessionId (http_cookie request) (randomUUID plat))
            (http_json request).

Definition isRoute (request : HttpRequest) (path method : string) : bool :=
  String.eqb (http_pathname request) path && String.eqb (http_method request) method.

(** The default export's [fetch]. *)
Definition worker_fetch (plat : Platform) (env : Env) (request : HttpRequest)
  : M WorkerResponse :=
  if isRoute request "/api/recipe" "POST" then
    r <- api_recipe env (sessionRequest plat request) ;; ret (ApiResponse r)
  else if isRoute request "/api/recipe/stream" "POST" then
    r <- api_recipe_stream env (sessionRequest plat request) ;; ret (ApiResponse r)
  else if isRoute request "/api/reset" "POST" then
    r <- api_reset env (sessionRequest plat request) ;; ret (ApiResponse r)
  else
    match ASSETS plat with
    | Some assets => a <- lift (assets request) ;; ret (AssetResponse a)
    | None =>
        if isRoute request "/" "GET" then ret InlineHtml else ret NotFound
    end.

Definition COMMA : ascii := ","%char.

(** [raw.split(",")] *)
Fixpoint splitComma (raw : string) : list string :=
  match raw with
  | EmptyString => [EmptyString]
  | String c rest =>
      if Ascii.eqb c COMMA then EmptyString :: splitComma rest
      else match splitComma rest with
           | [] => [String c EmptyString]
           | piece :: pieces => String c piece :: pieces
           end
  end.

(** The list the script of the inline page posts:
    [String(ingRaw).split(',').map(s => s.trim()).filter(Boolean)]. *)
Definition pageIngredients (raw : string) : list string :=
  filter (fun piece => negb (String.eqb piece "")) (map trim (splitComma raw)).

(** [generate()] of the inline page: nothing is posted for an empty list;
    otherwise the list, the extras field and the selected model. *)
Definition pageRequest (sid raw extras model : string) : option Request :=
  match pageIngredients raw with
  | [] => None
  | ing => Some (generationRequest sid ing (Some extras) (Some model))
  end.

(** *** More vocabulary *)

(** The object serves requests one after the other; each comes with the
    value of [Date.now()] at its arrival. *)
Fixpoint SessionDO_serve (requests : list (Z * DoRequest)) (st : Storage) : Storage :=
  match requests with
  | [] => st
  | (now, request) :: rest =>
      SessionDO_serve rest (snd (SessionDO_fetch now request st))
  end.

(** The append the object accepts. *)
Definition accepted (request : DoRequest) : bool :=
  match request with
  | PostAppend r c => negb (String.eqb r "" || String.eqb c "")
  | _ => false
  end.

(** The entry an append stores. *)
Definition entryOf (timed : Z * DoRequest) : list Message :=
  match timed with
  | (now, PostAppend r c) => [mkMessage r c (Some now)]
  | _ => []
  end.

Definition startsWhite (s : string) : bool :=
  match s with
  | EmptyString => false
  | String c _ => isWhite c
  end.

Fixpoint endsWhite (s : string) : bool :=
  match s with
  | EmptyString => false
  | String c EmptyString => isWhite c
  | String _ s' => endsWhite s'
  end.

(** The storage after the two appends of an exchange, made at the times
    [t1] and [t2]. *)
Definition saveExchange (t1 t2 : Z) (userMsg : Message) (text : string)
           (st : Storage) : Storage :=
  snd (SessionDO_fetch t2 (PostAppend "assistant" text)
         (snd (SessionDO_fetch t1 (PostAppend (role userMsg) (content userMsg)) st))).

(** The response of an attempt that ends normally with [full]. *)
Definition recipeResponse (a : Attempt) (model sid full : string) : Response :=
  mkResponse 200 (setSessionCookieHeaders sid)
             (BodyRecipe model (trim (removeAll END full)) (noteOf a)).

(** The response that hands the stream to the caller. *)
Definition streamResponse (sid : string) (s : AiStream) : Response :=
  mkResponse 200 (streamHeaders sid) (BodyStream s).

(** The response of the streaming route after its plain call. *)
Definition streamFallbackResponse (model sid text : string) : Response :=
  mkResponse 200 (setSessionCookieHeaders sid)
             (BodyRecipe model text (Some "Stream fallback used.")).

(** The two calls the streaming route can make. *)
Definition streamCall (model : string) (messages : list Message) : AiCall :=
  mkCall model messages true 1536.

Definition streamRetryCall (model : string) (messages : list Message) : AiCall :=
  mkCall model messages false 1536.

(** The stored history is within the cap and holds user and assistant
    turns only. *)
Definition historyOk (w : World) : Prop :=
  length (storedHistory (storage w)) <= HISTORY_CAP /\
  Forall (fun m => keepRole m = true) (storedHistory (storage w)).

(** The computation keeps [Inv], however it ends. *)
Definition preserves {A : Type} (Inv : World -> Prop) (m : M A) : Prop :=
  forall w, Inv w -> Inv (snd (m w)).

(** The requests the worker sends to the session object. *)
Definition workerRequest (r : DoRequest) : Prop :=
  match r with
  | GetHistory | PostReset => True
  | PostAppend who _ => who = "user" \/ who = "assistant"
  | DoOther => False
  end.

(** The store calls one attempt can make to save an exchange: none, the
    user append alone, or the user append and then the assistant append. *)
Definition savedTurns (prompt : string) (l : list DoRequest) : Prop :=
  l = [] \/ l = [PostAppend "user" prompt] \/
  exists text, l = [PostAppend "user" prompt; PostAppend "assistant" text].

(** No [stub.fetch] rejects. *)
Definition storeUp (env : Env) : Prop := forall i, do_fault env i = None.

(** The calls the non-streaming route may make for a request. *)
Definition recipeCall (req : Request) (c : AiCall) : Prop :=
  call_stream c = false /\ call_max_tokens c = 3072 /\
  exists inp, readInputs req = Ok inp /\
              (call_model c = in_model inp \/ call_model c = FALLBACK_MODEL).

(** The model answers with the end marker alone. *)
Definition envOnlyMarker : Env := mkEnv (constantAI END) noFault clock0.

Definition twoChunks : AiStream := mkStream ["Ome"; "lette"] None.

Definition brokenStream : AiStream := mkStream ["Ome"] (Some modelDown).

(** The model streams two chunks; the store works. *)
Definition envStreaming : Env :=
  mkEnv (fun _ _ => Ok (AiReadable twoChunks)) noFault clock0.

(** The model's stream breaks after one chunk. *)
Definition envStreamBreaks : Env :=
  mkEnv (fun _ _ => Ok (AiReadable brokenStream)) noFault clock0.

(** The model streams two chunks and every append rejects. *)
Definition envStreamingStoreDown : Env :=
  mkEnv (fun _ _ => Ok (AiReadable twoChunks))
        (fun i => match i with O => None | S _ => Some storeDown end)
        clock0.

Definition numberRequest : Request :=
  mkRequest "s1" (Some (JObj [("ingredients", JArr [JStr "eggs"; JNum 1])])).

Definition badModelRequest : Request :=
  mkRequest "s1" (Some (JObj [("model", JNum 5)])).

Definition plainPlatform : Platform := mkPlatform "fresh-id" None.

(** The model answers every call with an object whose [response] is the
    empty string. *)
Definition envEmptyResponse : Env :=
  mkEnv (fun _ _ => Ok (AiObject (Some "") None "{}")) noFault clock0.

Definition emptyBrokenStream : AiStream := mkStream [] (Some modelDown).

Definition emptyStream : AiStream := mkStream [] None.

(** The model hands over a stream that breaks before its first chunk;
    plain calls would finish in one call. *)
Definition envStreamBreaksAtOnce : Env :=
  mkEnv (fun _ c => if call_stream c then Ok (AiReadable emptyBrokenStream)
                    else Ok (AiText ("Omelette" ++ nl ++ END)))
        noFault clock0.

(** The model hands over a stream that ends without a chunk. *)
Definition envStreamEmpty : Env :=
  mkEnv (fun _ _ => Ok (AiReadable emptyStream)) noFault clock0.

(** The model finishes in one call and no [stub.fetch] goes through. *)
Definition envHistoryDown : Env :=
  mkEnv (constantAI ("Omelette" ++ nl ++ END)) (fun _ => Some storeDown) clock0.

Definition nullRequest : Request := mkRequest "s1" (Some JNull).

(* ================================================================= *)
(** * Properties *)

(** ** The definitions on examples *)

Example trim_example : trim (" " ++ nl ++ "a b" ++ nl ++ " ") = "a b".
Proof. reflexivity. Qed.

Example removeAll_example :
  removeAll END ("Omelette" ++ END ++ " and " ++ END) = "Omelette and ".
Proof. reflexivity. Qed.

Example includes_example :
  includes END ("Omelette" ++ nl ++ END) = true /\ includes END "<<<END_OF" = false.
Proof. split; reflexivity. Qed.

Example endsWith_example :
  endsWith nl ("Omelette" ++ nl) = true /\ endsWith nl "Omelette" = false.
Proof. split; reflexivity. Qed.

Example resolveModel_examples :
  resolveModel (Some (JStr "GPT-4.1")) = Ok DEFAULT_MODEL /\
  resolveModel (Some JNull) = Ok DEFAULT_MODEL /\
  resolveModel (Some (JNum 5))
  = Throw (TypeError "model.toLowerCase is not a function").
Proof. repeat split. Qed.

Example userPrompt_example :
  userPromptFromInputs [JStr " eggs "] None = Ok (content eggsMsg).
Proof. reflexivity. Qed.

(** An empty history, eggs, a model that finishes at once: one system and
    one user message are sent, and the history ends with the user turn
    followed by the assistant turn. *)
Example first_exchange :
  let result := api_recipe envComplete eggsRequest emptyWorld in
  recipeOf (fst result) = Some "Omelette" /\
  map (fun c => map role (call_messages c)) (ai_log (snd result))
  = [["system"; "user"]] /\
  map role (storedHistory (storage (snd result))) = ["user"; "assistant"].
Proof. vm_compute. repeat split. Qed.

(** Both models reject: one call each, and the error of the first one in
    the response. *)
Example both_models_down :
  let result := api_recipe envAllDown eggsRequest emptyWorld in
  fst result = Ok (failureResponse "s1" "AI request failed" modelDown) /\
  map call_model (ai_log (snd result)) = [DEFAULT_MODEL; FALLBACK_MODEL] /\
  storage (snd result) = None.
Proof. vm_compute. repeat split. Qed.

(** ** Strings *)

Section StringFacts.

Lemma startsWith_nil (s : string) : startsWith "" s = true.
Proof. destruct s; reflexivity. Qed.

Lemma startsWith_app (p s t : string) :
  startsWith p s = true -> startsWith p (s ++ t) = true.
Proof.
  revert s.
  induction p as [|a p IH]; intros s H; [apply startsWith_nil|].
  destruct s as [|b s]; [discriminate|].
  unfold startsWith in *. simpl in *.
  destruct (ascii_dec a b); auto.
Qed.

Lemma startsWith_length (p s : string) :
  startsWith p s = true -> String.length p <= String.length s.
Proof.
  revert s.
  induction p as [|a p IH]; intros s H; [simpl; lia|].
  destruct s as [|b s]; [discriminate|].
  unfold startsWith in *. simpl in *.
  destruct (ascii_dec a b); try discriminate.
  apply IH in H. lia.
Qed.

Lemma startsWith_head (a b : ascii) (p s : string) :
  startsWith (String a p) (String b s) = true -> a = b.
Proof.
  unfold startsWith. simpl. destruct (ascii_dec a b); [auto | discriminate].
Qed.

Lemma includes_cons (p : string) (c : ascii) (s : string) :
  includes p s = true -> includes p (String c s) = true.
Proof.
  intros H. cbn [includes]. rewrite H. apply orb_true_r.
Qed.

Lemma includes_app_r (p s t : string) :
  includes p t = true -> includes p (s ++ t) = true.
Proof.
  intros H. induction s as [|c s IH]; [exact H|].
  change (String c s ++ t) with (String c (s ++ t)).
  apply includes_cons. exact IH.
Qed.

Lemma includes_app_l (p s t : string) :
  includes p s = true -> includes p (s ++ t) = true.
Proof.
  induction s as [|c s IH]; cbn [includes]; intros H.
  - rewrite orb_false_r in H.
    assert (Hp : p = "") by (destruct p; [reflexivity | discriminate]).
    subst p. destruct ("" ++ t); reflexivity.
  - apply orb_true_iff in H. destruct H as [H|H].
    + apply (startsWith_app p (String c s) t) in H.
      change (String c s ++ t) with (String c (s ++ t)) in *.
      cbn [includes]. rewrite H. reflexivity.
    + change (String c s ++ t) with (String c (s ++ t)).
      apply includes_cons. apply IH. exact H.
Qed.

Lemma trimStart_suffix (s : string) : exists pre, s = pre ++ trimStart s.
Proof.
  induction s as [|c s [pre IH]]; simpl.
  - exists "". reflexivity.
  - destruct (isWhite c).
    + exists (String c pre). simpl. rewrite <- IH. reflexivity.
    + exists "". reflexivity.
Qed.

Lemma trimEnd_prefix (s : string) : exists suf, s = trimEnd s ++ suf.
Proof.
  induction s as [|c s [suf IH]]; simpl.
  - exists "". reflexivity.
  - destruct (trimEnd s) as [|d t] eqn:E.
    + destruct (isWhite c).
      * exists (String c s). reflexivity.
      * exists suf. simpl. simpl in IH. rewrite <- IH. reflexivity.
    + exists suf. simpl. simpl in IH. rewrite <- IH. reflexivity.
Qed.

Lemma includes_trim (p s : string) :
  includes p (trim s) = true -> includes p s = true.
Proof.
  unfold trim. intros H.
  destruct (trimStart_suffix s) as [pre Hpre].
  destruct (trimEnd_prefix (trimStart s)) as [suf Hsuf].
  rewrite Hpre. apply includes_app_r.
  rewrite Hsuf. apply includes_app_l. exact H.
Qed.

Lemma includes_hasChar (c : ascii) (p s : string) :
  includes (String c p) s = true -> hasChar c s = true.
Proof.
  induction s as [|d s IH]; cbn [includes hasChar]; intros H.
  - discriminate.
  - apply orb_true_iff in H. destruct H as [H|H].
    + apply startsWith_head in H. subst d.
      rewrite Ascii.eqb_refl. reflexivity.
    + rewrite (IH H). apply orb_true_r.
Qed.

Lemma hasChar_false_includes (c : ascii) (p s : string) :
  hasChar c s = false -> includes (String c p) s = false.
Proof.
  intros H. destruct (includes (String c p) s) eqn:E; auto.
  apply includes_hasChar in E. congruence.
Qed.

(** Removing the occurrences of a pattern whose first character occurs
    nowhere else leaves no such character. *)

Variables (c0 : ascii) (rest : string).

Lemma removeAllFrom_clean (s : string) :
  forall skip,
    wholeMarkersFrom (String c0 rest) c0 skip s = true ->
    hasChar c0 (removeAllFrom (String c0 rest) skip s) = false.
Proof.
  induction s as [|c s IH]; intros skip H; [reflexivity|].
  destruct skip as [|k].
  - cbn [wholeMarkersFrom removeAllFrom] in *.
    destruct (startsWith (String c0 rest) (String c s)).
    + apply IH. exact H.
    + apply andb_true_iff in H. destruct H as [Hc Hs].
      cbn [hasChar]. rewrite (IH 0 Hs), orb_false_r.
      rewrite Ascii.eqb_sym. apply negb_true_iff. exact Hc.
  - cbn [wholeMarkersFrom removeAllFrom] in *. apply IH. exact H.
Qed.

Lemma wholeMarkersFrom_app (s t : string) :
  forall skip,
    wholeMarkersFrom (String c0 rest) c0 skip s = true ->
    skip <= String.length s ->
    wholeMarkersFrom (String c0 rest) c0 0 t = true ->
    wholeMarkersFrom (String c0 rest) c0 skip (s ++ t) = true.
Proof.
  induction s as [|c s IH]; intros skip H Hlen Ht.
  - simpl in Hlen. assert (skip = 0) by lia. subst skip. exact Ht.
  - destruct skip as [|k].
    + change (String c s ++ t) with (String c (s ++ t)).
      cbn [wholeMarkersFrom] in *.
      destruct (startsWith (String c0 rest) (String c s)) eqn:E.
      * pose proof (startsWith_app _ _ t E) as E'.
        change (String c s ++ t) with (String c (s ++ t)) in E'.
        rewrite E'. apply IH; auto.
        apply startsWith_length in E. 
        cbn [String.length] in *. lia.
      * apply andb_true_iff in H. destruct H as [Hc Hs].
        assert (E' : startsWith (String c0 rest) (String c (s ++ t)) = false).
        { destruct (startsWith (String c0 rest) (String c (s ++ t))) eqn:E2; auto.
          apply startsWith_head in E2. subst c.
          rewrite Ascii.eqb_refl in Hc. discriminate. }
        rewrite E', Hc. simpl. apply IH; auto. lia.
    + change (String c s ++ t) with (String c (s ++ t)).
      cbn [wholeMarkersFrom] in *. apply IH; auto.
      simpl in Hlen. lia.
Qed.

End StringFacts.

Lemma wholeMarkers_app (s t : string) :
  wholeMarkers s = true -> wholeMarkers t = true -> wholeMarkers (s ++ t) = true.
Proof.
  unfold wholeMarkers, END, OPEN. intros Hs Ht.
  apply wholeMarkersFrom_app; auto. lia.
Qed.

Lemma removeAll_END_clean (s : string) :
  wholeMarkers s = true -> includes END (trim (removeAll END s)) = false.
Proof.
  intros H.
  destruct (includes END (trim (removeAll END s))) eqn:E; auto.
  apply includes_trim in E.
  unfold removeAll in E.
  pose proof (removeAllFrom_clean OPEN "<<END_OF_RECIPE>>>" s 0 H) as Hc.
  apply (hasChar_false_includes OPEN "<<END_OF_RECIPE>>>") in Hc.
  unfold END in E. unfold OPEN in Hc. congruence.
Qed.

(* ================================================================= *)
(** ** Message sequences *)

Lemma pushHistory_filter (history init : list Message) :
  pushHistory init history = (init ++ filter keepRole history)%list.
Proof.
  revert init. induction history as [|h history IH]; intros init.
  - cbn. rewrite app_nil_r. reflexivity.
  - cbn [pushHistory fold_left filter].
    change (fold_left (fun msgs h0 => if keepRole h0 then (msgs ++ [h0])%list else msgs)
                      history ?x) with (pushHistory x history).
    destruct (keepRole h); rewrite IH; [rewrite <- app_assoc|]; reflexivity.
Qed.

Lemma buildMessages_eq (history : list Message) (userMsg : Message) :
  buildMessages history userMsg
  = systemMsg :: (filter keepRole history ++ [userMsg])%list.
Proof.
  unfold buildMessages. rewrite pushHistory_filter. reflexivity.
Qed.








(* ================================================================= *)
(** ** The durable object *)

Lemma sliceLast_length (n : nat) (h : list Message) :
  length (sliceLast n h) = Nat.min n (length h).
Proof.
  unfold sliceLast. rewrite length_skipn. lia.
Qed.

Lemma sliceLast_suffix (n : nat) (h : list Message) :
  h = (firstn (length h - n) h ++ sliceLast n h)%list.
Proof.
  unfold sliceLast. symmetry. apply firstn_skipn.
Qed.

Lemma sliceLast_keeps_newest (n : nat) (old : list Message) (entry d : Message) :
  0 < n -> last (sliceLast n (old ++ [entry])) d = entry.
Proof.
  intros Hn. unfold sliceLast.
  rewrite skipn_app, length_app. cbn [length].
  replace (length old + 1 - n - length old) with 0 by lia.
  cbn [skipn]. apply last_last.
Qed.

(** Every request to the object keeps a log of at most [HISTORY_CAP]
    entries within the cap. *)
Lemma SessionDO_history_bounded (now : Z) (request : DoRequest) (st : Storage) :
  length (storedHistory st) <= HISTORY_CAP ->
  length (storedHistory (snd (SessionDO_fetch now request st))) <= HISTORY_CAP.
Proof.
  intros H. destruct request as [|r c| |]; cbn [SessionDO_fetch snd]; auto.
  - destruct (String.eqb r "" || String.eqb c ""); cbn [snd storedHistory]; auto.
    rewrite sliceLast_length. lia.
  - cbn. lia.
Qed.

(* ================================================================= *)
(** ** The continuation protocol *)

Section ProtocolFacts.

Variable env : Env.

Lemma runOnce_eq (a : Attempt) (model : string) (msgs : list Message) (w : World) :
  runOnce env a model msgs w =
  (answer env a (length (ai_log w)) (plainCall model msgs),
   logCall (plainCall model msgs) w).
Proof.
  unfold runOnce, bind, runAI, lift, answer, logCall, plainCall.
  destruct (AI_run env (length (ai_log w)) (mkCall model msgs false 3072));
    reflexivity.
Qed.

Lemma autoContinue_step (a : Attempt) (model : string) (history : list Message)
      (userMsg : Message) (k : nat) (full : string) (w : World) :
  autoContinue env a model history userMsg (S k) full w =
  if includes END full then (Ok full, w)
  else
    let c := plainCall model (contMsgs a history userMsg full) in
    match answer env a (length (ai_log w)) c with
    | Ok more =>
        autoContinue env a model history userMsg k
          (full ++ (if endsWith nl full then "" else nl) ++ more) (logCall c w)
    | Throw e => (Throw e, logCall c w)
    end.
Proof.
  cbn [autoContinue].
  destruct (includes END full); [reflexivity|].
  unfold bind. rewrite runOnce_eq.
  destruct (answer env a (length (ai_log w))
              (plainCall model (contMsgs a history userMsg full)));
    reflexivity.
Qed.

(** The loop makes at most [remaining] calls, each a continuation call,
    touches nothing but the call log, and when it ends normally either
    the end marker is there or all the rounds were used. *)
Lemma autoContinue_log (a : Attempt) (model : string) (history : list Message)
      (userMsg : Message) (remaining : nat) :
  forall full w,
  exists calls,
    ai_log (snd (autoContinue env a model history userMsg remaining full w))
    = (ai_log w ++ calls)%list /\
    storage (snd (autoContinue env a model history userMsg remaining full w))
    = storage w /\
    do_log (snd (autoContinue env a model history userMsg remaining full w))
    = do_log w /\
    length calls <= remaining /\
    Forall (continuationCall a model history userMsg) calls /\
    (forall full',
        fst (autoContinue env a model history userMsg remaining full w) = Ok full' ->
        includes END full' = true \/ length calls = remaining) /\
    (includes END full = true -> calls = []).
Proof.
  induction remaining as [|k IH]; intros full w.
  - exists []. cbn [autoContinue ret snd fst length].
    rewrite app_nil_r. repeat split; auto.
  - rewrite autoContinue_step.
    destruct (includes END full) eqn:Hinc.
    + exists []. cbn [snd fst length]. rewrite app_nil_r.
      repeat split; auto; try lia.
      intros full' H. inversion H; subst. left. exact Hinc.
    + set (c := plainCall model (contMsgs a history userMsg full)).
      cbv zeta.
      destruct (answer env a (length (ai_log w)) c) as [more|e].
      * destruct (IH (full ++ (if endsWith nl full then "" else nl) ++ more)
                    (logCall c w))
          as (calls & Hlog & Hst & Hdo & Hlen & Hall & Hend & _).
        exists (c :: calls).
        rewrite Hlog, Hst, Hdo. cbn [logCall ai_log storage do_log length].
        rewrite <- app_assoc. cbn [app].
        assert (Hc : continuationCall a model history userMsg c)
          by (exists full; split; auto).
        repeat split; auto; try lia; try discriminate.
        intros full' H. destruct (Hend full' H); [left; auto | right; lia].
      * exists [c]. cbn [snd fst logCall ai_log storage do_log length].
        assert (Hc : continuationCall a model history userMsg c)
          by (exists full; split; auto).
        repeat split; auto; try lia; discriminate.
Qed.

Lemma continuation_eq (a : Attempt) (model : string) (history : list Message)
      (userMsg : Message) (messages : list Message) (w : World) :
  continuation env a model history userMsg messages w =
  let c := plainCall model messages in
  match answer env a (length (ai_log w)) c with
  | Ok full =>
      autoContinue env a model history userMsg MAX_ROUNDS full (logCall c w)
  | Throw e => (Throw e, logCall c w)
  end.
Proof.
  unfold continuation, bind. rewrite runOnce_eq.
  destruct (answer env a (length (ai_log w)) (plainCall model messages));
    reflexivity.
Qed.

(** One run of the protocol: the initial call with [messages], then at
    most [MAX_ROUNDS] continuation calls. *)
Lemma continuation_log (a : Attempt) (model : string) (history : list Message)
      (userMsg : Message) (messages : list Message) (w : World) :
  exists conts,
    ai_log (snd (continuation env a model history userMsg messages w))
    = (ai_log w ++ plainCall model messages :: conts)%list /\
    storage (snd (continuation env a model history userMsg messages w))
    = storage w /\
    do_log (snd (continuation env a model history userMsg messages w))
    = do_log w /\
    length conts <= MAX_ROUNDS /\
    Forall (continuationCall a model history userMsg) conts /\
    (forall full,
        fst (continuation env a model history userMsg messages w) = Ok full ->
        includes END full = true \/ length conts = MAX_ROUNDS) /\
    (forall first,
        answer env a (length (ai_log w)) (plainCall model messages) = Ok first ->
        includes END first = true -> conts = []).
Proof.
  rewrite continuation_eq. cbv zeta.
  set (c := plainCall model messages).
  destruct (answer env a (length (ai_log w)) c) as [full|e].
  - destruct (autoContinue_log a model history userMsg MAX_ROUNDS full (logCall c w))
      as (calls & Hlog & Hst & Hdo & Hlen & Hall & Hend & Hstop).
    exists calls. rewrite Hlog, Hst, Hdo.
    cbn [logCall ai_log storage do_log]. rewrite <- app_assoc. cbn [app].
    repeat split; auto.
    intros first H Hinc. inversion H; subst. auto.
  - exists []. cbn [snd fst logCall ai_log storage do_log length].
    repeat split; auto; try lia; discriminate.
Qed.

End ProtocolFacts.

(* ================================================================= *)
(** ** Attempts and the fallback policy *)

Section RouteFacts.

Variable env : Env.

Lemma stubFetch_ai_log (r : DoRequest) (w : World) :
  ai_log (snd (stubFetch env r w)) = ai_log w.
Proof.
  unfold stubFetch.
  destruct (do_fault env (length (do_log w))); [reflexivity|].
  destruct (SessionDO_fetch (date_now env (length (do_log w))) r (storage w));
    reflexivity.
Qed.

Lemma persist_ai_log (userMsg : Message) (text : string) (w : World) :
  ai_log (snd (persist env userMsg text w)) = ai_log w.
Proof.
  unfold persist, bind.
  pose proof (stubFetch_ai_log (PostAppend (role userMsg) (content userMsg)) w) as H1.
  destruct (stubFetch env (PostAppend (role userMsg) (content userMsg)) w)
    as [[r1|e1] w1]; cbn [snd] in H1; [|exact H1].
  pose proof (stubFetch_ai_log (PostAppend "assistant" text) w1) as H2.
  destruct (stubFetch env (PostAppend "assistant" text) w1)
    as [[r2|e2] w2]; cbn [snd ret] in *; congruence.
Qed.

Lemma attempt_eq (a : Attempt) (model sid : string) (history : list Message)
      (userMsg : Message) (messages : list Message) (w : World) :
  attempt env a model sid history userMsg messages w =
  match continuation env a model history userMsg messages w with
  | (Ok full, w1) =>
      match persist env userMsg (trim (removeAll END full)) w1 with
      | (Ok _, w2) =>
          (Ok (mkResponse 200 (setSessionCookieHeaders sid)
                          (BodyRecipe model (trim (removeAll END full)) (noteOf a))),
           w2)
      | (Throw e, w2) => (Throw e, w2)
      end
  | (Throw e, w1) => (Throw e, w1)
  end.
Proof.
  unfold attempt, bind.
  destruct (continuation env a model history userMsg messages w) as [[full|e] w1];
    [|reflexivity].
  destruct (persist env userMsg (trim (removeAll END full)) w1) as [[u|e] w2];
    reflexivity.
Qed.

(** The model calls of one attempt are those of one run of the protocol. *)
Lemma attempt_log (a : Attempt) (model sid : string) (history : list Message)
      (userMsg : Message) (messages : list Message) (w : World) :
  exists conts,
    ai_log (snd (attempt env a model sid history userMsg messages w))
    = (ai_log w ++ plainCall model messages :: conts)%list /\
    length conts <= MAX_ROUNDS /\
    Forall (continuationCall a model history userMsg) conts.
Proof.
  rewrite attempt_eq.
  destruct (continuation_log env a model history userMsg messages w)
    as (conts & Hlog & _ & _ & Hlen & Hall & _).
  exists conts. split; [|split; assumption].
  destruct (continuation env a model history userMsg messages w) as [[full|e] w1];
    cbn [snd] in Hlog; [|exact Hlog].
  pose proof (persist_ai_log userMsg (trim (removeAll END full)) w1) as Hp.
  destruct (persist env userMsg (trim (removeAll END full)) w1) as [[u|e] w2];
    cbn [snd] in *; congruence.
Qed.

Lemma fallbackPolicy_primary_ok (model sid : string) (history : list Message)
      (userMsg : Message) (messages : list Message) (w w1 : World) (r : Response) :
  attempt env Primary model sid history userMsg messages w = (Ok r, w1) ->
  fallbackPolicy env model sid history userMsg messages w = (Ok r, w1).
Proof.
  intros H. unfold fallbackPolicy, tryCatch. rewrite H. reflexivity.
Qed.

Lemma fallbackPolicy_no_retry (model sid : string) (history : list Message)
      (userMsg : Message) (messages : list Message) (w w1 : World) (err : JsError) :
  attempt env Primary model sid history userMsg messages w = (Throw err, w1) ->
  model = FALLBACK_MODEL ->
  fallbackPolicy env model sid history userMsg messages w
  = (Ok (failureResponse sid "AI request failed" err), w1).
Proof.
  intros H Hm. unfold fallbackPolicy, tryCatch. rewrite H.
  subst model. rewrite String.eqb_refl. reflexivity.
Qed.

Lemma fallbackPolicy_retry (model sid : string) (history : list Message)
      (userMsg : Message) (messages : list Message) (w w1 : World) (err : JsError) :
  attempt env Primary model sid history userMsg messages w = (Throw err, w1) ->
  model <> FALLBACK_MODEL ->
  fallbackPolicy env model sid history userMsg messages w
  = match attempt env Secondary FALLBACK_MODEL sid history userMsg messages w1 with
    | (Ok r, w2) => (Ok r, w2)
    | (Throw _, w2) => (Ok (failureResponse sid "AI request failed" err), w2)
    end.
Proof.
  intros H Hm. unfold fallbackPolicy, tryCatch. rewrite H.
  apply String.eqb_neq in Hm. rewrite Hm. reflexivity.
Qed.

(** A run of the protocol reads nothing of the world but the number of
    model calls made so far, which selects the answers it gets. *)
Lemma autoContinue_frame (a : Attempt) (model : string) (history : list Message)
      (userMsg : Message) (remaining : nat) :
  forall full w w',
    length (ai_log w) = length (ai_log w') ->
    fst (autoContinue env a model history userMsg remaining full w)
    = fst (autoContinue env a model history userMsg remaining full w').
Proof.
  induction remaining as [|k IH]; intros full w w' Hlen; [reflexivity|].
  rewrite !autoContinue_step.
  destruct (includes END full); [reflexivity|].
  cbv zeta. rewrite <- Hlen.
  destruct (answer env a (length (ai_log w))
              (plainCall model (contMsgs a history userMsg full))); [|reflexivity].
  apply IH. cbn [logCall ai_log]. rewrite !length_app, Hlen. reflexivity.
Qed.

Lemma continuation_frame (a : Attempt) (model : string) (history : list Message)
      (userMsg : Message) (messages : list Message) (w w' : World) :
  length (ai_log w) = length (ai_log w') ->
  fst (continuation env a model history userMsg messages w)
  = fst (continuation env a model history userMsg messages w').
Proof.
  intros Hlen. rewrite !continuation_eq. cbv zeta. rewrite <- Hlen.
  destruct (answer env a (length (ai_log w)) (plainCall model messages));
    [|reflexivity].
  apply autoContinue_frame. cbn [logCall ai_log]. rewrite !length_app, Hlen.
  reflexivity.
Qed.

End RouteFacts.

(* ================================================================= *)
(** ** The routes *)

Section ApiFacts.

Variable env : Env.

(** What the non-streaming route does before the [try]: it throws without
    a model call, or rejects the empty input without any effect, or reads
    the history and enters the fallback policy. *)
Lemma api_recipe_inv (req : Request) (w : World) :
  (exists e w', api_recipe env req w = (Throw e, w') /\ ai_log w' = ai_log w)
  \/ (exists inp,
         readInputs req = Ok inp /\ in_ingredients inp = [] /\
         api_recipe env req w = (Ok (emptyInputResponse (req_sid req)), w))
  \/ (exists inp history prompt w1,
         readInputs req = Ok inp /\ in_ingredients inp <> [] /\
         userPromptFromInputs (in_ingredients inp) (in_extras inp) = Ok prompt /\
         stubFetch env GetHistory w = (Ok (HistoryJson history), w1) /\
         history = storedHistory (storage w) /\
         ai_log w1 = ai_log w /\
         api_recipe env req w
         = fallbackPolicy env (in_model inp) (req_sid req) history
             (mkMessage "user" prompt None)
             (buildMessages history (mkMessage "user" prompt None)) w1).
Proof.
  unfold api_recipe, bind, lift.
  destruct (readInputs req) as [inp|e]; [|left; eauto].
  destruct (in_ingredients inp) as [|x xs] eqn:Hing.
  - right; left. exists inp. auto.
  - pose proof (stubFetch_ai_log env GetHistory w) as Hlog.
    unfold stubFetch in *.
    destruct (do_fault env (length (do_log w))); [left; eauto|].
    cbn [SessionDO_fetch historyOfResponse] in *.
    destruct (userPromptFromInputs (x :: xs) (in_extras inp)) as [prompt|e] eqn:Hp;
      [|left; eauto].
    right; right. exists inp, (storedHistory (storage w)), prompt.
    eexists. rewrite Hing.
    repeat split; auto. discriminate.
Qed.

Lemma attempt_recipe (a : Attempt) (model sid : string) (history : list Message)
      (userMsg : Message) (messages : list Message) (w : World) (text : string) :
  recipeOf (fst (attempt env a model sid history userMsg messages w)) = Some text ->
  exists full,
    fst (continuation env a model history userMsg messages w) = Ok full /\
    text = trim (removeAll END full).
Proof.
  rewrite attempt_eq.
  destruct (continuation env a model history userMsg messages w) as [[full|e] w1];
    [|discriminate].
  destruct (persist env userMsg (trim (removeAll END full)) w1) as [[u|e] w2];
    [|discriminate].
  cbn [fst recipeOf body]. intros H. inversion H. exists full. auto.
Qed.

(** A recipe in the response of the fallback policy is the stripped and
    trimmed text of a run of the protocol that ended normally. *)
Lemma fallbackPolicy_recipe (model sid : string) (history : list Message)
      (userMsg : Message) (messages : list Message) (w : World) (text : string) :
  recipeOf (fst (fallbackPolicy env model sid history userMsg messages w)) = Some text ->
  exists a model' w0 full,
    fst (continuation env a model' history userMsg messages w0) = Ok full /\
    text = trim (removeAll END full).
Proof.
  destruct (attempt env Primary model sid history userMsg messages w)
    as [[r|err] w1] eqn:Hp.
  - rewrite (fallbackPolicy_primary_ok env _ _ _ _ _ _ _ _ Hp).
    intros H.
    destruct (attempt_recipe Primary model sid history userMsg messages w text)
      as (full & Hf & Ht); [rewrite Hp; exact H|].
    exists Primary, model, w, full. auto.
  - destruct (String.eqb_spec model FALLBACK_MODEL) as [Hm|Hm].
    + rewrite (fallbackPolicy_no_retry env _ _ _ _ _ _ _ _ Hp Hm). discriminate.
    + rewrite (fallbackPolicy_retry env _ _ _ _ _ _ _ _ Hp Hm).
      intros H.
      destruct (attempt_recipe Secondary FALLBACK_MODEL sid history userMsg
                  messages w1 text) as (full & Hf & Ht).
      * destruct (attempt env Secondary FALLBACK_MODEL sid history userMsg messages w1)
          as [[r|e] w2]; [exact H | discriminate].
      * exists Secondary, FALLBACK_MODEL, w1, full. auto.
Qed.

Lemma answer_markers (a : Attempt) (i : nat) (c : AiCall) (text : string) :
  markersWhole env -> answer env a i c = Ok text -> wholeMarkers text = true.
Proof.
  unfold answer. intros Henv H.
  destruct (AI_run env i c) as [result|e] eqn:E; [|discriminate].
  exact (Henv i c result a text E H).
Qed.

Lemma autoContinue_markers (a : Attempt) (model : string) (history : list Message)
      (userMsg : Message) (remaining : nat) :
  markersWhole env ->
  forall full w full',
    wholeMarkers full = true ->
    fst (autoContinue env a model history userMsg remaining full w) = Ok full' ->
    wholeMarkers full' = true.
Proof.
  intros Henv.
  induction remaining as [|k IH]; intros full w full' Hfull H.
  - cbn in H. inversion H; subst. exact Hfull.
  - rewrite autoContinue_step in H.
    destruct (includes END full).
    + cbn in H. inversion H; subst. exact Hfull.
    + cbv zeta in H.
      destruct (answer env a (length (ai_log w))
                  (plainCall model (contMsgs a history userMsg full)))
        as [more|e] eqn:E; [|discriminate].
      apply IH in H; auto.
      apply wholeMarkers_app; auto.
      apply wholeMarkers_app; [destruct (endsWith nl full); reflexivity|].
      exact (answer_markers _ _ _ _ Henv E).
Qed.

Lemma continuation_markers (a : Attempt) (model : string) (history : list Message)
      (userMsg : Message) (messages : list Message) (w : World) (full : string) :
  markersWhole env ->
  fst (continuation env a model history userMsg messages w) = Ok full ->
  wholeMarkers full = true.
Proof.
  intros Henv. rewrite continuation_eq. cbv zeta.
  destruct (answer env a (length (ai_log w)) (plainCall model messages))
    as [first|e] eqn:E; [|discriminate].
  apply autoContinue_markers; auto.
  exact (answer_markers _ _ _ _ Henv E).
Qed.

Lemma streamAttempt_throw (model sid : string) (userMsg : Message)
      (messages : list Message) (w : World) (err : JsError) :
  AI_run env (length (ai_log w)) (mkCall model messages true 1536) = Throw err ->
  streamAttempt env model sid userMsg messages w
  = (Throw err, logCall (mkCall model messages true 1536) w).
Proof.
  intros H. unfold streamAttempt, bind, runAI. rewrite H. reflexivity.
Qed.

(** Once the model has handed over a stream, the response is that stream,
    whatever happens to the appends of the background task. *)
Lemma streamAttempt_stream (model sid : string) (userMsg : Message)
      (messages : list Message) (w : World) (s : AiStream) :
  AI_run env (length (ai_log w)) (mkCall model messages true 1536) = Ok (AiReadable s) ->
  fst (streamAttempt env model sid userMsg messages w)
  = Ok (mkResponse 200 (streamHeaders sid) (BodyStream s)).
Proof.
  intros H. unfold streamAttempt, bind, runAI, lift, tee, waitUntil, tryCatch.
  rewrite H. cbn [fst snd].
  match goal with
  | |- context [drainAndPersist env s userMsg ?w1] =>
      destruct (drainAndPersist env s userMsg w1) as [[u|e] w2]
  end; reflexivity.
Qed.

Lemma streamFallback_eq (model sid : string) (userMsg : Message)
      (messages : list Message) (err : JsError) (w : World) :
  streamFallback env model sid userMsg messages err w =
  let c2 := mkCall model messages false 1536 in
  let failed := Ok (failureResponse sid "AI streaming failed" err) in
  match AI_run env (length (ai_log w)) c2 with
  | Ok result =>
      match extractText toString result with
      | Ok text =>
          match persist env userMsg text (logCall c2 w) with
          | (Ok _, w2) =>
              (Ok (mkResponse 200 (setSessionCookieHeaders sid)
                              (BodyRecipe model text (Some "Stream fallback used."))),
               w2)
          | (Throw _, w2) => (failed, w2)
          end
      | Throw _ => (failed, logCall c2 w)
      end
  | Throw _ => (failed, logCall c2 w)
  end.
Proof.
  unfold streamFallback, tryCatch, bind, runAI, lift, logCall. cbv zeta.
  destruct (AI_run env (length (ai_log w)) (mkCall model messages false 1536))
    as [result|e]; [|reflexivity].
  destruct (extractText toString result) as [text|e]; [|reflexivity].
  match goal with
  | |- context [persist env userMsg text ?w1] =>
      destruct (persist env userMsg text w1) as [[u|e] w2]
  end; reflexivity.
Qed.

Lemma persist_ok (userMsg : Message) (text : string) (w : World) :
  do_fault env (length (do_log w)) = None ->
  do_fault env (S (length (do_log w))) = None ->
  fst (persist env userMsg text w) = Ok tt.
Proof.
  intros H1 H2. unfold persist, bind, stubFetch. rewrite H1.
  destruct (SessionDO_fetch (date_now env (length (do_log w)))
              (PostAppend (role userMsg) (content userMsg)) (storage w)) as [r1 st1].
  cbn [do_log storage ai_log]. rewrite length_app, Nat.add_1_r, H2.
  match goal with
  | |- context [SessionDO_fetch ?n ?r ?st] =>
      destruct (SessionDO_fetch n r st) as [r2 st2]
  end.
  reflexivity.
Qed.

(** The model calls of the fallback policy: the initial call of the
    primary attempt, then at most nine more calls of the two runs. *)
Lemma fallbackPolicy_log (model sid : string) (history : list Message)
      (userMsg : Message) (messages : list Message) (w : World) :
  exists calls,
    ai_log (snd (fallbackPolicy env model sid history userMsg messages w))
    = (ai_log w ++ plainCall model messages :: calls)%list /\
    length calls <= 9 /\
    Forall (protocolCall history userMsg messages) calls.
Proof.
  destruct (attempt_log env Primary model sid history userMsg messages w)
    as (conts & Hlog & Hlen & Hall).
  assert (Hall' : Forall (protocolCall history userMsg messages) conts).
  { apply (Forall_impl _ (P := continuationCall Primary model history userMsg));
      [|exact Hall].
    intros c Hc. exists model. right. exists Primary. exact Hc. }
  unfold MAX_ROUNDS in *.
  destruct (attempt env Primary model sid history userMsg messages w)
    as [[r|err] w1] eqn:Hp; cbn [snd] in Hlog.
  - rewrite (fallbackPolicy_primary_ok env _ _ _ _ _ _ _ _ Hp).
    exists conts. cbn [snd]. repeat split; auto. lia.
  - destruct (String.eqb_spec model FALLBACK_MODEL) as [Hm|Hm].
    + rewrite (fallbackPolicy_no_retry env _ _ _ _ _ _ _ _ Hp Hm).
      exists conts. cbn [snd]. repeat split; auto. lia.
    + rewrite (fallbackPolicy_retry env _ _ _ _ _ _ _ _ Hp Hm).
      destruct (attempt_log env Secondary FALLBACK_MODEL sid history userMsg messages w1)
        as (conts2 & Hlog2 & Hlen2 & Hall2).
      exists (conts ++ plainCall FALLBACK_MODEL messages :: conts2)%list.
      split; [|split].
      * destruct (attempt env Secondary FALLBACK_MODEL sid history userMsg messages w1)
          as [[r|e] w2]; cbn [snd] in *; rewrite Hlog2, Hlog, <- app_assoc;
          reflexivity.
      * rewrite length_app. cbn [length]. unfold MAX_ROUNDS in *. lia.
      * apply Forall_app. split; [exact Hall'|].
        constructor.
        -- exists FALLBACK_MODEL. left. reflexivity.
        -- apply (Forall_impl _
                    (P := continuationCall Secondary FALLBACK_MODEL history userMsg));
             [|exact Hall2].
           intros c Hc. exists FALLBACK_MODEL. right. exists Secondary. exact Hc.
Qed.

Lemma attempt_status (a : Attempt) (model sid : string) (history : list Message)
      (userMsg : Message) (messages : list Message) (w : World) (r : Response) :
  fst (attempt env a model sid history userMsg messages w) = Ok r -> status r = 200.
Proof.
  rewrite attempt_eq.
  destruct (continuation env a model history userMsg messages w) as [[full|e] w1];
    [|discriminate].
  destruct (persist env userMsg (trim (removeAll END full)) w1) as [[u|e] w2];
    [|discriminate].
  cbn [fst]. intros H. inversion H. reflexivity.
Qed.

(** The fallback policy never throws, and answers 200 or 500. *)
Lemma fallbackPolicy_status (model sid : string) (history : list Message)
      (userMsg : Message) (messages : list Message) (w : World) :
  exists r,
    fst (fallbackPolicy env model sid history userMsg messages w) = Ok r /\
    (status r = 200 \/ status r = 500).
Proof.
  pose proof (attempt_status Primary model sid history userMsg messages w) as Hs.
  destruct (attempt env Primary model sid history userMsg messages w)
    as [[r|err] w1] eqn:Hp.
  - rewrite (fallbackPolicy_primary_ok env _ _ _ _ _ _ _ _ Hp).
    exists r. split; [reflexivity|]. left. apply Hs. reflexivity.
  - destruct (String.eqb_spec model FALLBACK_MODEL) as [Hm|Hm].
    + rewrite (fallbackPolicy_no_retry env _ _ _ _ _ _ _ _ Hp Hm).
      eexists. split; [reflexivity|]. right. reflexivity.
    + rewrite (fallbackPolicy_retry env _ _ _ _ _ _ _ _ Hp Hm).
      pose proof (attempt_status Secondary FALLBACK_MODEL sid history userMsg
                    messages w1) as Hs2.
      destruct (attempt env Secondary FALLBACK_MODEL sid history userMsg messages w1)
        as [[r|e] w2].
      * exists r. split; [reflexivity|]. left. apply Hs2. reflexivity.
      * eexists. split; [reflexivity|]. right. reflexivity.
Qed.

(** With readable inputs, at least one ingredient, a readable history and
    a prompt, the non-streaming route enters the fallback policy. *)
Lemma api_recipe_run (req : Request) (w : World) (inp : Inputs) (prompt : string) :
  readInputs req = Ok inp ->
  in_ingredients inp <> [] ->
  do_fault env (length (do_log w)) = None ->
  userPromptFromInputs (in_ingredients inp) (in_extras inp) = Ok prompt ->
  api_recipe env req w
  = fallbackPolicy env (in_model inp) (req_sid req) (storedHistory (storage w))
      (mkMessage "user" prompt None)
      (buildMessages (storedHistory (storage w)) (mkMessage "user" prompt None))
      (mkWorld (storage w) (ai_log w) (do_log w ++ [GetHistory])).
Proof.
  intros Hin Hne Hf Hp.
  unfold api_recipe, bind, lift, stubFetch. rewrite Hin.
  destruct (in_ingredients inp) as [|x xs] eqn:Hing; [congruence|].
  rewrite Hf. cbn [SessionDO_fetch historyOfResponse]. rewrite Hp. reflexivity.
Qed.

End ApiFacts.

(* ================================================================= *)
(** ** Reading the request *)

Lemma resolveModel_string (s : string) :
  resolveModel (Some (JStr s))
  = Ok (if String.eqb s "" || isAlias (toLowerCase s) then DEFAULT_MODEL else s).
Proof.
  unfold resolveModel, falsy.
  destruct (String.eqb s ""); [reflexivity|].
  cbn [orb]. destruct (isAlias (toLowerCase s)); reflexivity.
Qed.

(** For a body other than [null] the inputs are read field by field; only
    the model field can make the reading throw. *)
Lemma readInputs_fields (req : Request) :
  req_body req <> Some JNull ->
  readInputs req
  = match resolveModel (fieldOf req "model") with
    | Ok model =>
        Ok (mkInputs (arrayItems (fieldOf req "ingredients"))
                     (stringOrUndefined (fieldOf req "extras")) model)
    | Throw e => Throw e
    end.
Proof.
  intros Hnull. unfold readInputs, fieldOf.
  destruct (bodyOf req) eqn:Hb; try reflexivity.
  exfalso. apply Hnull. unfold bodyOf in Hb.
  destruct (req_body req) as [b|]; [congruence | discriminate].
Qed.

Lemma readInputs_generationRequest
      (sid : string) (rawInputs : list string) (constraints modelId : option string) :
  exists model,
    readInputs (generationRequest sid rawInputs constraints modelId)
    = Ok (mkInputs (map JStr rawInputs) constraints model).
Proof.
  rewrite readInputs_fields by discriminate.
  assert (Hm : exists model,
             resolveModel (fieldOf (generationRequest sid rawInputs constraints modelId)
                                   "model") = Ok model).
  { destruct constraints, modelId; cbn -[resolveModel];
      try rewrite resolveModel_string; eauto;
      exists DEFAULT_MODEL; reflexivity. }
  destruct Hm as [model Hm]. rewrite Hm. exists model.
  destruct constraints, modelId; reflexivity.
Qed.

Lemma ingredientLines_strings (items : list JSON) :
  forallb isJStr items = true -> exists lines, ingredientLines items = Ok lines.
Proof.
  induction items as [|v items IH]; intros H.
  - exists []. reflexivity.
  - cbn [forallb] in H. apply andb_true_iff in H. destruct H as [Hv Hrest].
    destruct (IH Hrest) as [lines Hl].
    destruct v; try discriminate.
    cbn [ingredientLines ingredientLine]. rewrite Hl. eauto.
Qed.

Lemma userPrompt_strings (items : list JSON) (extras : option string) :
  forallb isJStr items = true ->
  exists prompt, userPromptFromInputs items extras = Ok prompt.
Proof.
  intros H. destruct (ingredientLines_strings items H) as [lines Hl].
  unfold userPromptFromInputs. rewrite Hl. eauto.
Qed.


(** C1, as amended.  One run of the continuation protocol issues at least
    one and at most five inference calls: the initial call and at most four
    continuation calls.  Every continuation call re-sends an accumulated
    text without the end marker, so the run stops as soon as the marker is
    there: when the first answer has it no continuation call is made, and a
    run that ends normally before the fifth call ends with the marker in
    the accumulated text. *)
Theorem C1_continuation_at_most_five_calls
        (env : Env) (a : Attempt) (model : string) (history : list Message)
        (userMsg : Message) (messages : list Message) (w : World) :
  exists conts,
    ai_log (snd (continuation env a model history userMsg messages w))
    = (ai_log w ++ plainCall model messages :: conts)%list /\
    length (plainCall model messages :: conts) <= 5 /\
    length conts <= 4 /\
    Forall (continuationCall a model history userMsg) conts /\
    (forall full,
        fst (continuation env a model history userMsg messages w) = Ok full ->
        includes END full = true \/ length (plainCall model messages :: conts) = 5) /\
    (forall first,
        answer env a (length (ai_log w)) (plainCall model messages) = Ok first ->
        includes END first = true -> conts = []).
Proof.
  destruct (continuation_log env a model history userMsg messages w)
    as (conts & Hlog & _ & _ & Hlen & Hall & Hend & Hstop).
  exists conts. unfold MAX_ROUNDS in *. cbn [length].
  repeat split; auto; try lia.
  intros full H. destruct (Hend full H); [left; auto | right; lia].
Qed.

(** C1 as stated fails: a model that never emits the end marker is called
    five times by one run of the protocol. *)
Lemma C1_counterexample_five_calls :
  ~ (forall (env : Env) (a : Attempt) (model : string) (history : list Message)
            (userMsg : Message) (messages : list Message) (w : World),
        length (ai_log (snd (continuation env a model history userMsg messages w)))
        <= length (ai_log w) + 4).
Proof.
  intros H.
  specialize (H envNoMarker Primary DEFAULT_MODEL [] eggsMsg
                (buildMessages [] eggsMsg) emptyWorld).
  vm_compute in H. lia.
Qed.

Lemma errorDetail_eq (e : JsError) :
  errorDetail e
  = if String.eqb (err_message e) "" then err_name e else err_message e.
Proof.
  unfold errorDetail, errorToString.
  destruct (String.eqb_spec (err_message e) "") as [Hm|Hm]; [|reflexivity].
  destruct (String.eqb_spec (err_name e) "") as [Hn|Hn]; congruence.
Qed.

Lemma autoContinue_first_call (env : Env) (a : Attempt) (model : string)
      (history : list Message) (userMsg : Message) (k : nat) (full : string)
      (w : World) :
  includes END full = false ->
  exists rest,
    ai_log (snd (autoContinue env a model history userMsg (S k) full w))
    = (ai_log w ++ plainCall model (contMsgs a history userMsg full) :: rest)%list.
Proof.
  intros Hinc. rewrite autoContinue_step, Hinc. cbv zeta.
  set (c := plainCall model (contMsgs a history userMsg full)).
  destruct (answer env a (length (ai_log w)) c) as [more|e].
  - destruct (autoContinue_log env a model history userMsg k
                (full ++ (if endsWith nl full then "" else nl) ++ more) (logCall c w))
      as (calls & Hlog & _).
    exists calls. rewrite Hlog. cbn [logCall ai_log]. rewrite <- app_assoc. reflexivity.
  - exists []. reflexivity.
Qed.

(** The calls of one run of the protocol, with the second call spelled
    out: it re-sends the first answer as the assistant turn. *)
Lemma continuation_trace (env : Env) (a : Attempt) (model : string)
      (history : list Message) (userMsg : Message) (messages : list Message)
      (w : World) :
  exists conts,
    ai_log (snd (continuation env a model history userMsg messages w))
    = (ai_log w ++ plainCall model messages :: conts)%list /\
    length conts <= 4 /\
    Forall (continuationCall a model history userMsg) conts /\
    (forall full,
        fst (continuation env a model history userMsg messages w) = Ok full ->
        includes END full = true \/ length conts = 4) /\
    (forall first,
        answer env a (length (ai_log w)) (plainCall model messages) = Ok first ->
        (includes END first = true -> conts = []) /\
        (includes END first = false ->
         exists rest,
           conts = plainCall model (contMsgs a history userMsg first) :: rest)).
Proof.
  destruct (continuation_log env a model history userMsg messages w)
    as (conts & Hlog & _ & _ & Hlen & Hall & Hend & Hstop).
  exists conts. unfold MAX_ROUNDS in *.
  split; [exact Hlog|]. split; [exact Hlen|]. split; [exact Hall|].
  split; [exact Hend|].
  intros first Hfirst. split; [exact (Hstop first Hfirst)|].
  intros Hinc.
  rewrite continuation_eq in Hlog. cbv zeta in Hlog. rewrite Hfirst in Hlog.
  destruct (autoContinue_first_call env a model history userMsg 3 first
              (logCall (plainCall model messages) w) Hinc) as [rest Hrest].
  unfold MAX_ROUNDS in Hlog. rewrite Hrest in Hlog.
  cbn [logCall ai_log] in Hlog. rewrite <- app_assoc in Hlog.
  apply app_inv_head in Hlog. cbn [app] in Hlog.
  inversion Hlog. exists rest. reflexivity.
Qed.

Lemma attempt_ai_log (env : Env) (a : Attempt) (model sid : string)
      (history : list Message) (userMsg : Message) (messages : list Message)
      (w : World) :
  ai_log (snd (attempt env a model sid history userMsg messages w))
  = ai_log (snd (continuation env a model history userMsg messages w)).
Proof.
  rewrite attempt_eq.
  destruct (continuation env a model history userMsg messages w) as [[full|e] w1];
    [|reflexivity].
  pose proof (persist_ai_log env userMsg (trim (removeAll END full)) w1) as Hp.
  destruct (persist env userMsg (trim (removeAll END full)) w1) as [[u|e] w2];
    exact Hp.
Qed.

(** C5, as amended.  When the primary attempt throws [err]: if the model
    is the fallback model no retry is made and the response is the
    terminal error, status 500, whose detail is the message of [err] (its
    name when the message is empty); otherwise the protocol is run exactly
    once more, from its initial message sequence and against the fallback
    model only.  That run is the whole protocol: its first call carries the
    original [messages]; when the first answer lacks the end marker the
    next call re-sends that answer, and nothing of the primary attempt, as
    the assistant turn; at most four continuation calls are made, and a
    run that ends normally has the marker or has made all five calls; its
    text depends on the answers to its own calls alone.  Its recipe is
    returned with the fallback note when it succeeds, and when it throws
    too the response is the single terminal error with the detail of the
    primary [err]. *)
Theorem C5_fallback_once_with_primary_detail
        (env : Env) (model sid : string) (history : list Message)
        (userMsg : Message) (messages : list Message) (w w1 : World)
        (err : JsError) :
  attempt env Primary model sid history userMsg messages w = (Throw err, w1) ->
  let detail :=
    if String.eqb (err_message err) "" then err_name err else err_message err in
  let terminal :=
    mkResponse 500 (setSessionCookieHeaders sid)
               (BodyError "AI request failed" (Some detail)) in
  (model = FALLBACK_MODEL ->
   fallbackPolicy env model sid history userMsg messages w = (Ok terminal, w1))
  /\
  (model <> FALLBACK_MODEL ->
   let retry := attempt env Secondary FALLBACK_MODEL sid history userMsg messages w1 in
   let run := continuation env Secondary FALLBACK_MODEL history userMsg messages w1 in
   let result := fallbackPolicy env model sid history userMsg messages w in
   let firstCall := plainCall FALLBACK_MODEL messages in
   snd result = snd retry /\
   (exists conts,
       ai_log (snd result) = (ai_log w1 ++ firstCall :: conts)%list /\
       length conts <= 4 /\
       Forall (continuationCall Secondary FALLBACK_MODEL history userMsg) conts /\
       (forall first,
           answer env Secondary (length (ai_log w1)) firstCall = Ok first ->
           (includes END first = true -> conts = []) /\
           (includes END first = false ->
            exists rest,
              conts = plainCall FALLBACK_MODEL
                        (contMsgs Secondary history userMsg first) :: rest)) /\
       (forall resp,
           fst retry = Ok resp ->
           fst result = Ok resp /\
           exists full,
             fst run = Ok full /\
             resp = mkResponse 200 (setSessionCookieHeaders sid)
                      (BodyRecipe FALLBACK_MODEL (trim (removeAll END full))
                                  (Some "Auto-fallback used.")) /\
             (includes END full = true \/ length conts = 4))) /\
   (forall w',
       length (ai_log w') = length (ai_log w1) ->
       fst (continuation env Secondary FALLBACK_MODEL history userMsg messages w')
       = fst run) /\
   (forall e2, fst retry = Throw e2 -> fst result = Ok terminal)).
Proof.
  intros H. cbv zeta.
  assert (Hterminal :
            failureResponse sid "AI request failed" err
            = mkResponse 500 (setSessionCookieHeaders sid)
                (BodyError "AI request failed"
                   (Some (if String.eqb (err_message err) ""
                          then err_name err else err_message err)))).
  { unfold failureResponse. rewrite errorDetail_eq. reflexivity. }
  split; intros Hm.
  - rewrite <- Hterminal. apply fallbackPolicy_no_retry; assumption.
  - rewrite (fallbackPolicy_retry env _ _ _ _ _ _ _ _ H Hm), <- Hterminal.
    destruct (continuation_trace env Secondary FALLBACK_MODEL history userMsg messages w1)
      as (conts & Hlog & Hlen & Hall & Hend & Hfirst).
    rewrite <- attempt_ai_log with (sid := sid) in Hlog.
    pose proof (attempt_eq env Secondary FALLBACK_MODEL sid history userMsg messages w1)
      as Heq.
    destruct (attempt env Secondary FALLBACK_MODEL sid history userMsg messages w1)
      as [[r|e] w2]; cbn [fst snd] in *.
    + split; [reflexivity|]. split.
      * exists conts. split; [exact Hlog|]. split; [exact Hlen|]. split; [exact Hall|].
        split; [exact Hfirst|].
        intros resp Hresp. inversion Hresp; subst resp. split; [reflexivity|].
        destruct (continuation env Secondary FALLBACK_MODEL history userMsg messages w1)
          as [[full|e] w1']; [|discriminate].
        destruct (persist env userMsg (trim (removeAll END full)) w1') as [[u|e] w3];
          [|discriminate].
        inversion Heq. exists full. cbn [fst] in Hend.
        split; [reflexivity|]. split; [reflexivity|]. apply Hend. reflexivity.
      * split; [intros w' Hw; apply continuation_frame; exact Hw|]. discriminate.
    + split; [reflexivity|]. split.
      * exists conts. split; [exact Hlog|]. split; [exact Hlen|]. split; [exact Hall|].
        split; [exact Hfirst|]. discriminate.
      * split; [intros w' Hw; apply continuation_frame; exact Hw|].
        intros e2 _. reflexivity.
Qed.

(** An instance of C5: the primary model rejects, the fallback model
    answers. *)
Lemma C5_witness_primary_down :
  let w := emptyWorld in
  let messages := buildMessages [] eggsMsg in
  let result := fallbackPolicy envPrimaryDown DEFAULT_MODEL "s1" [] eggsMsg messages w in
  recipeOf (fst result) = Some "Omelette" /\
  map call_model (ai_log (snd result)) = [DEFAULT_MODEL; FALLBACK_MODEL].
Proof.
  cbv zeta.
  assert (Hp : attempt envPrimaryDown Primary DEFAULT_MODEL "s1" [] eggsMsg
                 (buildMessages [] eggsMsg) emptyWorld
               = (Throw modelDown,
                  logCall (plainCall DEFAULT_MODEL (buildMessages [] eggsMsg)) emptyWorld))
    by reflexivity.
  assert (Hm : DEFAULT_MODEL <> FALLBACK_MODEL) by discriminate.
  destruct (C5_fallback_once_with_primary_detail
              envPrimaryDown DEFAULT_MODEL "s1" [] eggsMsg
              (buildMessages [] eggsMsg) emptyWorld _ modelDown Hp) as [_ Hretry].
  destruct (Hretry Hm) as (Hsnd & (conts & _ & _ & _ & _ & Hok) & _).
  split.
  - destruct (Hok _ eq_refl) as [Hres _]. rewrite Hres. reflexivity.
  - rewrite Hsnd. reflexivity.
Defined.

(** C5 as stated fails for the failures that are no exception.  A primary
    model that answers every call with an empty [response] is called five
    times, its empty text is returned with status 200 and without a note,
    and the fallback model is never tried. *)
Lemma C5_counterexample_empty_response :
  ~ (forall (env : Env) (model sid : string) (history : list Message)
            (userMsg : Message) (messages : list Message) (w : World),
        (forall i c, call_model c = model -> answer env Primary i c = Ok "") ->
        model <> FALLBACK_MODEL ->
        exists c,
          In c (ai_log (snd (fallbackPolicy env model sid history userMsg messages w)))
          /\ call_model c = FALLBACK_MODEL)
  /\
  (let result := fallbackPolicy envEmptyResponse DEFAULT_MODEL "s1" [] eggsMsg
                                (buildMessages [] eggsMsg) emptyWorld in
   fst result
   = Ok (mkResponse 200 (setSessionCookieHeaders "s1") (BodyRecipe DEFAULT_MODEL "" None))
   /\ map call_model (ai_log (snd result)) = repeat DEFAULT_MODEL 5).
Proof.
  split; [|split; reflexivity].
  intros H.
  assert (Hm : DEFAULT_MODEL <> FALLBACK_MODEL) by discriminate.
  destruct (H envEmptyResponse DEFAULT_MODEL "s1" [] eggsMsg (buildMessages [] eggsMsg)
              emptyWorld (fun _ _ _ => eq_refl) Hm) as (c & Hin & Hc).
  vm_compute in Hin.
  repeat (destruct Hin as [Hin|Hin]; [subst c; vm_compute in Hc; discriminate|]).
  destruct Hin.
Qed.

(** C8, as amended.  A recipe text returned by the non-streaming route is
    the text assembled by a run of the continuation protocol, with the
    occurrences of the end marker removed in one scan from left to right
    and the surrounding white space trimmed.  It contains no end marker
    whenever every text the model returned uses the character [<] only as
    the first character of whole end markers. *)
Theorem C8_recipe_is_stripped_and_trimmed
        (env : Env) (req : Request) (w : World) (text : string) :
  recipeOf (fst (api_recipe env req w)) = Some text ->
  (exists a model history userMsg messages w0 full,
      fst (continuation env a model history userMsg messages w0) = Ok full /\
      text = trim (removeAll END full)) /\
  (markersWhole env -> includes END text = false).
Proof.
  intros H.
  assert (Hex : exists a model history userMsg messages w0 full,
             fst (continuation env a model history userMsg messages w0) = Ok full /\
             text = trim (removeAll END full)).
  { destruct (api_recipe_inv env req w)
      as [(e & w' & Hr & _) | [(inp & _ & _ & Hr) | (inp & history & prompt & w1 & Hr)]].
    - rewrite Hr in H. discriminate.
    - rewrite Hr in H. discriminate.
    - destruct Hr as (_ & _ & _ & _ & _ & _ & Hr). rewrite Hr in H.
      apply fallbackPolicy_recipe in H.
      destruct H as (a & model' & w0 & full & Hf & Ht).
      exists a, model', history, (mkMessage "user" prompt None),
        (buildMessages history (mkMessage "user" prompt None)), w0, full.
      auto. }
  split; [exact Hex|].
  intros Henv.
  destruct Hex as (a & model & history & userMsg & messages & w0 & full & Hf & Ht).
  subst text. apply removeAll_END_clean.
  exact (continuation_markers env a model history userMsg messages w0 full Henv Hf).
Qed.

(** An instance of C8: the model finishes in one call. *)
Lemma C8_witness_complete_answer :
  recipeOf (fst (api_recipe envComplete eggsRequest emptyWorld)) = Some "Omelette"
  /\ includes END "Omelette" = false.
Proof.
  assert (H : recipeOf (fst (api_recipe envComplete eggsRequest emptyWorld))
              = Some "Omelette") by reflexivity.
  split; [exact H|].
  apply (C8_recipe_is_stripped_and_trimmed envComplete eggsRequest emptyWorld
           "Omelette" H).
  intros i c result a text Hrun Hext.
  inversion Hrun; subst result.
  destruct a; inversion Hext; reflexivity.
Defined.

(** C8 as stated fails: when the model emits an end marker inside another
    one, removing the inner marker splices the outer one together. *)
Lemma C8_counterexample_nested_marker :
  ~ (forall (env : Env) (req : Request) (w : World) (text : string),
        recipeOf (fst (api_recipe env req w)) = Some text ->
        includes END text = false).
Proof.
  intros H.
  assert (Hr : recipeOf (fst (api_recipe envNested eggsRequest emptyWorld)) = Some END)
    by reflexivity.
  specialize (H envNested eggsRequest emptyWorld END Hr).
  vm_compute in H. discriminate.
Qed.

Lemma streamAttempt_no_stream (env : Env) (model sid : string) (userMsg : Message)
      (messages : list Message) (w : World) :
  (forall s,
      AI_run env (length (ai_log w)) (mkCall model messages true 1536)
      <> Ok (AiReadable s)) ->
  exists err,
    streamAttempt env model sid userMsg messages w
    = (Throw err, logCall (mkCall model messages true 1536) w) /\
    (forall e,
        AI_run env (length (ai_log w)) (mkCall model messages true 1536) = Throw e ->
        err = e) /\
    (forall r,
        AI_run env (length (ai_log w)) (mkCall model messages true 1536) = Ok r ->
        tee r = Throw err).
Proof.
  intros H. unfold streamAttempt, bind, runAI, lift.
  destruct (AI_run env (length (ai_log w)) (mkCall model messages true 1536))
    as [r|e] eqn:E.
  - destruct r;
      try (eexists; split; [reflexivity|]; split;
           [discriminate | intros r' Hr; injection Hr as <-; reflexivity]).
    exfalso. eapply H. reflexivity.
  - exists e. split; [reflexivity|]. split; [congruence|discriminate].
Qed.

Lemma persist_rejects (env : Env) (userMsg : Message) (text : string) (w : World) :
  do_fault env (length (do_log w)) <> None \/
  do_fault env (S (length (do_log w))) <> None ->
  exists e, fst (persist env userMsg text w) = Throw e.
Proof.
  intros H. unfold persist, bind, stubFetch.
  destruct (do_fault env (length (do_log w))) as [e1|] eqn:E1.
  - exists e1. reflexivity.
  - destruct (SessionDO_fetch (date_now env (length (do_log w)))
                (PostAppend (role userMsg) (content userMsg)) (storage w)) as [r1 st1].
    cbn [do_log storage ai_log]. rewrite length_app, Nat.add_1_r.
    destruct (do_fault env (S (length (do_log w)))) as [e2|] eqn:E2.
    + exists e2. reflexivity.
    + destruct H; congruence.
Qed.

(** C2, as amended.  When the streaming call hands over no stream (it
    rejects, or it resolves to something that is no stream, so that the
    tee throws), the [try] block ends with an exception [err] (the
    rejection of the call, or the exception of the tee) and the streaming
    route makes exactly one further inference call: non-streaming, to the
    same model, with the same message sequence and [max_tokens] 1536; no
    continuation call and no call to a second model follows.  The caller
    gets one materialized JSON response and never a stream.  It is the
    text of that call as it is, status 200, noted as a stream fallback,
    when the call answers, a text is read off the answer and the two
    appends go through.  When the call rejects, when no text can be read
    off its answer, or when one of the two appends rejects, it is the
    terminal error, status 500, whose detail is the message of [err] (its
    name when the message is empty). *)
Theorem C2_stream_fallback_is_one_plain_call
        (env : Env) (model sid : string) (userMsg : Message)
        (messages : list Message) (w : World) :
  let c1 := mkCall model messages true 1536 in
  let c2 := mkCall model messages false 1536 in
  let n := length (ai_log w) in
  let d := length (do_log w) in
  let result := streamingRoute env model sid userMsg messages w in
  let recipe text :=
    mkResponse 200 (setSessionCookieHeaders sid)
               (BodyRecipe model text (Some "Stream fallback used.")) in
  let terminal err :=
    mkResponse 500 (setSessionCookieHeaders sid)
               (BodyError "AI streaming failed"
                  (Some (if String.eqb (err_message err) ""
                         then err_name err else err_message err))) in
  (forall s, AI_run env n c1 <> Ok (AiReadable s)) ->
  ai_log (snd result) = (ai_log w ++ [c1; c2])%list /\
  exists err,
    fst (streamAttempt env model sid userMsg messages w) = Throw err /\
    (forall e, AI_run env n c1 = Throw e -> err = e) /\
    (forall r, AI_run env n c1 = Ok r -> tee r = Throw err) /\
    (exists resp, fst result = Ok resp /\ isStreamBody (body resp) = false) /\
    (forall e2, AI_run env (S n) c2 = Throw e2 -> fst result = Ok (terminal err)) /\
    (forall r e2,
        AI_run env (S n) c2 = Ok r ->
        extractText toString r = Throw e2 ->
        fst result = Ok (terminal err)) /\
    (forall r text,
        AI_run env (S n) c2 = Ok r ->
        extractText toString r = Ok text ->
        (do_fault env d = None -> do_fault env (S d) = None ->
         fst result = Ok (recipe text)) /\
        (do_fault env d <> None \/ do_fault env (S d) <> None ->
         fst result = Ok (terminal err))).
Proof.
  cbv zeta. intros H.
  destruct (streamAttempt_no_stream env model sid userMsg messages w H)
    as (err & Hattempt & Hrej & Htee).
  unfold streamingRoute, tryCatch. rewrite Hattempt.
  rewrite streamFallback_eq. cbv zeta.
  unfold failureResponse. rewrite errorDetail_eq.
  set (c1 := mkCall model messages true 1536) in *.
  set (c2 := mkCall model messages false 1536) in *.
  change (length (ai_log (logCall c1 w))) with (length (ai_log w ++ [c1])).
  rewrite length_app, Nat.add_1_r.
  set (w1 := logCall c1 w).
  assert (Hlog1 : ai_log (logCall c2 w1) = (ai_log w ++ [c1; c2])%list).
  { unfold w1. cbn [logCall ai_log]. rewrite <- app_assoc. reflexivity. }
  destruct (AI_run env (S (length (ai_log w))) c2) as [r|e] eqn:E2.
  - destruct (extractText toString r) as [text|e] eqn:E3.
    + pose proof (persist_ai_log env userMsg text (logCall c2 w1)) as Hp.
      pose proof (persist_ok env userMsg text (logCall c2 w1)) as Hok.
      pose proof (persist_rejects env userMsg text (logCall c2 w1)) as Hno.
      unfold w1 in Hok, Hno. cbn [logCall do_log] in Hok, Hno.
      fold w1 in Hok, Hno.
      destruct (persist env userMsg text (logCall c2 w1)) as [[u|e] w2];
        cbn [fst snd] in *.
      * split; [congruence|]. exists err.
        split; [reflexivity|]. split; [exact Hrej|]. split; [exact Htee|].
        split; [eexists; split; reflexivity|].
        split; [discriminate|].
        split; [intros r' e2 Hr Ht; injection Hr as <-; congruence|].
        intros r' text' Hr Ht. injection Hr as <-.
        rewrite E3 in Ht. injection Ht as <-.
        split; [reflexivity|].
        intros Hf. destruct (Hno Hf) as [e Hthrow]. discriminate.
      * split; [congruence|]. exists err.
        split; [reflexivity|]. split; [exact Hrej|]. split; [exact Htee|].
        split; [eexists; split; reflexivity|].
        split; [reflexivity|].
        split; [reflexivity|].
        intros r' text' Hr Ht. split; [|reflexivity].
        intros Hf1 Hf2. specialize (Hok Hf1 Hf2). discriminate.
    + cbn [fst snd]. split; [exact Hlog1|]. exists err.
      split; [reflexivity|]. split; [exact Hrej|]. split; [exact Htee|].
      split; [eexists; split; reflexivity|].
      split; [reflexivity|].
      split; [reflexivity|].
      intros r' text' Hr Ht. injection Hr as <-. congruence.
  - cbn [fst snd]. split; [exact Hlog1|]. exists err.
    split; [reflexivity|]. split; [exact Hrej|]. split; [exact Htee|].
    split; [eexists; split; reflexivity|].
    split; [reflexivity|].
    split; [discriminate|].
    discriminate.
Qed.

(** An instance of C2: streaming is down and the model never emits the end
    marker; one plain call is made and its text is returned as it is. *)
Lemma C2_witness_stream_down :
  let messages := buildMessages [] eggsMsg in
  let result := streamingRoute envStreamDown DEFAULT_MODEL "s1" eggsMsg messages emptyWorld in
  ai_log (snd result)
  = [mkCall DEFAULT_MODEL messages true 1536; mkCall DEFAULT_MODEL messages false 1536]
  /\ recipeOf (fst result) = Some "part".
Proof.
  cbv zeta.
  assert (Hno : forall s,
             AI_run envStreamDown (length (ai_log emptyWorld))
               (mkCall DEFAULT_MODEL (buildMessages [] eggsMsg) true 1536)
             <> Ok (AiReadable s)) by (intros s; discriminate).
  destruct (C2_stream_fallback_is_one_plain_call
              envStreamDown DEFAULT_MODEL "s1" eggsMsg (buildMessages [] eggsMsg)
              emptyWorld Hno) as (Hlog & err & _ & _ & _ & _ & _ & _ & Hok).
  split; [exact Hlog|].
  destruct (Hok (AiText "part") "part" eq_refl eq_refl) as [Hrecipe _].
  rewrite (Hrecipe eq_refl eq_refl).
  reflexivity.
Defined.

(** C2 as stated fails, in its trigger and in what the fallback is.  A
    stream that raises before any content, and a stream that ends with no
    content at all, are both handed to the caller as they are, status 200:
    no second call is made and no JSON response is materialized.  And when
    the streaming call does reject, the fallback is not the fallback policy
    of the non-streaming route: with a model that never emits the end
    marker the policy would assemble five answers; the streaming route
    returns the first one. *)
Lemma C2_counterexample_fallback_is_partial :
  ~ (forall (env : Env) (model sid : string) (userMsg : Message)
            (messages : list Message) (w : World) (s : AiStream),
        AI_run env (length (ai_log w)) (mkCall model messages true 1536)
        = Ok (AiReadable s) ->
        chunks s = [] ->
        exists resp,
          fst (streamingRoute env model sid userMsg messages w) = Ok resp /\
          isStreamBody (body resp) = false)
  /\
  ~ (forall (env : Env) (model sid : string) (userMsg : Message)
            (messages : list Message) (w : World) (s : AiStream),
        AI_run env (length (ai_log w)) (mkCall model messages true 1536)
        = Ok (AiReadable s) ->
        chunks s = [] ->
        exists c,
          In c (ai_log (snd (streamingRoute env model sid userMsg messages w))) /\
          call_stream c = false)
  /\
  ~ (forall (env : Env) (model sid : string) (history : list Message)
            (userMsg : Message) (messages : list Message) (w : World) (err : JsError),
        AI_run env (length (ai_log w)) (mkCall model messages true 1536) = Throw err ->
        fst (streamingRoute env model sid userMsg messages w)
        = fst (fallbackPolicy env model sid history userMsg messages
                 (logCall (mkCall model messages true 1536) w)))
  /\
  (let result := streamingRoute envStreamBreaksAtOnce DEFAULT_MODEL "s1" eggsMsg
                                (buildMessages [] eggsMsg) emptyWorld in
   fst result = Ok (streamResponse "s1" emptyBrokenStream) /\
   ai_log (snd result) = [streamCall DEFAULT_MODEL (buildMessages [] eggsMsg)]).
Proof.
  split; [|split; [|split; [|split; reflexivity]]]; intros H.
  - destruct (H envStreamBreaksAtOnce DEFAULT_MODEL "s1" eggsMsg
                (buildMessages [] eggsMsg) emptyWorld emptyBrokenStream
                eq_refl eq_refl) as (resp & Hresp & Hbody).
    vm_compute in Hresp. injection Hresp as <-. discriminate.
  - destruct (H envStreamEmpty DEFAULT_MODEL "s1" eggsMsg
                (buildMessages [] eggsMsg) emptyWorld emptyStream
                eq_refl eq_refl) as (c & Hin & Hc).
    vm_compute in Hin. destruct Hin as [Hin|[]]. subst c. discriminate.
  - specialize (H envStreamDown DEFAULT_MODEL "s1" [] eggsMsg
                  (buildMessages [] eggsMsg) emptyWorld modelDown eq_refl).
    vm_compute in H. discriminate.
Qed.

(** C3, the failing input.  The model finishes in one call, and the two
    appends reject.  The non-streaming route then treats the rejection as a
    failure of the generation: it runs the fallback model, whose appends
    reject too, and answers with status 500 and the detail of the store's
    error, although both runs of the protocol produced the text. *)
Theorem C3_append_failure_reaches_caller :
  let result := api_recipe envStoreDown eggsRequest emptyWorld in
  fst (continuation envStoreDown Primary DEFAULT_MODEL [] eggsMsg
         (buildMessages [] eggsMsg) emptyWorld) = Ok ("Omelette" ++ nl ++ END) /\
  fst result = Ok (failureResponse "s1" "AI request failed" storeDown) /\
  status (failureResponse "s1" "AI request failed" storeDown) = 500 /\
  recipeOf (fst result) = None /\
  map call_model (ai_log (snd result)) = [DEFAULT_MODEL; FALLBACK_MODEL] /\
  do_log (snd result)
  = [ GetHistory;
      PostAppend "user" (content eggsMsg);
      PostAppend "user" (content eggsMsg) ].
Proof.
  vm_compute. repeat split; reflexivity.
Qed.

(** The streaming route, by contrast, answers with the stream whatever the
    appends do. *)
Lemma stream_append_failure_isolated
      (env : Env) (model sid : string) (userMsg : Message)
      (messages : list Message) (w : World) (s : AiStream) :
  AI_run env (length (ai_log w)) (mkCall model messages true 1536) = Ok (AiReadable s) ->
  fst (streamingRoute env model sid userMsg messages w)
  = Ok (mkResponse 200 (streamHeaders sid) (BodyStream s)).
Proof.
  intros H. unfold streamingRoute, tryCatch.
  pose proof (streamAttempt_stream env model sid userMsg messages w s H) as Hs.
  destruct (streamAttempt env model sid userMsg messages w) as [[r|e] w1];
    cbn [fst] in *; [exact Hs | discriminate].
Qed.

(** C4, as amended.  [resolveModel] is a function of its argument alone.
    It maps the absent identifier, the empty one and the three aliases
    gpt-5, gpt5 and gpt-4.1 (compared without regard to case) to the fixed
    default, and returns every other identifier unchanged, whether the
    platform knows it or not; the identifiers the selector offers are
    returned unchanged. *)
Theorem C4_resolveModel_maps_aliases_only :
  resolveModel None = Ok DEFAULT_MODEL /\
  resolveModel (Some (JStr "gpt-5")) = Ok DEFAULT_MODEL /\
  resolveModel (Some (JStr "GPT5")) = Ok DEFAULT_MODEL /\
  resolveModel (Some (JStr FALLBACK_MODEL)) = Ok FALLBACK_MODEL /\
  Forall (fun m => resolveModel (Some (JStr m)) = Ok m) supportedModels /\
  (forall s : string,
      resolveModel (Some (JStr s))
      = Ok (if String.eqb s "" || isAlias (toLowerCase s)
            then DEFAULT_MODEL else s)).
Proof.
  repeat split.
  - repeat constructor.
  - exact resolveModel_string.
Qed.

(** C4 as stated fails: an identifier that is neither offered nor an alias
    is returned as it is, not mapped to the default. *)
Lemma C4_counterexample_unknown_model_kept :
  ~ (forall s : string,
        ~ In s supportedModels ->
        resolveModel (Some (JStr s)) = Ok DEFAULT_MODEL).
Proof.
  intros H.
  assert (Hn : ~ In "mistral-7b" supportedModels).
  { cbn. intros [E|[E|[]]]; discriminate. }
  specialize (H "mistral-7b" Hn). vm_compute in H. discriminate.
Qed.

(** C7.  An append the object accepts (role and content not empty) stores
    the old log followed by the new entry, cut to its last twenty entries:
    the stored log has at most twenty entries, it is a suffix of the
    extended log (what is dropped is its oldest part, and only what exceeds
    twenty), it keeps as many entries as the cap allows, the new entry is
    its newest, and a later read of the history returns it. *)
Theorem C7_append_keeps_most_recent_twenty
        (now : Z) (st : Storage) (r c : string) :
  r <> "" -> c <> "" ->
  let old := match st with Some h => h | None => [] end in
  let entry := mkMessage r c (Some now) in
  let logged := (old ++ [entry])%list in
  exists kept dropped,
    SessionDO_fetch now (PostAppend r c) st = (AppendOk (length kept), Some kept) /\
    length kept <= 20 /\
    logged = (dropped ++ kept)%list /\
    length kept = Nat.min 20 (length old + 1) /\
    length dropped = length old + 1 - 20 /\
    last kept entry = entry /\
    (forall later,
        SessionDO_fetch later GetHistory (Some kept) = (HistoryJson kept, Some kept)).
Proof.
  intros Hr Hc. cbv zeta.
  change (match st with Some h => h | None => [] end) with (storedHistory st).
  set (entry := mkMessage r c (Some now)).
  set (logged := (storedHistory st ++ [entry])%list).
  assert (Hlen : length logged = length (storedHistory st) + 1)
    by (unfold logged; rewrite length_app; reflexivity).
  exists (sliceLast HISTORY_CAP logged), (firstn (length logged - HISTORY_CAP) logged).
  apply String.eqb_neq in Hr. apply String.eqb_neq in Hc.
  cbn [SessionDO_fetch]. rewrite Hr, Hc. cbn [orb].
  fold entry. fold logged.
  split; [reflexivity|].
  rewrite sliceLast_length, length_firstn. unfold HISTORY_CAP.
  split; [lia|]. split; [apply sliceLast_suffix|]. split; [lia|]. split; [lia|].
  split; [unfold logged; apply sliceLast_keeps_newest; lia|].
  intros later. reflexivity.
Qed.

(** An instance of C7: appending to a full log of twenty entries drops the
    oldest one. *)
Lemma C7_witness_full_log :
  exists kept dropped,
    SessionDO_fetch 7%Z (PostAppend "assistant" "Omelette") (Some (repeat sampleEntry 20))
    = (AppendOk (length kept), Some kept) /\
    length kept <= 20 /\
    (repeat sampleEntry 20 ++ [mkMessage "assistant" "Omelette" (Some 7%Z)])%list
    = (dropped ++ kept)%list /\
    length kept = Nat.min 20 (length (repeat sampleEntry 20) + 1) /\
    length dropped = length (repeat sampleEntry 20) + 1 - 20 /\
    last kept (mkMessage "assistant" "Omelette" (Some 7%Z))
    = mkMessage "assistant" "Omelette" (Some 7%Z) /\
    (forall later,
        SessionDO_fetch later GetHistory (Some kept) = (HistoryJson kept, Some kept)).
Proof.
  apply (C7_append_keeps_most_recent_twenty 7%Z (Some (repeat sampleEntry 20))
           "assistant" "Omelette"); discriminate.
Defined.


(** C6.  A request with an empty list of inputs is answered with status
    400 and the empty-input message, on both generation routes, and the
    world is left as it was: no model call, no call to the session store,
    the stored history untouched. *)
Theorem C6_empty_input_rejected_without_effects
        (env : Env) (sid : string) (constraints modelId : option string) (w : World) :
  let req := generationRequest sid [] constraints modelId in
  api_recipe env req w = (Ok (emptyInputResponse sid), w) /\
  api_recipe_stream env req w = (Ok (emptyInputResponse sid), w) /\
  status (emptyInputResponse sid) = 400 /\
  body (emptyInputResponse sid) = BodyError "Provide at least one ingredient." None.
Proof.
  cbv zeta.
  destruct (readInputs_generationRequest sid [] constraints modelId) as [model Hr].
  unfold api_recipe, api_recipe_stream, bind, lift. rewrite Hr.
  repeat split.
Qed.

(** C10, as amended.  For a request body other than [null] whose model field
    resolves: when the ingredients field is absent, is no array or is the
    empty array, the route answers as for an empty list, without any
    effect; when it is a non-empty array the answer is never the
    empty-input rejection, and if its elements are strings, blank or not,
    and the history can be read, the first model call is made with the
    prompt built from them. *)
Theorem C10_validation_checks_array_shape_only
        (env : Env) (req : Request) (w : World) (model : string) :
  req_body req <> Some JNull ->
  resolveModel (fieldOf req "model") = Ok model ->
  ((forall items, fieldOf req "ingredients" <> Some (JArr items)) \/
   fieldOf req "ingredients" = Some (JArr []) ->
   api_recipe env req w = (Ok (emptyInputResponse (req_sid req)), w))
  /\
  (forall x xs,
      fieldOf req "ingredients" = Some (JArr (x :: xs)) ->
      (forall r, fst (api_recipe env req w) = Ok r -> status r <> 400) /\
      (forallb isJStr (x :: xs) = true ->
       do_fault env (length (do_log w)) = None ->
       exists prompt calls,
         userPromptFromInputs (x :: xs) (stringOrUndefined (fieldOf req "extras"))
         = Ok prompt /\
         ai_log (snd (api_recipe env req w))
         = (ai_log w ++
            plainCall model
              (buildMessages (storedHistory (storage w)) (mkMessage "user" prompt None))
            :: calls)%list)).
Proof.
  intros Hnull Hmodel.
  pose proof (readInputs_fields req Hnull) as Hread. rewrite Hmodel in Hread.
  split.
  - intros Hshape.
    assert (Hitems : arrayItems (fieldOf req "ingredients") = []).
    { destruct Hshape as [Hno|Hempty]; [|rewrite Hempty; reflexivity].
      destruct (fieldOf req "ingredients") as [[| | | |items|]|]; try reflexivity.
      exfalso. exact (Hno items eq_refl). }
    unfold api_recipe, bind, lift. rewrite Hread. cbn [in_ingredients].
    rewrite Hitems. reflexivity.
  - intros x xs Hfield.
    rewrite Hfield in Hread. cbn [arrayItems] in Hread.
    split.
    + intros r Hr.
      destruct (api_recipe_inv env req w)
        as [(e & w' & He & _) | [(inp & Hin & Hemp & _) | (inp & history & prompt & w1 & Hrun)]].
      * rewrite He in Hr. discriminate.
      * rewrite Hread in Hin. inversion Hin; subst inp. discriminate.
      * destruct Hrun as (_ & _ & _ & _ & _ & _ & Hrun). rewrite Hrun in Hr.
        destruct (fallbackPolicy_status env (in_model inp) (req_sid req) history
                    (mkMessage "user" prompt None)
                    (buildMessages history (mkMessage "user" prompt None)) w1)
          as (r' & Hr' & Hst).
        rewrite Hr' in Hr. inversion Hr; subst r'. destruct Hst; lia.
    + intros Hstr Hfault.
      destruct (userPrompt_strings (x :: xs) (stringOrUndefined (fieldOf req "extras")) Hstr)
        as [prompt Hp].
      exists prompt.
      rewrite (api_recipe_run env req w _ prompt Hread); cbn [in_ingredients in_extras in_model];
        auto; try discriminate.
      destruct (fallbackPolicy_log env model (req_sid req) (storedHistory (storage w))
                  (mkMessage "user" prompt None)
                  (buildMessages (storedHistory (storage w)) (mkMessage "user" prompt None))
                  (mkWorld (storage w) (ai_log w) (do_log w ++ [GetHistory])))
        as (calls & Hlog & _).
      exists calls. split; [exact Hp | exact Hlog].
Qed.

(** An instance of C10: two blank ingredients pass the check and reach the
    model. *)
Lemma C10_witness_blank_ingredients :
  exists prompt calls,
    userPromptFromInputs [JStr ""; JStr "   "] None = Ok prompt /\
    ai_log (snd (api_recipe envComplete blankRequest emptyWorld))
    = plainCall DEFAULT_MODEL (buildMessages [] (mkMessage "user" prompt None)) :: calls.
Proof.
  assert (Hnull : req_body blankRequest <> Some JNull) by discriminate.
  assert (Hmodel : resolveModel (fieldOf blankRequest "model") = Ok DEFAULT_MODEL)
    by reflexivity.
  destruct (C10_validation_checks_array_shape_only
              envComplete blankRequest emptyWorld DEFAULT_MODEL Hnull Hmodel)
    as [_ Hnonempty].
  destruct (Hnonempty (JStr "") [JStr "   "] eq_refl) as [_ Hcall].
  exact (Hcall eq_refl eq_refl).
Defined.

(** C10 as stated fails on both sides.  A body without an ingredients field
    is not always answered as an empty list: when its model field is a
    number, or when the body is [null], the route throws before the check
    is reached.  And a non-empty array does not always lead to a model
    call: an element that is no string makes the prompt throw, and with
    strings only a history read that rejects ends the request, both before
    any call. *)
Lemma C10_counterexample_ill_typed_request :
  ~ (forall (env : Env) (req : Request) (w : World),
        (forall items, fieldOf req "ingredients" <> Some (JArr items)) ->
        req_body req <> Some JNull ->
        fst (api_recipe env req w) = Ok (emptyInputResponse (req_sid req)))
  /\
  ~ (forall (env : Env) (req : Request) (w : World),
        (forall items, fieldOf req "ingredients" <> Some (JArr items)) ->
        fieldOf req "model" = None ->
        fst (api_recipe env req w) = Ok (emptyInputResponse (req_sid req)))
  /\
  ~ (forall (env : Env) (req : Request) (w : World) (model : string) x xs,
        resolveModel (fieldOf req "model") = Ok model ->
        fieldOf req "ingredients" = Some (JArr (x :: xs)) ->
        ai_log (snd (api_recipe env req w)) <> ai_log w)
  /\
  ~ (forall (env : Env) (req : Request) (w : World) (model : string) x xs,
        resolveModel (fieldOf req "model") = Ok model ->
        fieldOf req "ingredients" = Some (JArr (x :: xs)) ->
        forallb isJStr (x :: xs) = true ->
        ai_log (snd (api_recipe env req w)) <> ai_log w).
Proof.
  split; [|split; [|split]]; intros H.
  - assert (Hno : forall items,
               fieldOf badModelRequest "ingredients" <> Some (JArr items))
      by (intros items; discriminate).
    assert (Hnull : req_body badModelRequest <> Some JNull) by discriminate.
    specialize (H envComplete badModelRequest emptyWorld Hno Hnull).
    vm_compute in H. discriminate.
  - assert (Hno : forall items,
               fieldOf nullRequest "ingredients" <> Some (JArr items))
      by (intros items; discriminate).
    specialize (H envComplete nullRequest emptyWorld Hno eq_refl).
    vm_compute in H. discriminate.
  - apply (H envComplete numberRequest emptyWorld DEFAULT_MODEL
             (JStr "eggs") [JNum 1] eq_refl eq_refl).
    reflexivity.
  - apply (H envHistoryDown blankRequest emptyWorld DEFAULT_MODEL
             (JStr "") [JStr "   "] eq_refl eq_refl eq_refl).
    reflexivity.
Qed.

(* ================================================================= *)
(** * More of the worker *)

(** ** The session object over many requests *)

Lemma sliceLast_app_sliceLast (n : nat) (l k : list Message) :
  sliceLast n (sliceLast n l ++ k) = sliceLast n (l ++ k).
Proof.
  unfold sliceLast. rewrite !length_app, length_skipn.
  destruct (le_lt_dec (length l) n) as [Hle|Hgt].
  - replace (length l - n) with 0 by lia. cbn [skipn].
    replace (length l - 0) with (length l) by lia. reflexivity.
  - replace (length l - (length l - n) + length k - n) with (length k) by lia.
    replace (length l + length k - n) with (length k + (length l - n)) by lia.
    rewrite <- skipn_skipn. f_equal.
    rewrite skipn_app.
    replace (length l - n - length l) with 0 by lia. reflexivity.
Qed.

Lemma Forall_sliceLast (P : Message -> Prop) (n : nat) (l : list Message) :
  Forall P l -> Forall P (sliceLast n l).
Proof.
  intros H. unfold sliceLast.
  rewrite <- (firstn_skipn (length l - n) l) in H.
  apply Forall_app in H. tauto.
Qed.

Lemma SessionDO_serve_bounded (requests : list (Z * DoRequest)) :
  forall st,
    length (storedHistory st) <= HISTORY_CAP ->
    length (storedHistory (SessionDO_serve requests st)) <= HISTORY_CAP.
Proof.
  induction requests as [|[now request] rest IH]; intros st H; [exact H|].
  cbn [SessionDO_serve]. apply IH. apply SessionDO_history_bounded. exact H.
Qed.

Lemma SessionDO_accepted_append (now : Z) (r c : string) (st : Storage) :
  accepted (PostAppend r c) = true ->
  snd (SessionDO_fetch now (PostAppend r c) st)
  = Some (sliceLast HISTORY_CAP (storedHistory st ++ [mkMessage r c (Some now)])).
Proof.
  cbn [accepted SessionDO_fetch]. intros H. apply negb_true_iff in H.
  rewrite H. reflexivity.
Qed.

(** X1.  Whatever requests a new session object has served, in whatever order,
    its log holds at most twenty entries, and each of them has a role, a
    content and the time stamp the object gave it. *)
Theorem SessionDO_log_invariant (requests : list (Z * DoRequest)) :
  length (storedHistory (SessionDO_serve requests None)) <= 20 /\
  Forall (fun m => role m <> "" /\ content m <> "" /\ ts m <> None)
         (storedHistory (SessionDO_serve requests None)).
Proof.
  split.
  - apply SessionDO_serve_bounded. cbn. unfold HISTORY_CAP. lia.
  - assert (G : forall st,
               Forall (fun m => role m <> "" /\ content m <> "" /\ ts m <> None)
                      (storedHistory st) ->
               Forall (fun m => role m <> "" /\ content m <> "" /\ ts m <> None)
                      (storedHistory (SessionDO_serve requests st))).
    { induction requests as [|[now request] rest IH]; intros st H; [exact H|].
      cbn [SessionDO_serve]. apply IH.
      destruct request as [|r c| |]; cbn [SessionDO_fetch snd]; auto;
        try (constructor; fail).
      destruct (String.eqb_spec r "") as [Hr|Hr]; cbn [orb snd]; auto.
      destruct (String.eqb_spec c "") as [Hc|Hc]; cbn [snd storedHistory]; auto.
      apply Forall_sliceLast. apply Forall_app. split; auto.
      constructor; auto. cbn. repeat split; auto. discriminate. }
    apply G. constructor.
Qed.

(** X2.  A run of appends the object accepts leaves the last twenty entries of
    the old log followed by the new entries, as if the log had been cut
    once at the end. *)
Theorem SessionDO_appends_compose (requests : list (Z * DoRequest)) :
  forall st,
    requests <> [] ->
    forallb (fun timed => accepted (snd timed)) requests = true ->
    SessionDO_serve requests st
    = Some (sliceLast 20 (storedHistory st ++ flat_map entryOf requests)).
Proof.
  induction requests as [|[now request] rest IH]; intros st Hne Hacc; [congruence|].
  cbn [forallb snd] in Hacc. apply andb_true_iff in Hacc. destruct Hacc as [Ha Hrest].
  destruct request as [|r c| |]; try discriminate.
  cbn [SessionDO_serve]. rewrite (SessionDO_accepted_append now r c st Ha).
  cbn [flat_map entryOf]. unfold HISTORY_CAP.
  destruct rest as [|next rest'].
  - cbn [SessionDO_serve flat_map]. rewrite app_nil_r. reflexivity.
  - rewrite IH; [|discriminate|exact Hrest].
    cbn [storedHistory]. rewrite sliceLast_app_sliceLast, <- app_assoc. reflexivity.
Qed.

(** An instance: twenty-two accepted appends to a new object. *)
Lemma SessionDO_appends_compose_witness :
  SessionDO_serve (repeat (3%Z, PostAppend "user" "hello") 22) None
  = Some (sliceLast 20 (storedHistory None
                          ++ flat_map entryOf (repeat (3%Z, PostAppend "user" "hello") 22))).
Proof.
  apply (SessionDO_appends_compose (repeat (3%Z, PostAppend "user" "hello") 22) None).
  - discriminate.
  - reflexivity.
Defined.

(** X3.  After a reset the object reports an empty history, whatever it had
    served before, and the next accepted append starts a log of one
    entry. *)
Theorem SessionDO_reset_forgets
        (requests : list (Z * DoRequest)) (st : Storage) (t0 t1 t2 : Z) (r c : string) :
  accepted (PostAppend r c) = true ->
  let st' := SessionDO_serve (requests ++ [(t0, PostReset)]) st in
  SessionDO_fetch t1 GetHistory st' = (HistoryJson [], st') /\
  SessionDO_fetch t2 (PostAppend r c) st'
  = (AppendOk 1, Some [mkMessage r c (Some t2)]).
Proof.
  intros Ha. cbv zeta.
  assert (E : SessionDO_serve (requests ++ [(t0, PostReset)]) st = None).
  { revert st. induction requests as [|[now request] rest IH]; intros st.
    - reflexivity.
    - cbn [app SessionDO_serve]. apply IH. }
  rewrite E. split; [reflexivity|].
  cbn [accepted] in Ha. apply negb_true_iff in Ha.
  cbn [SessionDO_fetch]. rewrite Ha. reflexivity.
Qed.

Lemma SessionDO_reset_forgets_witness :
  let st' := SessionDO_serve ([(1%Z, PostAppend "user" "hello")] ++ [(2%Z, PostReset)])
                             None in
  SessionDO_fetch 3%Z GetHistory st' = (HistoryJson [], st') /\
  SessionDO_fetch 4%Z (PostAppend "user" "again") st'
  = (AppendOk 1, Some [mkMessage "user" "again" (Some 4%Z)]).
Proof.
  apply (SessionDO_reset_forgets [(1%Z, PostAppend "user" "hello")] None
           2%Z 3%Z 4%Z "user" "again").
  reflexivity.
Defined.

(* ================================================================= *)
(** ** Trimming *)

Lemma trimStart_clean (s : string) : startsWhite (trimStart s) = false.
Proof.
  induction s as [|c s IH]; [reflexivity|].
  cbn [trimStart]. destruct (isWhite c) eqn:E; [exact IH|].
  cbn [startsWhite]. exact E.
Qed.

Lemma trimEnd_clean (s : string) : endsWhite (trimEnd s) = false.
Proof.
  induction s as [|c s IH]; [reflexivity|].
  cbn [trimEnd]. destruct (trimEnd s) as [|d t].
  - destruct (isWhite c) eqn:E; [reflexivity|]. cbn [endsWhite]. exact E.
  - exact IH.
Qed.

Lemma trimEnd_keeps_start (s : string) :
  startsWhite s = false -> startsWhite (trimEnd s) = false.
Proof.
  destruct s as [|c s]; [reflexivity|].
  cbn [startsWhite trimEnd]. intros E.
  destruct (trimEnd s); [rewrite E|]; cbn [startsWhite]; exact E.
Qed.

Lemma trimStart_id (s : string) : startsWhite s = false -> trimStart s = s.
Proof.
  destruct s as [|c s]; [reflexivity|].
  cbn [startsWhite trimStart]. intros E. rewrite E. reflexivity.
Qed.

Lemma trimEnd_id (s : string) : endsWhite s = false -> trimEnd s = s.
Proof.
  induction s as [|c s IH]; [reflexivity|].
  destruct s as [|d t].
  - cbn [endsWhite trimEnd]. intros E. rewrite E. reflexivity.
  - intros E. change (endsWhite (String d t) = false) in E.
    cbn [trimEnd] in *. rewrite (IH E). reflexivity.
Qed.

Lemma trim_clean (s : string) :
  startsWhite (trim s) = false /\ endsWhite (trim s) = false.
Proof.
  unfold trim. split.
  - apply trimEnd_keeps_start. apply trimStart_clean.
  - apply trimEnd_clean.
Qed.

Lemma trim_idempotent (s : string) : trim (trim s) = trim s.
Proof.
  destruct (trim_clean s) as [Hs He].
  unfold trim at 1. rewrite (trimStart_id _ Hs). apply trimEnd_id. exact He.
Qed.

(* ================================================================= *)
(** ** Exchanges and the stored history *)

Lemma saveExchange_both (t1 t2 : Z) (userMsg : Message) (text : string) (st : Storage) :
  role userMsg <> "" -> content userMsg <> "" -> text <> "" ->
  storedHistory (saveExchange t1 t2 userMsg text st)
  = sliceLast 20 (storedHistory st ++
                  [ mkMessage (role userMsg) (content userMsg) (Some t1);
                    mkMessage "assistant" text (Some t2) ]).
Proof.
  intros Hr Hc Ht. unfold saveExchange.
  rewrite (SessionDO_accepted_append t1 (role userMsg) (content userMsg) st).
  - rewrite SessionDO_accepted_append.
    + cbn [storedHistory]. unfold HISTORY_CAP.
      rewrite sliceLast_app_sliceLast, <- app_assoc. reflexivity.
    + cbn [accepted]. apply String.eqb_neq in Ht. rewrite Ht. reflexivity.
  - cbn [accepted]. apply String.eqb_neq in Hr. apply String.eqb_neq in Hc.
    rewrite Hr, Hc. reflexivity.
Qed.

Lemma saveExchange_user_only (t1 t2 : Z) (userMsg : Message) (st : Storage) :
  role userMsg <> "" -> content userMsg <> "" ->
  storedHistory (saveExchange t1 t2 userMsg "" st)
  = sliceLast 20 (storedHistory st ++
                  [ mkMessage (role userMsg) (content userMsg) (Some t1) ]).
Proof.
  intros Hr Hc. unfold saveExchange.
  rewrite (SessionDO_accepted_append t1 (role userMsg) (content userMsg) st).
  - cbn [SessionDO_fetch String.eqb orb snd storedHistory]. reflexivity.
  - cbn [accepted]. apply String.eqb_neq in Hr. apply String.eqb_neq in Hc.
    rewrite Hr, Hc. reflexivity.
Qed.

Lemma userPrompt_not_empty (items : list JSON) (extras : option string) (prompt : string) :
  userPromptFromInputs items extras = Ok prompt -> prompt <> "".
Proof.
  unfold userPromptFromInputs.
  destruct (ingredientLines items) as [lines|e]; [|discriminate].
  intros H. inversion H. discriminate.
Qed.

Section StoreFacts.

Variable env : Env.

Lemma stubFetch_up (r : DoRequest) (w : World) :
  do_fault env (length (do_log w)) = None ->
  stubFetch env r w
  = (Ok (fst (SessionDO_fetch (date_now env (length (do_log w))) r (storage w))),
     mkWorld (snd (SessionDO_fetch (date_now env (length (do_log w))) r (storage w)))
             (ai_log w) (do_log w ++ [r])).
Proof.
  intros H. unfold stubFetch. rewrite H.
  destruct (SessionDO_fetch (date_now env (length (do_log w))) r (storage w));
    reflexivity.
Qed.

Lemma persist_up (userMsg : Message) (text : string) (w : World) :
  storeUp env ->
  persist env userMsg text w
  = (Ok tt,
     mkWorld (saveExchange (date_now env (length (do_log w)))
                           (date_now env (S (length (do_log w)))) userMsg text
                           (storage w))
             (ai_log w)
             (do_log w ++ [ PostAppend (role userMsg) (content userMsg);
                            PostAppend "assistant" text ])).
Proof.
  intros Hup. unfold persist, bind.
  rewrite (stubFetch_up _ w (Hup _)).
  rewrite stubFetch_up by apply Hup.
  cbn [do_log storage ai_log ret]. rewrite length_app, Nat.add_1_r, <- app_assoc.
  reflexivity.
Qed.

(** With a working store an attempt throws only where the protocol does,
    before anything is saved. *)
Lemma attempt_up (a : Attempt) (model sid : string) (history : list Message)
      (userMsg : Message) (messages : list Message) (w : World) :
  storeUp env ->
  attempt env a model sid history userMsg messages w
  = match continuation env a model history userMsg messages w with
    | (Ok full, w1) =>
        (Ok (recipeResponse a model sid full),
         mkWorld (saveExchange (date_now env (length (do_log w)))
                               (date_now env (S (length (do_log w)))) userMsg
                               (trim (removeAll END full)) (storage w))
                 (ai_log w1)
                 (do_log w ++ [ PostAppend (role userMsg) (content userMsg);
                                PostAppend "assistant" (trim (removeAll END full)) ]))
    | (Throw e, w1) => (Throw e, w1)
    end.
Proof.
  intros Hup. rewrite attempt_eq.
  destruct (continuation_log env a model history userMsg messages w)
    as (conts & _ & Hst & Hdo & _).
  destruct (continuation env a model history userMsg messages w) as [[full|e] w1];
    [|reflexivity].
  cbn [snd] in Hst, Hdo.
  rewrite (persist_up userMsg (trim (removeAll END full)) w1 Hup), Hst, Hdo.
  reflexivity.
Qed.

Lemma attempt_throw_up (a : Attempt) (model sid : string) (history : list Message)
      (userMsg : Message) (messages : list Message) (w w1 : World) (e : JsError) :
  storeUp env ->
  attempt env a model sid history userMsg messages w = (Throw e, w1) ->
  storage w1 = storage w /\ do_log w1 = do_log w.
Proof.
  intros Hup. rewrite (attempt_up a model sid history userMsg messages w Hup).
  destruct (continuation_log env a model history userMsg messages w)
    as (conts & _ & Hst & Hdo & _).
  destruct (continuation env a model history userMsg messages w) as [[full|e'] w1'];
    [discriminate|].
  cbn [snd] in Hst, Hdo. intros H. inversion H; subst. auto.
Qed.

(** With a working store the fallback policy either answers with the
    recipe of the attempt that ended normally, the exchange saved once, or
    answers with the terminal error, the store untouched. *)
Lemma fallbackPolicy_up (model sid : string) (history : list Message)
      (userMsg : Message) (messages : list Message) (w : World) :
  storeUp env ->
  let result := fallbackPolicy env model sid history userMsg messages w in
  (exists a full,
      fst result
      = Ok (recipeResponse a (match a with Primary => model | Secondary => FALLBACK_MODEL end)
                           sid full) /\
      (a = Secondary -> model <> FALLBACK_MODEL) /\
      storage (snd result)
      = saveExchange (date_now env (length (do_log w)))
                     (date_now env (S (length (do_log w)))) userMsg
                     (trim (removeAll END full)) (storage w) /\
      do_log (snd result)
      = (do_log w ++ [ PostAppend (role userMsg) (content userMsg);
                       PostAppend "assistant" (trim (removeAll END full)) ])%list)
  \/
  (exists err,
      fst result = Ok (failureResponse sid "AI request failed" err) /\
      storage (snd result) = storage w /\
      do_log (snd result) = do_log w).
Proof.
  intros Hup. cbv zeta.
  destruct (attempt env Primary model sid history userMsg messages w)
    as [[r|err] w1] eqn:Hp.
  - rewrite (fallbackPolicy_primary_ok env _ _ _ _ _ _ _ _ Hp).
    rewrite (attempt_up Primary model sid history userMsg messages w Hup) in Hp.
    destruct (continuation env Primary model history userMsg messages w)
      as [[full|e] w1']; [|discriminate].
    inversion Hp; subst. left. exists Primary, full.
    cbn [fst snd storage do_log]. repeat split; auto. discriminate.
  - destruct (attempt_throw_up _ _ _ _ _ _ _ _ _ Hup Hp) as [Hst Hdo].
    destruct (String.eqb_spec model FALLBACK_MODEL) as [Hm|Hm].
    + rewrite (fallbackPolicy_no_retry env _ _ _ _ _ _ _ _ Hp Hm).
      right. exists err. cbn [fst snd]. auto.
    + rewrite (fallbackPolicy_retry env _ _ _ _ _ _ _ _ Hp Hm).
      destruct (attempt env Secondary FALLBACK_MODEL sid history userMsg messages w1)
        as [[r|e2] w2] eqn:Hs.
      * rewrite (attempt_up Secondary FALLBACK_MODEL sid history userMsg messages w1 Hup)
          in Hs.
        destruct (continuation env Secondary FALLBACK_MODEL history userMsg messages w1)
          as [[full|e] w1']; [|discriminate].
        inversion Hs; subst. left. exists Secondary, full.
        cbn [fst snd storage do_log]. rewrite Hst, Hdo. repeat split; auto.
      * destruct (attempt_throw_up _ _ _ _ _ _ _ _ _ Hup Hs) as [Hst2 Hdo2].
        right. exists err. cbn [fst snd]. repeat split; congruence.
Qed.

End StoreFacts.

Lemma fallbackPolicy_shapes (env : Env) (model sid : string) (history : list Message)
      (userMsg : Message) (messages : list Message) (w : World) (r : Response) :
  fst (fallbackPolicy env model sid history userMsg messages w) = Ok r ->
  (exists full, r = recipeResponse Primary model sid full) \/
  (exists full, r = recipeResponse Secondary FALLBACK_MODEL sid full /\
                model <> FALLBACK_MODEL) \/
  (exists err, r = failureResponse sid "AI request failed" err).
Proof.
  pose proof (attempt_eq env Primary model sid history userMsg messages w) as Ep.
  destruct (attempt env Primary model sid history userMsg messages w)
    as [[r1|err] w1] eqn:Hp.
  - rewrite (fallbackPolicy_primary_ok env _ _ _ _ _ _ _ _ Hp). cbn [fst].
    intros H. inversion H; subst r1. left.
    destruct (continuation env Primary model history userMsg messages w)
      as [[full|e] w1']; [|discriminate].
    destruct (persist env userMsg (trim (removeAll END full)) w1') as [[u|e] w2];
      [|discriminate].
    inversion Ep. exists full. reflexivity.
  - destruct (String.eqb_spec model FALLBACK_MODEL) as [Hm|Hm].
    + rewrite (fallbackPolicy_no_retry env _ _ _ _ _ _ _ _ Hp Hm). cbn [fst].
      intros H. inversion H. right; right. exists err. reflexivity.
    + rewrite (fallbackPolicy_retry env _ _ _ _ _ _ _ _ Hp Hm).
      pose proof (attempt_eq env Secondary FALLBACK_MODEL sid history userMsg messages w1)
        as Es.
      destruct (attempt env Secondary FALLBACK_MODEL sid history userMsg messages w1)
        as [[r2|e2] w2]; cbn [fst]; intros H; inversion H; subst.
      * right; left.
        destruct (continuation env Secondary FALLBACK_MODEL history userMsg messages w1)
          as [[full|e] w1']; [|discriminate].
        destruct (persist env userMsg (trim (removeAll END full)) w1') as [[u|e] w3];
          [|discriminate].
        inversion Es. exists full. auto.
      * right; right. exists err. reflexivity.
Qed.

(** With a working store the non-streaming route throws before any model
    call, or rejects the empty input, or enters the fallback policy after
    the one read of the history. *)
Lemma api_recipe_up (env : Env) (req : Request) (w : World) :
  storeUp env ->
  (exists e w', api_recipe env req w = (Throw e, w'))
  \/ api_recipe env req w = (Ok (emptyInputResponse (req_sid req)), w)
  \/ (exists inp prompt,
         readInputs req = Ok inp /\
         userPromptFromInputs (in_ingredients inp) (in_extras inp) = Ok prompt /\
         api_recipe env req w
         = fallbackPolicy env (in_model inp) (req_sid req) (storedHistory (storage w))
             (mkMessage "user" prompt None)
             (buildMessages (storedHistory (storage w)) (mkMessage "user" prompt None))
             (mkWorld (storage w) (ai_log w) (do_log w ++ [GetHistory]))).
Proof.
  intros Hup.
  destruct (api_recipe_inv env req w)
    as [(e & w' & Hr & _) | [(inp & _ & _ & Hr) | (inp & history & prompt & w1 & Hr)]].
  - left. eauto.
  - right; left. exact Hr.
  - right; right. destruct Hr as (Hin & Hne & Hp & _).
    exists inp, prompt. repeat split; auto.
    apply api_recipe_run; auto.
Qed.

(** X4.  A recipe the non-streaming route returns is recorded: with a working
    store, after a response that carries a non-empty recipe the route has
    called the store three times (the read and the two appends) and the
    stored history is the old one followed by the user turn and the
    assistant turn with the returned text, cut to its last twenty
    entries. *)
Theorem exchange_is_recorded
        (env : Env) (req : Request) (w : World) (text : string) :
  storeUp env ->
  recipeOf (fst (api_recipe env req w)) = Some text ->
  text <> "" ->
  exists inp prompt,
    readInputs req = Ok inp /\
    userPromptFromInputs (in_ingredients inp) (in_extras inp) = Ok prompt /\
    do_log (snd (api_recipe env req w))
    = (do_log w ++ [ GetHistory; PostAppend "user" prompt;
                     PostAppend "assistant" text ])%list /\
    storedHistory (storage (snd (api_recipe env req w)))
    = sliceLast 20
        (storedHistory (storage w) ++
         [ mkMessage "user" prompt (Some (date_now env (S (length (do_log w)))));
           mkMessage "assistant" text
                     (Some (date_now env (S (S (length (do_log w)))))) ]) /\
    length (storedHistory (storage (snd (api_recipe env req w)))) <= 20.
Proof.
  intros Hup Hrec Hne.
  destruct (api_recipe_up env req w Hup)
    as [(e & w' & Hr) | [Hr | (inp & prompt & Hin & Hp & Hr)]];
    try (rewrite Hr in Hrec; discriminate).
  exists inp, prompt. split; [exact Hin|]. split; [exact Hp|].
  rewrite Hr in *.
  destruct (fallbackPolicy_up env (in_model inp) (req_sid req)
              (storedHistory (storage w)) (mkMessage "user" prompt None)
              (buildMessages (storedHistory (storage w)) (mkMessage "user" prompt None))
              (mkWorld (storage w) (ai_log w) (do_log w ++ [GetHistory])) Hup)
    as [(a & full & Hres & _ & Hst & Hdo) | (err & Hres & _)];
    [|rewrite Hres in Hrec; discriminate].
  rewrite Hres in Hrec. cbn in Hrec. injection Hrec as Ht.
  rewrite Hst, Hdo. cbn [do_log storage role content].
  rewrite length_app, Nat.add_1_r, <- app_assoc, Ht.
  assert (Hsaved :
            storedHistory
              (saveExchange (date_now env (S (length (do_log w))))
                            (date_now env (S (S (length (do_log w)))))
                            (mkMessage "user" prompt None) text (storage w))
            = sliceLast 20
                (storedHistory (storage w) ++
                 [ mkMessage "user" prompt (Some (date_now env (S (length (do_log w)))));
                   mkMessage "assistant" text
                             (Some (date_now env (S (S (length (do_log w)))))) ])).
  { apply (saveExchange_both _ _ (mkMessage "user" prompt None) text (storage w));
      cbn [role content]; auto; try discriminate.
    exact (userPrompt_not_empty _ _ _ Hp). }
  split; [reflexivity|]. split; [exact Hsaved|].
  rewrite Hsaved, sliceLast_length. lia.
Qed.

Lemma storeUp_noFault (ai : nat -> AiCall -> Exc AiResult) : storeUp (mkEnv ai noFault clock0).
Proof. intros i. reflexivity. Qed.

Lemma exchange_is_recorded_witness :
  exists inp prompt,
    readInputs eggsRequest = Ok inp /\
    userPromptFromInputs (in_ingredients inp) (in_extras inp) = Ok prompt /\
    do_log (snd (api_recipe envComplete eggsRequest emptyWorld))
    = (do_log emptyWorld ++ [ GetHistory; PostAppend "user" prompt;
                              PostAppend "assistant" "Omelette" ])%list /\
    storedHistory (storage (snd (api_recipe envComplete eggsRequest emptyWorld)))
    = sliceLast 20
        (storedHistory (storage emptyWorld) ++
         [ mkMessage "user" prompt
                     (Some (date_now envComplete (S (length (do_log emptyWorld)))));
           mkMessage "assistant" "Omelette"
                     (Some (date_now envComplete (S (S (length (do_log emptyWorld)))))) ]) /\
    length (storedHistory (storage (snd (api_recipe envComplete eggsRequest emptyWorld))))
    <= 20.
Proof.
  apply (exchange_is_recorded envComplete eggsRequest emptyWorld "Omelette").
  - apply storeUp_noFault.
  - reflexivity.
  - discriminate.
Defined.

(** X5.  An answer that is blank once the marker is removed still gives a 200
    response, with an empty recipe; the object refuses the empty assistant
    turn, so with a working store the history gains the user turn
    alone. *)
Theorem blank_answer_leaves_user_turn
        (env : Env) (req : Request) (w : World) :
  storeUp env ->
  recipeOf (fst (api_recipe env req w)) = Some "" ->
  exists inp prompt,
    readInputs req = Ok inp /\
    userPromptFromInputs (in_ingredients inp) (in_extras inp) = Ok prompt /\
    do_log (snd (api_recipe env req w))
    = (do_log w ++ [ GetHistory; PostAppend "user" prompt;
                     PostAppend "assistant" "" ])%list /\
    storedHistory (storage (snd (api_recipe env req w)))
    = sliceLast 20
        (storedHistory (storage w) ++
         [ mkMessage "user" prompt (Some (date_now env (S (length (do_log w))))) ]).
Proof.
  intros Hup Hrec.
  destruct (api_recipe_up env req w Hup)
    as [(e & w' & Hr) | [Hr | (inp & prompt & Hin & Hp & Hr)]];
    try (rewrite Hr in Hrec; discriminate).
  exists inp, prompt. split; [exact Hin|]. split; [exact Hp|].
  rewrite Hr in *.
  destruct (fallbackPolicy_up env (in_model inp) (req_sid req)
              (storedHistory (storage w)) (mkMessage "user" prompt None)
              (buildMessages (storedHistory (storage w)) (mkMessage "user" prompt None))
              (mkWorld (storage w) (ai_log w) (do_log w ++ [GetHistory])) Hup)
    as [(a & full & Hres & _ & Hst & Hdo) | (err & Hres & _)];
    [|rewrite Hres in Hrec; discriminate].
  rewrite Hres in Hrec. cbn in Hrec. injection Hrec as Ht.
  rewrite Hst, Hdo. cbn [do_log storage role content].
  rewrite length_app, Nat.add_1_r, <- app_assoc, Ht.
  split; [reflexivity|].
  apply (saveExchange_user_only _ _ (mkMessage "user" prompt None) (storage w));
    cbn [role content]; try discriminate.
  exact (userPrompt_not_empty _ _ _ Hp).
Qed.

Lemma blank_answer_leaves_user_turn_witness :
  exists inp prompt,
    readInputs eggsRequest = Ok inp /\
    userPromptFromInputs (in_ingredients inp) (in_extras inp) = Ok prompt /\
    do_log (snd (api_recipe envOnlyMarker eggsRequest emptyWorld))
    = (do_log emptyWorld ++ [ GetHistory; PostAppend "user" prompt;
                              PostAppend "assistant" "" ])%list /\
    storedHistory (storage (snd (api_recipe envOnlyMarker eggsRequest emptyWorld)))
    = sliceLast 20
        (storedHistory (storage emptyWorld) ++
         [ mkMessage "user" prompt
                     (Some (date_now envOnlyMarker (S (length (do_log emptyWorld))))) ]).
Proof.
  apply (blank_answer_leaves_user_turn envOnlyMarker eggsRequest emptyWorld).
  - apply storeUp_noFault.
  - reflexivity.
Defined.

(** X6.  A failed generation is not recorded: with a working store, after a
    response of status 500 the stored history is what it was and the
    store has only been read; the response is the terminal error of the
    route. *)
Theorem failure_leaves_history
        (env : Env) (req : Request) (w : World) (r : Response) :
  storeUp env ->
  fst (api_recipe env req w) = Ok r ->
  status r = 500 ->
  storage (snd (api_recipe env req w)) = storage w /\
  do_log (snd (api_recipe env req w)) = (do_log w ++ [GetHistory])%list /\
  exists err, r = failureResponse (req_sid req) "AI request failed" err.
Proof.
  intros Hup Hr Hstatus.
  destruct (api_recipe_up env req w Hup)
    as [(e & w' & Hrun) | [Hrun | (inp & prompt & Hin & Hp & Hrun)]].
  - rewrite Hrun in Hr. discriminate.
  - rewrite Hrun in Hr. inversion Hr; subst r. discriminate.
  - rewrite Hrun in *.
    destruct (fallbackPolicy_up env (in_model inp) (req_sid req)
                (storedHistory (storage w)) (mkMessage "user" prompt None)
                (buildMessages (storedHistory (storage w)) (mkMessage "user" prompt None))
                (mkWorld (storage w) (ai_log w) (do_log w ++ [GetHistory])) Hup)
      as [(a & full & Hres & _) | (err & Hres & Hst & Hdo)].
    + rewrite Hres in Hr. inversion Hr; subst r. discriminate.
    + rewrite Hres in Hr. inversion Hr; subst r.
      rewrite Hst, Hdo. repeat split. exists err. reflexivity.
Qed.

Lemma failure_leaves_history_witness :
  storage (snd (api_recipe envAllDown eggsRequest emptyWorld)) = storage emptyWorld /\
  do_log (snd (api_recipe envAllDown eggsRequest emptyWorld))
  = (do_log emptyWorld ++ [GetHistory])%list /\
  exists err,
    failureResponse "s1" "AI request failed" modelDown
    = failureResponse (req_sid eggsRequest) "AI request failed" err.
Proof.
  apply (failure_leaves_history envAllDown eggsRequest emptyWorld
           (failureResponse "s1" "AI request failed" modelDown)).
  - apply storeUp_noFault.
  - reflexivity.
  - reflexivity.
Defined.

(* ================================================================= *)
(** ** What the non-streaming route returns and calls *)

(** X7.  A recipe response names the model that produced the text: the
    resolved model, without a note, or the fallback model with the
    fallback note, and then the resolved model was another one. *)
Theorem recipe_names_its_model
        (env : Env) (req : Request) (w : World) (r : Response)
        (m t : string) (note : option string) :
  fst (api_recipe env req w) = Ok r ->
  body r = BodyRecipe m t note ->
  status r = 200 /\
  exists inp,
    readInputs req = Ok inp /\
    ((m = in_model inp /\ note = None) \/
     (m = FALLBACK_MODEL /\ note = Some "Auto-fallback used." /\
      in_model inp <> FALLBACK_MODEL)).
Proof.
  intros Hr Hbody.
  destruct (api_recipe_inv env req w)
    as [(e & w' & Hrun & _) | [(inp & _ & _ & Hrun) | (inp & history & prompt & w1 & Hrun)]].
  - rewrite Hrun in Hr. discriminate.
  - rewrite Hrun in Hr. inversion Hr; subst r. discriminate.
  - destruct Hrun as (Hin & _ & _ & _ & _ & _ & Hrun). rewrite Hrun in Hr.
    apply fallbackPolicy_shapes in Hr.
    destruct Hr as [[full Hr] | [[full [Hr Hm]] | [err Hr]]]; subst r;
      cbn in Hbody; try discriminate; inversion Hbody; subst.
    + split; [reflexivity|]. exists inp. split; [exact Hin|]. left. auto.
    + split; [reflexivity|]. exists inp. split; [exact Hin|]. right. auto.
Qed.

Lemma recipe_names_its_model_witness :
  status (recipeResponse Secondary FALLBACK_MODEL "s1" ("Omelette" ++ nl ++ END)) = 200 /\
  exists inp,
    readInputs eggsRequest = Ok inp /\
    ((FALLBACK_MODEL = in_model inp /\ Some "Auto-fallback used." = None) \/
     (FALLBACK_MODEL = FALLBACK_MODEL /\
      Some "Auto-fallback used." = Some "Auto-fallback used." /\
      in_model inp <> FALLBACK_MODEL)).
Proof.
  apply (recipe_names_its_model envPrimaryDown eggsRequest emptyWorld
           (recipeResponse Secondary FALLBACK_MODEL "s1" ("Omelette" ++ nl ++ END))
           FALLBACK_MODEL "Omelette" (Some "Auto-fallback used.")).
  - reflexivity.
  - reflexivity.
Defined.

(** X8.  The recipe text of a response has no white space at either end, so
    trimming it again changes nothing. *)
Theorem recipe_text_is_trimmed
        (env : Env) (req : Request) (w : World) (text : string) :
  recipeOf (fst (api_recipe env req w)) = Some text ->
  startsWhite text = false /\ endsWhite text = false /\ trim text = text.
Proof.
  intros Hrec.
  destruct (api_recipe_inv env req w)
    as [(e & w' & Hrun & _) | [(inp & _ & _ & Hrun) | (inp & history & prompt & w1 & Hrun)]];
    try (rewrite Hrun in Hrec; discriminate).
  destruct Hrun as (_ & _ & _ & _ & _ & _ & Hrun). rewrite Hrun in Hrec.
  apply fallbackPolicy_recipe in Hrec.
  destruct Hrec as (a & model' & w0 & full & _ & Ht). subst text.
  destruct (trim_clean (removeAll END full)) as [Hs He].
  repeat split; auto. apply trim_idempotent.
Qed.

Lemma recipe_text_is_trimmed_witness :
  startsWhite "Omelette" = false /\ endsWhite "Omelette" = false /\
  trim "Omelette" = "Omelette".
Proof.
  apply (recipe_text_is_trimmed envComplete eggsRequest emptyWorld "Omelette").
  reflexivity.
Defined.

Lemma attempt_calls (env : Env) (a : Attempt) (model sid : string)
      (history : list Message) (userMsg : Message) (messages : list Message)
      (w : World) :
  exists calls,
    ai_log (snd (attempt env a model sid history userMsg messages w))
    = (ai_log w ++ calls)%list /\
    length calls <= 5 /\
    Forall (fun c => exists msgs, c = plainCall model msgs) calls.
Proof.
  destruct (attempt_log env a model sid history userMsg messages w)
    as (conts & Hlog & Hlen & Hall).
  exists (plainCall model messages :: conts).
  split; [exact Hlog|]. split; [cbn [length]; unfold MAX_ROUNDS in Hlen; lia|].
  constructor; [eauto|].
  apply (Forall_impl _ (P := continuationCall a model history userMsg)); [|exact Hall].
  intros c (full & _ & Hc). eauto.
Qed.

Lemma fallbackPolicy_calls (env : Env) (model sid : string) (history : list Message)
      (userMsg : Message) (messages : list Message) (w : World) :
  exists calls,
    ai_log (snd (fallbackPolicy env model sid history userMsg messages w))
    = (ai_log w ++ calls)%list /\
    length calls <= 10 /\
    Forall (fun c => exists msgs,
                c = plainCall model msgs \/ c = plainCall FALLBACK_MODEL msgs) calls.
Proof.
  destruct (attempt_calls env Primary model sid history userMsg messages w)
    as (calls1 & Hlog1 & Hlen1 & Hall1).
  assert (Hall1' : Forall (fun c => exists msgs,
                              c = plainCall model msgs \/
                              c = plainCall FALLBACK_MODEL msgs) calls1).
  { apply (Forall_impl _ (P := fun c => exists msgs, c = plainCall model msgs));
      [|exact Hall1].
    intros c [msgs Hc]. eauto. }
  destruct (attempt env Primary model sid history userMsg messages w)
    as [[r|err] w1] eqn:Hp; cbn [snd] in Hlog1.
  - rewrite (fallbackPolicy_primary_ok env _ _ _ _ _ _ _ _ Hp).
    exists calls1. cbn [snd]. repeat split; auto. lia.
  - destruct (String.eqb_spec model FALLBACK_MODEL) as [Hm|Hm].
    + rewrite (fallbackPolicy_no_retry env _ _ _ _ _ _ _ _ Hp Hm).
      exists calls1. cbn [snd]. repeat split; auto. lia.
    + rewrite (fallbackPolicy_retry env _ _ _ _ _ _ _ _ Hp Hm).
      destruct (attempt_calls env Secondary FALLBACK_MODEL sid history userMsg messages w1)
        as (calls2 & Hlog2 & Hlen2 & Hall2).
      exists (calls1 ++ calls2)%list.
      split; [|split].
      * destruct (attempt env Secondary FALLBACK_MODEL sid history userMsg messages w1)
          as [[r|e] w2]; cbn [snd] in *; rewrite Hlog2, Hlog1, <- app_assoc;
          reflexivity.
      * rewrite length_app. lia.
      * apply Forall_app. split; [exact Hall1'|].
        apply (Forall_impl _ (P := fun c => exists msgs,
                                     c = plainCall FALLBACK_MODEL msgs));
          [|exact Hall2].
        intros c [msgs Hc]. eauto.
Qed.

(** X9.  One request to the non-streaming route makes at most ten model calls,
    all of them non-streaming with [max_tokens] 3072, and each to the
    model the request resolves to or to the fallback model. *)
Theorem recipe_route_call_budget (env : Env) (req : Request) (w : World) :
  exists calls,
    ai_log (snd (api_recipe env req w)) = (ai_log w ++ calls)%list /\
    length calls <= 10 /\
    Forall (recipeCall req) calls.
Proof.
  destruct (api_recipe_inv env req w)
    as [(e & w' & Hr & Hlog) | [(inp & _ & _ & Hr) | (inp & history & prompt & w1 & Hr)]].
  - exists []. rewrite Hr. cbn [snd length]. rewrite app_nil_r. auto with arith.
  - exists []. rewrite Hr. cbn [snd length]. rewrite app_nil_r. auto with arith.
  - destruct Hr as (Hin & _ & _ & _ & _ & Hlog & Hr). rewrite Hr.
    destruct (fallbackPolicy_calls env (in_model inp) (req_sid req) history
                (mkMessage "user" prompt None)
                (buildMessages history (mkMessage "user" prompt None)) w1)
      as (calls & Hc & Hlen & Hall).
    exists calls. rewrite Hc, Hlog. split; [reflexivity|]. split; [exact Hlen|].
    apply (Forall_impl _ (P := fun c => exists msgs,
                                 c = plainCall (in_model inp) msgs \/
                                 c = plainCall FALLBACK_MODEL msgs)); [|exact Hall].
    intros c [msgs [Hc1|Hc1]]; subst c; unfold recipeCall, plainCall;
      cbn [call_stream call_max_tokens call_model]; repeat split; eauto.
Qed.

(** ** Requests the routes cannot read *)

(** X10.  A body that is JSON [null], or a model field that is neither falsy
    nor a string, makes both generation routes throw a [TypeError] before
    anything else happens: no response, no model call, no call to the
    store, whatever the ingredients are. *)
Theorem unreadable_request_throws_first
        (env : Env) (req : Request) (w : World) :
  (req_body req = Some JNull ->
   api_recipe env req w
   = (Throw (TypeError "Cannot read properties of null (reading 'ingredients')"), w) /\
   api_recipe_stream env req w
   = (Throw (TypeError "Cannot read properties of null (reading 'ingredients')"), w))
  /\
  (forall v,
      req_body req <> Some JNull ->
      fieldOf req "model" = Some v ->
      falsy (Some v) = false ->
      isJStr v = false ->
      api_recipe env req w
      = (Throw (TypeError "model.toLowerCase is not a function"), w) /\
      api_recipe_stream env req w
      = (Throw (TypeError "model.toLowerCase is not a function"), w)).
Proof.
  split.
  - intros Hb. unfold api_recipe, api_recipe_stream, bind, lift, readInputs, bodyOf.
    rewrite Hb. split; reflexivity.
  - intros v Hnull Hv Hf Hs.
    unfold api_recipe, api_recipe_stream, bind, lift.
    rewrite (readInputs_fields req Hnull), Hv.
    unfold resolveModel. rewrite Hf.
    destruct v; try discriminate; split; reflexivity.
Qed.

Lemma unreadable_request_throws_first_witness :
  api_recipe envComplete badModelRequest emptyWorld
  = (Throw (TypeError "model.toLowerCase is not a function"), emptyWorld) /\
  api_recipe_stream envComplete badModelRequest emptyWorld
  = (Throw (TypeError "model.toLowerCase is not a function"), emptyWorld).
Proof.
  destruct (unreadable_request_throws_first envComplete badModelRequest emptyWorld)
    as [_ H].
  apply (H (JNum 5)).
  - discriminate.
  - reflexivity.
  - reflexivity.
  - reflexivity.
Defined.

Lemma ingredientLines_not_strings (items : list JSON) :
  forallb isJStr items = false -> exists e, ingredientLines items = Throw e.
Proof.
  induction items as [|v items IH]; intros H; [discriminate|].
  cbn [forallb] in H. apply andb_false_iff in H.
  destruct v as [| b | n | s | l | f];
    try (cbn [ingredientLines ingredientLine]; eauto; fail).
  destruct H as [H|H]; [discriminate|].
  destruct (IH H) as [e He].
  cbn [ingredientLines ingredientLine]. rewrite He. eauto.
Qed.

(** X11.  An ingredients array with an element that is no string passes the
    check of the list, so the history is read; then building the prompt
    throws, outside the [try]: the route ends with that exception, without
    a model call, and the stored history is as before. *)
Theorem non_string_ingredient_throws_after_read
        (env : Env) (req : Request) (w : World) (model : string) (items : list JSON) :
  req_body req <> Some JNull ->
  resolveModel (fieldOf req "model") = Ok model ->
  fieldOf req "ingredients" = Some (JArr items) ->
  forallb isJStr items = false ->
  do_fault env (length (do_log w)) = None ->
  exists e,
    api_recipe env req w
    = (Throw e, mkWorld (storage w) (ai_log w) (do_log w ++ [GetHistory])).
Proof.
  intros Hnull Hmodel Hfield Hns Hfault.
  destruct (ingredientLines_not_strings items Hns) as [e He].
  exists e.
  unfold api_recipe, bind, lift.
  rewrite (readInputs_fields req Hnull), Hmodel, Hfield.
  cbn [arrayItems in_ingredients in_extras].
  destruct items as [|x xs]; [discriminate|].
  rewrite (stubFetch_up env GetHistory w Hfault).
  cbn [SessionDO_fetch fst snd historyOfResponse].
  unfold userPromptFromInputs. rewrite He. reflexivity.
Qed.

Lemma non_string_ingredient_throws_after_read_witness :
  exists e,
    api_recipe envComplete numberRequest emptyWorld
    = (Throw e, mkWorld (storage emptyWorld) (ai_log emptyWorld)
                        (do_log emptyWorld ++ [GetHistory])).
Proof.
  apply (non_string_ingredient_throws_after_read
           envComplete numberRequest emptyWorld DEFAULT_MODEL [JStr "eggs"; JNum 1]);
    try reflexivity.
  discriminate.
Defined.

(* ================================================================= *)
(** ** The streaming route *)

Section StreamFacts.

Variable env : Env.

Lemma drain_broken (s : AiStream) (userMsg : Message) (w : World) (e : JsError) :
  stream_error s = Some e ->
  waitUntil (drainAndPersist env s userMsg) w = (Ok tt, w).
Proof.
  intros H. unfold waitUntil, tryCatch, drainAndPersist, lift. rewrite H. reflexivity.
Qed.

Lemma drain_complete (s : AiStream) (userMsg : Message) (w : World) :
  stream_error s = None ->
  waitUntil (drainAndPersist env s userMsg) w
  = (Ok tt, snd (persist env userMsg (String.concat "" (chunks s)) w)).
Proof.
  intros H. unfold waitUntil, drainAndPersist. rewrite H. unfold tryCatch.
  destruct (persist env userMsg (String.concat "" (chunks s)) w) as [[[]|e] w1];
    reflexivity.
Qed.

Lemma drain_ai_log (s : AiStream) (userMsg : Message) (w : World) :
  ai_log (snd (waitUntil (drainAndPersist env s userMsg) w)) = ai_log w.
Proof.
  destruct (stream_error s) as [e|] eqn:E.
  - rewrite (drain_broken s userMsg w e E). reflexivity.
  - rewrite (drain_complete s userMsg w E). apply persist_ai_log.
Qed.

Lemma streamingRoute_stream (model sid : string) (userMsg : Message)
      (messages : list Message) (w : World) (s : AiStream) :
  AI_run env (length (ai_log w)) (streamCall model messages) = Ok (AiReadable s) ->
  streamingRoute env model sid userMsg messages w
  = (Ok (streamResponse sid s),
     snd (waitUntil (drainAndPersist env s userMsg)
                    (logCall (streamCall model messages) w))).
Proof.
  intros H. unfold streamingRoute, tryCatch, streamAttempt, bind, runAI, lift, tee.
  unfold streamCall in H. rewrite H. cbn [fst snd].
  change {| storage := storage w;
            ai_log := ai_log w ++ [mkCall model messages true 1536];
            do_log := do_log w |}
    with (logCall (streamCall model messages) w).
  destruct (waitUntil (drainAndPersist env s userMsg)
                      (logCall (streamCall model messages) w)) as [[u|e] w1] eqn:E.
  - reflexivity.
  - exfalso. unfold waitUntil, tryCatch in E.
    destruct (drainAndPersist env s userMsg (logCall (streamCall model messages) w))
      as [[u|e'] w2]; discriminate.
Qed.

Lemma streamingRoute_fallback (model sid : string) (userMsg : Message)
      (messages : list Message) (w : World) :
  (forall s, AI_run env (length (ai_log w)) (streamCall model messages)
             <> Ok (AiReadable s)) ->
  exists err,
    streamingRoute env model sid userMsg messages w
    = streamFallback env model sid userMsg messages err
        (logCall (streamCall model messages) w).
Proof.
  intros H. unfold streamingRoute, tryCatch, streamAttempt, bind, runAI, lift, tee.
  unfold streamCall in H.
  destruct (AI_run env (length (ai_log w)) (mkCall model messages true 1536))
    as [[| t | r o j | s]|err]; cbn [fst snd]; eauto.
  exfalso. exact (H s eq_refl).
Qed.

Lemma streamFallback_world (model sid : string) (userMsg : Message)
      (messages : list Message) (err : JsError) (w : World) :
  ai_log (snd (streamFallback env model sid userMsg messages err w))
  = (ai_log w ++ [streamRetryCall model messages])%list /\
  exists r,
    fst (streamFallback env model sid userMsg messages err w) = Ok r /\
    ((exists text, r = streamFallbackResponse model sid text) \/
     r = failureResponse sid "AI streaming failed" err).
Proof.
  rewrite streamFallback_eq. cbv zeta.
  destruct (AI_run env (length (ai_log w)) (mkCall model messages false 1536))
    as [result|e].
  - destruct (extractText toString result) as [text|e].
    + pose proof (persist_ai_log env userMsg text
                    (logCall (mkCall model messages false 1536) w)) as Hp.
      destruct (persist env userMsg text (logCall (mkCall model messages false 1536) w))
        as [[u|e] w2]; cbn [fst snd] in *; (split; [exact Hp|]); eexists;
        (split; [reflexivity|]); [left; exists text; reflexivity | right; reflexivity].
    + cbn [fst snd]. split; [reflexivity|]. eexists. split; [reflexivity|]. auto.
  - cbn [fst snd]. split; [reflexivity|]. eexists. split; [reflexivity|]. auto.
Qed.

(** The streaming route never throws; its response hands over the stream,
    or carries the text of the plain call, or is the terminal error. *)
Lemma streamingRoute_shapes (model sid : string) (userMsg : Message)
      (messages : list Message) (w : World) :
  exists r,
    fst (streamingRoute env model sid userMsg messages w) = Ok r /\
    ((exists s, r = streamResponse sid s) \/
     (exists text, r = streamFallbackResponse model sid text) \/
     (exists err, r = failureResponse sid "AI streaming failed" err)).
Proof.
  destruct (AI_run env (length (ai_log w)) (streamCall model messages))
    as [[| t | r o j | s]|err] eqn:E.
  4: { rewrite (streamingRoute_stream model sid userMsg messages w s E).
       eexists. split; [reflexivity|]. left. eauto. }
  all: destruct (streamingRoute_fallback model sid userMsg messages w) as [e He];
    [intros s' Hs'; rewrite E in Hs'; discriminate|].
  all: rewrite He;
    destruct (streamFallback_world model sid userMsg messages e
                (logCall (streamCall model messages) w)) as (_ & r' & Hr & Hshape);
    exists r'; split; [exact Hr|]; destruct Hshape as [Ht | Hf]; eauto.
Qed.

Lemma streamingRoute_calls (model sid : string) (userMsg : Message)
      (messages : list Message) (w : World) :
  exists calls,
    ai_log (snd (streamingRoute env model sid userMsg messages w))
    = (ai_log w ++ streamCall model messages :: calls)%list /\
    (calls = [] \/ calls = [streamRetryCall model messages]) /\
    (forall s,
        AI_run env (length (ai_log w)) (streamCall model messages) = Ok (AiReadable s) ->
        calls = []).
Proof.
  destruct (AI_run env (length (ai_log w)) (streamCall model messages))
    as [[| t | r o j | s]|err] eqn:E.
  4: { rewrite (streamingRoute_stream model sid userMsg messages w s E).
       exists []. cbn [snd]. rewrite drain_ai_log. cbn [logCall ai_log]. auto. }
  all: destruct (streamingRoute_fallback model sid userMsg messages w) as [e He];
    [intros s' Hs'; rewrite E in Hs'; discriminate|].
  all: rewrite He;
    destruct (streamFallback_world model sid userMsg messages e
                (logCall (streamCall model messages) w)) as (Hlog & _);
    exists [streamRetryCall model messages]; rewrite Hlog;
    cbn [logCall ai_log]; rewrite <- app_assoc;
    (split; [reflexivity|]); (split; [auto|]); intros s' Hs'; discriminate.
Qed.

Lemma api_recipe_stream_inv (req : Request) (w : World) :
  (exists e w', api_recipe_stream env req w = (Throw e, w') /\ ai_log w' = ai_log w)
  \/ api_recipe_stream env req w = (Ok (emptyInputResponse (req_sid req)), w)
  \/ (exists inp prompt w1,
         readInputs req = Ok inp /\
         userPromptFromInputs (in_ingredients inp) (in_extras inp) = Ok prompt /\
         ai_log w1 = ai_log w /\
         api_recipe_stream env req w
         = streamingRoute env (in_model inp) (req_sid req)
             (mkMessage "user" prompt None)
             (buildMessages (storedHistory (storage w)) (mkMessage "user" prompt None))
             w1).
Proof.
  unfold api_recipe_stream, bind, lift.
  destruct (readInputs req) as [inp|e]; [|left; eauto].
  destruct (in_ingredients inp) as [|x xs] eqn:Hing.
  - right; left. reflexivity.
  - pose proof (stubFetch_ai_log env GetHistory w) as Hlog.
    unfold stubFetch in *.
    destruct (do_fault env (length (do_log w))); [left; eauto|].
    cbn [SessionDO_fetch historyOfResponse] in *.
    destruct (userPromptFromInputs (x :: xs) (in_extras inp)) as [prompt|e] eqn:Hp;
      [|left; eauto].
    right; right.
    exists inp, prompt, (mkWorld (storage w) (ai_log w) (do_log w ++ [GetHistory])).
    rewrite Hing. repeat split; auto.
Qed.

End StreamFacts.

(** X13.  One request to the streaming route makes at most two model calls, the
    streaming call and, only if that gave no stream, one plain call; both
    go to the model the request resolves to, with [max_tokens] 1536: the
    fallback model is not tried and nothing is continued. *)
Theorem stream_route_call_budget (env : Env) (req : Request) (w : World) :
  exists calls,
    ai_log (snd (api_recipe_stream env req w)) = (ai_log w ++ calls)%list /\
    length calls <= 2 /\
    Forall (fun c => call_max_tokens c = 1536 /\
                     exists inp, readInputs req = Ok inp /\
                                 call_model c = in_model inp) calls /\
    (forall c rest, calls = c :: rest ->
                    call_stream c = true /\
                    Forall (fun c' => call_stream c' = false) rest).
Proof.
  destruct (api_recipe_stream_inv env req w)
    as [(e & w' & Hr & Hlog) | [Hr | (inp & prompt & w1 & Hin & _ & Hlog & Hr)]].
  - exists []. rewrite Hr. cbn [snd length]. rewrite app_nil_r.
    split; [auto|]. split; [lia|]. split; [constructor|].
    intros c rest Heq. discriminate.
  - exists []. rewrite Hr. cbn [snd length]. rewrite app_nil_r.
    split; [auto|]. split; [lia|]. split; [constructor|].
    intros c rest Heq. discriminate.
  - rewrite Hr.
    set (messages := buildMessages (storedHistory (storage w))
                                   (mkMessage "user" prompt None)).
    destruct (streamingRoute_calls env (in_model inp) (req_sid req)
                (mkMessage "user" prompt None) messages w1)
      as (calls & Hc & Hshape & _).
    exists (streamCall (in_model inp) messages :: calls).
    rewrite Hc, Hlog. split; [reflexivity|].
    assert (Hm : forall c, In c (streamCall (in_model inp) messages :: calls) ->
                           call_max_tokens c = 1536 /\
                           exists inp0, readInputs req = Ok inp0 /\
                                        call_model c = in_model inp0).
    { intros c [Hc1|Hc1].
      - subst c. cbn. eauto.
      - destruct Hshape as [Hs|Hs]; subst calls; [destruct Hc1|].
        destruct Hc1 as [Hc1|[]]. subst c. cbn. eauto. }
    split; [destruct Hshape as [Hs|Hs]; subst calls; cbn; lia|].
    split; [apply Forall_forall; exact Hm|].
    intros c rest Heq. inversion Heq; subst.
    split; [reflexivity|].
    destruct Hshape as [Hs|Hs]; rewrite Hs; repeat constructor.
Qed.

(** X14.  Once the model has handed over a stream that ends normally, the
    caller gets the stream and, with a working store, the exchange is
    saved by two appends.  For a user turn whose role and content are not
    empty, the stored history is the old one followed by the user turn
    and, unless the chunks put together are the empty text, an assistant
    turn holding them, cut to its last twenty entries: of a stream that
    ends without any content only the user turn is stored. *)
Theorem complete_stream_is_recorded
        (env : Env) (model sid : string) (userMsg : Message)
        (messages : list Message) (w : World) (s : AiStream) :
  AI_run env (length (ai_log w)) (streamCall model messages) = Ok (AiReadable s) ->
  stream_error s = None ->
  storeUp env ->
  role userMsg <> "" -> content userMsg <> "" ->
  let result := streamingRoute env model sid userMsg messages w in
  let acc := String.concat "" (chunks s) in
  fst result = Ok (streamResponse sid s) /\
  do_log (snd result)
  = (do_log w ++ [ PostAppend (role userMsg) (content userMsg);
                   PostAppend "assistant" acc ])%list /\
  storedHistory (storage (snd result))
  = sliceLast 20
      (storedHistory (storage w) ++
       mkMessage (role userMsg) (content userMsg)
                 (Some (date_now env (length (do_log w))))
       :: (if String.eqb acc "" then []
           else [ mkMessage "assistant" acc
                            (Some (date_now env (S (length (do_log w))))) ])).
Proof.
  intros Hrun Hend Hup Hr Hc. cbv zeta.
  rewrite (streamingRoute_stream env model sid userMsg messages w s Hrun).
  rewrite (drain_complete env s userMsg _ Hend).
  rewrite (persist_up env userMsg _ _ Hup).
  cbn [fst snd do_log storage logCall].
  split; [reflexivity|]. split; [reflexivity|].
  destruct (String.eqb_spec (String.concat "" (chunks s)) "") as [Hacc|Hacc].
  - rewrite Hacc. apply saveExchange_user_only; assumption.
  - apply saveExchange_both; assumption.
Qed.

Lemma complete_stream_is_recorded_witness :
  let w := mkWorld None [] [GetHistory] in
  let result := streamingRoute envStreaming DEFAULT_MODEL "s1" eggsMsg
                               (buildMessages [] eggsMsg) w in
  fst result = Ok (streamResponse "s1" twoChunks) /\
  map content (storedHistory (storage (snd result))) = [content eggsMsg; "Omelette"].
Proof.
  cbv zeta.
  destruct (complete_stream_is_recorded
              envStreaming DEFAULT_MODEL "s1" eggsMsg (buildMessages [] eggsMsg)
              (mkWorld None [] [GetHistory]) twoChunks eq_refl eq_refl
              (storeUp_noFault _))
    as (Hresp & _ & Hst); try discriminate.
  split; [exact Hresp|]. rewrite Hst. reflexivity.
Defined.

(** X15.  A stream that breaks is handed to the caller all the same, and
    nothing of the exchange is saved, not even the user turn: the store is
    not called and the world only gains the streaming call. *)
Theorem broken_stream_is_not_recorded
        (env : Env) (model sid : string) (userMsg : Message)
        (messages : list Message) (w : World) (s : AiStream) (e : JsError) :
  AI_run env (length (ai_log w)) (streamCall model messages) = Ok (AiReadable s) ->
  stream_error s = Some e ->
  streamingRoute env model sid userMsg messages w
  = (Ok (streamResponse sid s), logCall (streamCall model messages) w).
Proof.
  intros Hrun Hbroken.
  rewrite (streamingRoute_stream env model sid userMsg messages w s Hrun).
  rewrite (drain_broken env s userMsg _ e Hbroken). reflexivity.
Qed.

Lemma broken_stream_is_not_recorded_witness :
  streamingRoute envStreamBreaks DEFAULT_MODEL "s1" eggsMsg (buildMessages [] eggsMsg)
                 emptyWorld
  = (Ok (streamResponse "s1" brokenStream),
     logCall (streamCall DEFAULT_MODEL (buildMessages [] eggsMsg)) emptyWorld).
Proof.
  apply (broken_stream_is_not_recorded envStreamBreaks DEFAULT_MODEL "s1" eggsMsg
           (buildMessages [] eggsMsg) emptyWorld brokenStream modelDown);
    reflexivity.
Defined.

(** X16.  Once the model has handed over a stream, the caller gets it and no
    further model call is made, whatever the store does to the appends of
    the background task. *)
Theorem stream_is_returned_whatever_the_store_does
        (env : Env) (model sid : string) (userMsg : Message)
        (messages : list Message) (w : World) (s : AiStream) :
  AI_run env (length (ai_log w)) (streamCall model messages) = Ok (AiReadable s) ->
  fst (streamingRoute env model sid userMsg messages w) = Ok (streamResponse sid s) /\
  ai_log (snd (streamingRoute env model sid userMsg messages w))
  = (ai_log w ++ [streamCall model messages])%list.
Proof.
  intros Hrun.
  rewrite (streamingRoute_stream env model sid userMsg messages w s Hrun).
  cbn [fst snd]. rewrite drain_ai_log. split; reflexivity.
Qed.

Lemma stream_is_returned_whatever_the_store_does_witness :
  let w := mkWorld None [] [GetHistory] in
  let messages := buildMessages [] eggsMsg in
  fst (streamingRoute envStreamingStoreDown DEFAULT_MODEL "s1" eggsMsg messages w)
  = Ok (streamResponse "s1" twoChunks) /\
  ai_log (snd (streamingRoute envStreamingStoreDown DEFAULT_MODEL "s1" eggsMsg messages w))
  = (ai_log w ++ [streamCall DEFAULT_MODEL messages])%list.
Proof.
  apply (stream_is_returned_whatever_the_store_does envStreamingStoreDown DEFAULT_MODEL
           "s1" eggsMsg (buildMessages [] eggsMsg) (mkWorld None [] [GetHistory]) twoChunks).
  reflexivity.
Defined.

(* ================================================================= *)
(** ** Responses of the routes *)

Lemma api_recipe_stream_run (env : Env) (req : Request) (w : World) (inp : Inputs)
      (prompt : string) :
  readInputs req = Ok inp ->
  in_ingredients inp <> [] ->
  do_fault env (length (do_log w)) = None ->
  userPromptFromInputs (in_ingredients inp) (in_extras inp) = Ok prompt ->
  api_recipe_stream env req w
  = streamingRoute env (in_model inp) (req_sid req) (mkMessage "user" prompt None)
      (buildMessages (storedHistory (storage w)) (mkMessage "user" prompt None))
      (mkWorld (storage w) (ai_log w) (do_log w ++ [GetHistory])).
Proof.
  intros Hin Hne Hf Hp.
  unfold api_recipe_stream, bind, lift, stubFetch. rewrite Hin.
  destruct (in_ingredients inp) as [|x xs] eqn:Hing; [congruence|].
  rewrite Hf. cbn [SessionDO_fetch historyOfResponse]. rewrite Hp. reflexivity.
Qed.

Lemma api_reset_inv (env : Env) (req : Request) (w : World) (r : Response) :
  fst (api_reset env req w) = Ok r ->
  r = mkResponse 200 (setSessionCookieHeaders (req_sid req)) BodyOk.
Proof.
  unfold api_reset, bind.
  destruct (stubFetch env PostReset w) as [[resp|e] w1]; [|discriminate].
  cbn. intros H. inversion H. reflexivity.
Qed.

(** X17.  Every response of the three API routes sets the session cookie of the
    request's session, and declares JSON content unless its body is the
    stream, which is declared as plain text. *)
Theorem responses_carry_session_cookie
        (env : Env) (req : Request) (w : World) (r : Response) :
  fst (api_recipe env req w) = Ok r \/
  fst (api_recipe_stream env req w) = Ok r \/
  fst (api_reset env req w) = Ok r ->
  headersGet "Set-Cookie" (headers r) = Some (sessionCookie (req_sid req)) /\
  headersGet "Content-Type" (headers r)
  = Some (if isStreamBody (body r) then "text/plain; charset=utf-8"
          else "application/json").
Proof.
  intros [H | [H | H]].
  - destruct (api_recipe_inv env req w)
      as [(e & w' & Hrun & _) | [(inp & _ & _ & Hrun) | (inp & history & prompt & w1 & Hrun)]].
    + rewrite Hrun in H. discriminate.
    + rewrite Hrun in H. inversion H; subst r. split; reflexivity.
    + destruct Hrun as (_ & _ & _ & _ & _ & _ & Hrun). rewrite Hrun in H.
      apply fallbackPolicy_shapes in H.
      destruct H as [[full H] | [[full [H _]] | [err H]]]; subst r; split; reflexivity.
  - destruct (api_recipe_stream_inv env req w)
      as [(e & w' & Hrun & _) | [Hrun | (inp & prompt & w1 & _ & _ & _ & Hrun)]].
    + rewrite Hrun in H. discriminate.
    + rewrite Hrun in H. inversion H; subst r. split; reflexivity.
    + rewrite Hrun in H.
      destruct (streamingRoute_shapes env (in_model inp) (req_sid req)
                  (mkMessage "user" prompt None)
                  (buildMessages (storedHistory (storage w)) (mkMessage "user" prompt None))
                  w1) as (r' & Hr' & Hshape).
      rewrite Hr' in H. inversion H; subst r'.
      destruct Hshape as [[s Hs] | [[text Hs] | [err Hs]]]; subst r; split; reflexivity.
  - apply api_reset_inv in H. subst r. split; reflexivity.
Qed.

Lemma responses_carry_session_cookie_witness :
  headersGet "Set-Cookie" (headers (streamResponse "s1" twoChunks))
  = Some (sessionCookie (req_sid eggsRequest)) /\
  headersGet "Content-Type" (headers (streamResponse "s1" twoChunks))
  = Some (if isStreamBody (body (streamResponse "s1" twoChunks))
          then "text/plain; charset=utf-8" else "application/json").
Proof.
  apply (responses_carry_session_cookie envStreaming eggsRequest emptyWorld
           (streamResponse "s1" twoChunks)).
  right; left. reflexivity.
Defined.

(** X12.  Past the reading of the request the generation routes always answer:
    for a body other than [null] whose model field resolves and whose
    ingredients are strings, and a history that can be read, neither
    route throws, whatever the model and the appends do; the non-streaming
    route answers with status 400, 200 or 500. *)
Theorem routes_always_answer
        (env : Env) (req : Request) (w : World) (model : string) (items : list JSON) :
  req_body req <> Some JNull ->
  resolveModel (fieldOf req "model") = Ok model ->
  arrayItems (fieldOf req "ingredients") = items ->
  forallb isJStr items = true ->
  do_fault env (length (do_log w)) = None ->
  (exists r, fst (api_recipe env req w) = Ok r /\
             (status r = 400 \/ status r = 200 \/ status r = 500)) /\
  (exists r, fst (api_recipe_stream env req w) = Ok r).
Proof.
  intros Hnull Hmodel Hitems Hstr Hfault.
  pose proof (readInputs_fields req Hnull) as Hread.
  rewrite Hmodel, Hitems in Hread.
  destruct items as [|x xs].
  - unfold api_recipe, api_recipe_stream, bind, lift. rewrite Hread.
    cbn [in_ingredients ret fst]. split; eexists; [split; [reflexivity|]|reflexivity].
    left. reflexivity.
  - destruct (userPrompt_strings (x :: xs) (stringOrUndefined (fieldOf req "extras")) Hstr)
      as [prompt Hp].
    split.
    + rewrite (api_recipe_run env req w _ prompt Hread);
        cbn [in_ingredients in_extras in_model]; auto; try discriminate.
      destruct (fallbackPolicy_status env model (req_sid req) (storedHistory (storage w))
                  (mkMessage "user" prompt None)
                  (buildMessages (storedHistory (storage w)) (mkMessage "user" prompt None))
                  (mkWorld (storage w) (ai_log w) (do_log w ++ [GetHistory])))
        as (r & Hr & Hst).
      exists r. split; [exact Hr|]. tauto.
    + rewrite (api_recipe_stream_run env req w _ prompt Hread);
        cbn [in_ingredients in_extras in_model]; auto; try discriminate.
      destruct (streamingRoute_shapes env model (req_sid req)
                  (mkMessage "user" prompt None)
                  (buildMessages (storedHistory (storage w)) (mkMessage "user" prompt None))
                  (mkWorld (storage w) (ai_log w) (do_log w ++ [GetHistory])))
        as (r & Hr & _).
      exists r. exact Hr.
Qed.

Lemma routes_always_answer_witness :
  (exists r, fst (api_recipe envStoreDown eggsRequest emptyWorld) = Ok r /\
             (status r = 400 \/ status r = 200 \/ status r = 500)) /\
  (exists r, fst (api_recipe_stream envStoreDown eggsRequest emptyWorld) = Ok r).
Proof.
  apply (routes_always_answer envStoreDown eggsRequest emptyWorld DEFAULT_MODEL
           [JStr "eggs"]); try reflexivity.
  discriminate.
Defined.

(** ** Reset *)

(** X18.  A reset that reaches the object of a session answers 200, empties
    the stored history of that session and calls no model; the first model
    call of the next generation request of the same session then carries
    the system message and the new user message only. *)
Theorem reset_forgets_history
        (env : Env) (req next : Request) (w : World) (inp : Inputs) (prompt : string) :
  req_sid next = req_sid req ->
  do_fault env (length (do_log w)) = None ->
  do_fault env (S (length (do_log w))) = None ->
  readInputs next = Ok inp ->
  in_ingredients inp <> [] ->
  userPromptFromInputs (in_ingredients inp) (in_extras inp) = Ok prompt ->
  let afterReset := snd (api_reset env req w) in
  api_reset env req w
  = (Ok (mkResponse 200 (setSessionCookieHeaders (req_sid req)) BodyOk),
     mkWorld None (ai_log w) (do_log w ++ [PostReset])) /\
  exists calls,
    ai_log (snd (api_recipe env next afterReset))
    = (ai_log w ++
       plainCall (in_model inp) [systemMsg; mkMessage "user" prompt None] :: calls)%list.
Proof.
  intros Hsid Hf0 Hf1 Hin Hne Hp. cbv zeta.
  assert (Hreset : api_reset env req w
                   = (Ok (mkResponse 200 (setSessionCookieHeaders (req_sid req)) BodyOk),
                      mkWorld None (ai_log w) (do_log w ++ [PostReset]))).
  { unfold api_reset, bind. rewrite (stubFetch_up env PostReset w Hf0). reflexivity. }
  split; [exact Hreset|].
  rewrite Hreset. cbn [snd].
  rewrite (api_recipe_run env next _ inp prompt Hin Hne); auto.
  - destruct (fallbackPolicy_log env (in_model inp) (req_sid next)
                (storedHistory None) (mkMessage "user" prompt None)
                (buildMessages (storedHistory None) (mkMessage "user" prompt None))
                (mkWorld None (ai_log w) ((do_log w ++ [PostReset]) ++ [GetHistory])))
      as (calls & Hlog & _).
    exists calls. exact Hlog.
  - cbn [do_log]. rewrite length_app, Nat.add_1_r. exact Hf1.
Qed.

Lemma reset_forgets_history_witness :
  let w := mkWorld (Some (repeat sampleEntry 5)) [] [] in
  api_reset envComplete eggsRequest w
  = (Ok (mkResponse 200 (setSessionCookieHeaders "s1") BodyOk),
     mkWorld None [] [PostReset]) /\
  exists calls,
    ai_log (snd (api_recipe envComplete eggsRequest (snd (api_reset envComplete eggsRequest w))))
    = plainCall DEFAULT_MODEL [systemMsg; eggsMsg] :: calls.
Proof.
  cbv zeta.
  assert (Hne : in_ingredients (mkInputs [JStr "eggs"] None DEFAULT_MODEL) <> [])
    by discriminate.
  exact (reset_forgets_history envComplete eggsRequest eggsRequest
           (mkWorld (Some (repeat sampleEntry 5)) [] [])
           (mkInputs [JStr "eggs"] None DEFAULT_MODEL) (content eggsMsg)
           eq_refl eq_refl eq_refl eq_refl Hne eq_refl).
Defined.

(* ================================================================= *)
(** ** Session identifiers *)

Lemma append_empty_r (s : string) : s ++ "" = s.
Proof.
  induction s as [|c s IH]; [reflexivity|].
  change (String c s ++ "") with (String c (s ++ "")). rewrite IH. reflexivity.
Qed.

Lemma untilSemicolon_clean (s : string) : hasChar SEMI (untilSemicolon s) = false.
Proof.
  induction s as [|c s IH]; [reflexivity|].
  cbn [untilSemicolon]. destruct (Ascii.eqb c SEMI) eqn:E; [reflexivity|].
  cbn [hasChar]. rewrite Ascii.eqb_sym, E, IH. reflexivity.
Qed.

Lemma untilSemicolon_stops (v tail : string) :
  hasChar SEMI v = false ->
  tail = "" \/ (exists t, tail = String SEMI t) ->
  untilSemicolon (v ++ tail) = v.
Proof.
  intros Hv Ht. induction v as [|c v IH].
  - destruct Ht as [Ht|[t Ht]]; subst tail; reflexivity.
  - cbn [hasChar] in Hv. apply orb_false_iff in Hv. destruct Hv as [Hc Hv].
    change (String c v ++ tail) with (String c (v ++ tail)).
    cbn [untilSemicolon]. rewrite Ascii.eqb_sym, Hc, (IH Hv). reflexivity.
Qed.

Lemma matchSid_value (cookie v : string) :
  matchSid cookie = Some v -> v <> "" /\ hasChar SEMI v = false.
Proof.
  induction cookie as [|c rest IH]; [discriminate|].
  cbn [matchSid].
  destruct (startsWith "sid=" (String c rest)); [|exact IH].
  pose proof (untilSemicolon_clean (dropChars 4 (String c rest))) as Hclean.
  destruct (untilSemicolon (dropChars 4 (String c rest))) as [|d u]; [exact IH|].
  intros H. inversion H; subst v. split; [discriminate | exact Hclean].
Qed.

Lemma matchSid_own_cookie (sid tail : string) :
  sid <> "" -> hasChar SEMI sid = false ->
  tail = "" \/ (exists t, tail = String SEMI t) ->
  matchSid ("sid=" ++ sid ++ tail) = Some sid.
Proof.
  intros Hne Hclean Htail.
  change ("sid=" ++ sid ++ tail)
    with (String "s" (String "i" (String "d" (String "=" (sid ++ tail))))).
  cbn [matchSid].
  assert (Hstart : startsWith "sid="
                     (String "s" (String "i" (String "d" (String "=" (sid ++ tail)))))
                   = true).
  { apply (startsWith_app "sid=" "sid=" (sid ++ tail)). reflexivity. }
  rewrite Hstart. cbn [dropChars].
  rewrite (untilSemicolon_stops sid tail Hclean Htail).
  destruct sid; [congruence | reflexivity].
Qed.

Lemma matchSid_none (cookie : string) :
  includes "sid=" cookie = false -> matchSid cookie = None.
Proof.
  induction cookie as [|c rest IH]; [reflexivity|].
  cbn [includes matchSid]. intros H. apply orb_false_iff in H.
  destruct H as [Hs Hrest]. rewrite Hs. exact (IH Hrest).
Qed.

(** X19.  The session identifier is stable over the cookie round trip: whatever
    the [Cookie] header of a request is, the identifier chosen for it (the
    one found in the header, or else a fresh one that is not empty and has
    no semicolon) is not empty, has no semicolon, and is the identifier
    read from a [Cookie] header that returns the [sid] cookie the response
    sets, alone or with its attributes. *)
Theorem session_id_round_trip
        (cookieHeader : option string) (uuid uuid' : string) :
  uuid <> "" -> hasChar SEMI uuid = false ->
  let sid := getOrCreateSessionId cookieHeader uuid in
  sid <> "" /\ hasChar SEMI sid = false /\
  headersGet "Set-Cookie" (setSessionCookieHeaders sid) = Some (sessionCookie sid) /\
  getOrCreateSessionId (Some ("sid=" ++ sid)) uuid' = sid /\
  getOrCreateSessionId (Some (sessionCookie sid)) uuid' = sid.
Proof.
  intros Hne Hclean. cbv zeta.
  assert (Hsid : getOrCreateSessionId cookieHeader uuid <> "" /\
                 hasChar SEMI (getOrCreateSessionId cookieHeader uuid) = false).
  { unfold getOrCreateSessionId.
    destruct (matchSid match cookieHeader with Some c => c | None => "" end) as [v|] eqn:E.
    - exact (matchSid_value _ v E).
    - auto. }
  destruct Hsid as [H1 H2].
  set (sid := getOrCreateSessionId cookieHeader uuid) in *.
  repeat split; auto.
  - unfold getOrCreateSessionId.
    pose proof (matchSid_own_cookie sid "" H1 H2 (or_introl eq_refl)) as Hm.
    rewrite append_empty_r in Hm. rewrite Hm. reflexivity.
  - unfold getOrCreateSessionId, sessionCookie.
    rewrite (matchSid_own_cookie sid "; Path=/; HttpOnly; SameSite=Lax; Max-Age=2592000"
               H1 H2).
    + reflexivity.
    + right. eexists. reflexivity.
Qed.

Lemma session_id_round_trip_witness :
  let sid := getOrCreateSessionId (Some "theme=dark; sid=abc-1; x=y") "fresh-id" in
  sid <> "" /\ hasChar SEMI sid = false /\
  headersGet "Set-Cookie" (setSessionCookieHeaders sid) = Some (sessionCookie sid) /\
  getOrCreateSessionId (Some ("sid=" ++ sid)) "other-id" = sid /\
  getOrCreateSessionId (Some (sessionCookie sid)) "other-id" = sid.
Proof.
  apply (session_id_round_trip (Some "theme=dark; sid=abc-1; x=y") "fresh-id" "other-id").
  - discriminate.
  - reflexivity.
Defined.

(** X20.  Without a [Cookie] header, or with one in which [sid=] does not
    occur, the request gets the fresh identifier. *)
Theorem fresh_session_without_cookie (cookie uuid : string) :
  includes "sid=" cookie = false ->
  getOrCreateSessionId (Some cookie) uuid = uuid /\
  getOrCreateSessionId None uuid = uuid.
Proof.
  intros H. unfold getOrCreateSessionId.
  rewrite (matchSid_none cookie H). split; reflexivity.
Qed.

Lemma fresh_session_without_cookie_witness :
  getOrCreateSessionId (Some "theme=dark; lang=en") "fresh-id" = "fresh-id" /\
  getOrCreateSessionId None "fresh-id" = "fresh-id".
Proof.
  apply (fresh_session_without_cookie "theme=dark; lang=en" "fresh-id").
  reflexivity.
Defined.

(* ================================================================= *)
(** ** Prompts, model identifiers and the inline page *)

Lemma ingredientLines_texts (l : list string) :
  ingredientLines (map JStr l) = Ok (map (fun x => "- " ++ trim x) l).
Proof.
  induction l as [|x l IH]; [reflexivity|].
  cbn [map ingredientLines ingredientLine]. rewrite IH. reflexivity.
Qed.

(** X22.  The prompt depends on the texts only up to the white space around
    them: trimming the ingredients and the constraints beforehand gives
    the same prompt, and constraints that are blank count as absent. *)
Theorem prompt_ignores_outer_space (l : list string) (extras : option string) :
  userPromptFromInputs (map JStr (map trim l)) (option_map trim extras)
  = userPromptFromInputs (map JStr l) extras /\
  (forall x, trim x = "" ->
             userPromptFromInputs (map JStr l) (Some x)
             = userPromptFromInputs (map JStr l) None).
Proof.
  split.
  - unfold userPromptFromInputs. rewrite !ingredientLines_texts.
    rewrite map_map.
    rewrite (map_ext (fun x => "- " ++ trim (trim x)) (fun x => "- " ++ trim x))
      by (intros x; rewrite trim_idempotent; reflexivity).
    destruct extras as [x|]; cbn [option_map]; [|reflexivity].
    rewrite trim_idempotent. reflexivity.
  - intros x Hx. unfold userPromptFromInputs. rewrite ingredientLines_texts, Hx.
    reflexivity.
Qed.

(** X23.  What [resolveModel] returns is a plain identifier: never empty, never
    one of the aliases in any letter case, and resolving it again gives it
    back. *)
Theorem resolveModel_result_is_plain (v : option JSON) (m : string) :
  resolveModel v = Ok m ->
  m <> "" /\ isAlias (toLowerCase m) = false /\ resolveModel (Some (JStr m)) = Ok m.
Proof.
  assert (Hdefault : DEFAULT_MODEL <> "" /\
                     isAlias (toLowerCase DEFAULT_MODEL) = false /\
                     resolveModel (Some (JStr DEFAULT_MODEL)) = Ok DEFAULT_MODEL)
    by (repeat split; discriminate).
  unfold resolveModel at 1.
  destruct (falsy v) eqn:Hf.
  - intros H. inversion H; subst m. exact Hdefault.
  - destruct v as [[| b | n | s | l | f]|]; try discriminate.
    cbn [falsy] in Hf.
    destruct (isAlias (toLowerCase s)) eqn:Ha; intros H; inversion H; subst m.
    + exact Hdefault.
    + split; [apply String.eqb_neq; exact Hf|]. split; [exact Ha|].
      rewrite resolveModel_string, Hf, Ha. reflexivity.
Qed.

Lemma resolveModel_result_is_plain_witness :
  DEFAULT_MODEL <> "" /\ isAlias (toLowerCase DEFAULT_MODEL) = false /\
  resolveModel (Some (JStr DEFAULT_MODEL)) = Ok DEFAULT_MODEL.
Proof.
  apply (resolveModel_result_is_plain (Some (JStr "Gpt-5")) DEFAULT_MODEL).
  reflexivity.
Defined.

Lemma hasChar_app (c : ascii) (a b : string) :
  hasChar c (a ++ b) = hasChar c a || hasChar c b.
Proof.
  induction a as [|d a IH]; [reflexivity|].
  change (String d a ++ b) with (String d (a ++ b)).
  cbn [hasChar]. rewrite IH, orb_assoc. reflexivity.
Qed.

Lemma hasChar_trim (c : ascii) (s : string) :
  hasChar c s = false -> hasChar c (trim s) = false.
Proof.
  intros H. unfold trim.
  destruct (trimStart_suffix s) as [pre Hpre].
  destruct (trimEnd_prefix (trimStart s)) as [suf Hsuf].
  rewrite Hpre, hasChar_app in H. apply orb_false_iff in H. destruct H as [_ H].
  rewrite Hsuf, hasChar_app in H. apply orb_false_iff in H. tauto.
Qed.

Lemma splitComma_pieces (raw : string) :
  Forall (fun piece => hasChar COMMA piece = false) (splitComma raw).
Proof.
  induction raw as [|c rest IH]; [repeat constructor|].
  cbn [splitComma]. destruct (Ascii.eqb c COMMA) eqn:E.
  - constructor; [reflexivity | exact IH].
  - destruct (splitComma rest) as [|piece pieces].
    + repeat constructor. cbn [hasChar]. rewrite Ascii.eqb_sym, E. reflexivity.
    + inversion IH; subst. constructor; auto.
      cbn [hasChar]. rewrite Ascii.eqb_sym, E. auto.
Qed.

(** X24.  The list the inline page posts holds no empty text, no text with
    white space around it and no comma; the page posts nothing when the
    list is empty, and otherwise the server reads the request, finds the
    same non-empty list, and builds one prompt line per text, the text as
    it is after the dash. *)
Theorem inline_page_posts_clean_lists (sid raw extras model : string) :
  Forall (fun x => x <> "" /\ trim x = x /\ hasChar COMMA x = false)
         (pageIngredients raw) /\
  match pageRequest sid raw extras model with
  | None => pageIngredients raw = []
  | Some req =>
      pageIngredients raw <> [] /\
      (exists model',
          readInputs req
          = Ok (mkInputs (map JStr (pageIngredients raw)) (Some extras) model')) /\
      ingredientLines (map JStr (pageIngredients raw))
      = Ok (map (fun x => "- " ++ x) (pageIngredients raw))
  end.
Proof.
  assert (Hclean : Forall (fun x => x <> "" /\ trim x = x /\ hasChar COMMA x = false)
                          (pageIngredients raw)).
  { unfold pageIngredients. apply Forall_forall. intros x Hx.
    apply filter_In in Hx. destruct Hx as [Hin Hne].
    apply in_map_iff in Hin. destruct Hin as (piece & Hx & Hpiece). subst x.
    split; [apply String.eqb_neq; apply negb_true_iff; exact Hne|].
    split; [apply trim_idempotent|].
    apply hasChar_trim.
    pose proof (splitComma_pieces raw) as Hall.
    rewrite Forall_forall in Hall. exact (Hall piece Hpiece). }
  split; [exact Hclean|].
  unfold pageRequest.
  destruct (pageIngredients raw) as [|x xs] eqn:E; [reflexivity|].
  split; [discriminate|]. split.
  - apply readInputs_generationRequest.
  - rewrite ingredientLines_texts. f_equal.
    apply map_ext_in. intros y Hy.
    rewrite Forall_forall in Hclean. destruct (Hclean y Hy) as (_ & Ht & _).
    rewrite Ht. reflexivity.
Qed.

(* ================================================================= *)
(** ** What the routes keep true of the stored history *)

Section Preservation.

Variable env : Env.

Lemma preserves_ret (A : Type) (Inv : World -> Prop) (a : A) : preserves Inv (ret a).
Proof. intros w H. exact H. Qed.

Lemma preserves_lift (A : Type) (Inv : World -> Prop) (x : Exc A) :
  preserves Inv (lift x).
Proof. intros w H. exact H. Qed.

Lemma preserves_bind (A B : Type) (Inv : World -> Prop) (m : M A) (k : A -> M B) :
  preserves Inv m -> (forall a, preserves Inv (k a)) -> preserves Inv (bind m k).
Proof.
  intros Hm Hk w H. unfold bind. specialize (Hm w H).
  destruct (m w) as [[a|e] w1]; cbn [snd] in *; [apply Hk; exact Hm | exact Hm].
Qed.

Lemma preserves_tryCatch (A : Type) (Inv : World -> Prop) (m : M A)
      (h : JsError -> M A) :
  preserves Inv m -> (forall e, preserves Inv (h e)) -> preserves Inv (tryCatch m h).
Proof.
  intros Hm Hh w H. unfold tryCatch. specialize (Hm w H).
  destruct (m w) as [[a|e] w1]; cbn [snd] in *; [exact Hm | apply Hh; exact Hm].
Qed.

Lemma preserves_runAI (c : AiCall) : preserves historyOk (runAI env c).
Proof. intros w H. exact H. Qed.

Lemma SessionDO_keeps_roles (now : Z) (r : DoRequest) (st : Storage) :
  workerRequest r ->
  Forall (fun m => keepRole m = true) (storedHistory st) ->
  Forall (fun m => keepRole m = true) (storedHistory (snd (SessionDO_fetch now r st))).
Proof.
  intros Hr H. destruct r as [|who c| |]; cbn [SessionDO_fetch snd]; auto;
    try (constructor; fail); try (destruct Hr; fail).
  destruct (String.eqb who "" || String.eqb c ""); cbn [snd storedHistory]; auto.
  apply Forall_sliceLast. apply Forall_app. split; auto.
  constructor; auto. unfold keepRole. cbn [role].
  destruct Hr as [E|E]; rewrite E; reflexivity.
Qed.

Lemma preserves_stubFetch (r : DoRequest) :
  workerRequest r -> preserves historyOk (stubFetch env r).
Proof.
  intros Hr w [Hlen Hroles]. unfold stubFetch.
  destruct (do_fault env (length (do_log w))); [split; assumption|].
  pose proof (SessionDO_history_bounded (date_now env (length (do_log w))) r (storage w) Hlen)
    as Hb.
  pose proof (SessionDO_keeps_roles (date_now env (length (do_log w))) r (storage w)
                Hr Hroles) as Hk.
  destruct (SessionDO_fetch (date_now env (length (do_log w))) r (storage w)) as [resp st].
  split; assumption.
Qed.

Lemma preserves_runOnce (a : Attempt) (model : string) (msgs : list Message) :
  preserves historyOk (runOnce env a model msgs).
Proof.
  unfold runOnce. apply preserves_bind; [apply preserves_runAI|].
  intros result. apply preserves_lift.
Qed.

Lemma preserves_autoContinue (a : Attempt) (model : string) (history : list Message)
      (userMsg : Message) (remaining : nat) :
  forall full,
    preserves historyOk (autoContinue env a model history userMsg remaining full).
Proof.
  induction remaining as [|k IH]; intros full; cbn [autoContinue].
  - apply preserves_ret.
  - destruct (includes END full); [apply preserves_ret|].
    apply preserves_bind; [apply preserves_runOnce|]. intros more. apply IH.
Qed.

Lemma preserves_persist (userMsg : Message) (text : string) :
  role userMsg = "user" -> preserves historyOk (persist env userMsg text).
Proof.
  intros Hrole. unfold persist.
  apply preserves_bind; [apply preserves_stubFetch; left; exact Hrole|]. intros _.
  apply preserves_bind; [apply preserves_stubFetch; right; reflexivity|]. intros _.
  apply preserves_ret.
Qed.

Lemma preserves_attempt (a : Attempt) (model sid : string) (history : list Message)
      (userMsg : Message) (messages : list Message) :
  role userMsg = "user" ->
  preserves historyOk (attempt env a model sid history userMsg messages).
Proof.
  intros Hrole. unfold attempt, continuation.
  apply preserves_bind.
  - apply preserves_bind; [apply preserves_runOnce|]. intros full.
    apply preserves_autoContinue.
  - intros full. apply preserves_bind; [apply preserves_persist; exact Hrole|].
    intros _. apply preserves_ret.
Qed.

Lemma preserves_fallbackPolicy (model sid : string) (history : list Message)
      (userMsg : Message) (messages : list Message) :
  role userMsg = "user" ->
  preserves historyOk (fallbackPolicy env model sid history userMsg messages).
Proof.
  intros Hrole. unfold fallbackPolicy.
  apply preserves_tryCatch; [apply preserves_attempt; exact Hrole|].
  intros err. destruct (negb (String.eqb model FALLBACK_MODEL)); [|apply preserves_ret].
  apply preserves_tryCatch; [apply preserves_attempt; exact Hrole|].
  intros _. apply preserves_ret.
Qed.

Lemma preserves_streamingRoute (model sid : string) (userMsg : Message)
      (messages : list Message) :
  role userMsg = "user" ->
  preserves historyOk (streamingRoute env model sid userMsg messages).
Proof.
  intros Hrole. unfold streamingRoute.
  apply preserves_tryCatch.
  - unfold streamAttempt.
    apply preserves_bind; [apply preserves_runAI|]. intros aiStream.
    apply preserves_bind; [apply preserves_lift|]. intros s12.
    apply preserves_bind; [|intros _; apply preserves_ret].
    unfold waitUntil. apply preserves_tryCatch; [|intros _; apply preserves_ret].
    unfold drainAndPersist. destruct (stream_error (snd s12)); [apply preserves_lift|].
    apply preserves_tryCatch; [apply preserves_persist; exact Hrole|].
    intros _. apply preserves_ret.
  - intros err. unfold streamFallback.
    apply preserves_tryCatch; [|intros _; apply preserves_ret].
    apply preserves_bind; [apply preserves_runAI|]. intros result.
    apply preserves_bind; [apply preserves_lift|]. intros text.
    apply preserves_bind; [apply preserves_persist; exact Hrole|].
    intros _. apply preserves_ret.
Qed.

End Preservation.

(** X25.  Whatever the model and the store do, and however the route ends, a
    request to any of the three API routes leaves a stored history of at
    most twenty entries that are all user or assistant turns, if it found
    one. *)
Theorem routes_keep_history_well_formed (env : Env) (req : Request) (w : World) :
  historyOk w ->
  historyOk (snd (api_recipe env req w)) /\
  historyOk (snd (api_recipe_stream env req w)) /\
  historyOk (snd (api_reset env req w)).
Proof.
  intros H. split; [|split].
  - revert w H. change (preserves historyOk (api_recipe env req)).
    unfold api_recipe. apply preserves_bind; [apply preserves_lift|]. intros inp.
    destruct (in_ingredients inp); [apply preserves_ret|].
    apply preserves_bind; [apply preserves_stubFetch; exact I|]. intros resp.
    apply preserves_bind; [apply preserves_lift|]. intros history.
    apply preserves_bind; [apply preserves_lift|]. intros prompt.
    apply preserves_fallbackPolicy. reflexivity.
  - revert w H. change (preserves historyOk (api_recipe_stream env req)).
    unfold api_recipe_stream. apply preserves_bind; [apply preserves_lift|]. intros inp.
    destruct (in_ingredients inp); [apply preserves_ret|].
    apply preserves_bind; [apply preserves_stubFetch; exact I|]. intros resp.
    apply preserves_bind; [apply preserves_lift|]. intros history.
    apply preserves_bind; [apply preserves_lift|]. intros prompt.
    apply preserves_streamingRoute. reflexivity.
  - revert w H. change (preserves historyOk (api_reset env req)).
    unfold api_reset. apply preserves_bind; [apply preserves_stubFetch; exact I|].
    intros _. apply preserves_ret.
Qed.

Lemma routes_keep_history_well_formed_witness :
  historyOk (snd (api_recipe envNoMarker eggsRequest emptyWorld)) /\
  historyOk (snd (api_recipe_stream envNoMarker eggsRequest emptyWorld)) /\
  historyOk (snd (api_reset envNoMarker eggsRequest emptyWorld)).
Proof.
  apply (routes_keep_history_well_formed envNoMarker eggsRequest emptyWorld).
  split; [cbn; unfold HISTORY_CAP; lia | constructor].
Defined.

(** X26.  A history of user and assistant turns is sent to the model whole and
    in order: when the request is read, the history loads and the prompt
    is built, the first model call carries the system message, every
    stored entry, and the new user message. *)
Theorem stored_history_is_sent_whole
        (env : Env) (req : Request) (w : World) (inp : Inputs) (prompt : string) :
  Forall (fun m => keepRole m = true) (storedHistory (storage w)) ->
  readInputs req = Ok inp ->
  in_ingredients inp <> [] ->
  do_fault env (length (do_log w)) = None ->
  userPromptFromInputs (in_ingredients inp) (in_extras inp) = Ok prompt ->
  exists calls,
    ai_log (snd (api_recipe env req w))
    = (ai_log w ++
       plainCall (in_model inp)
         (systemMsg :: storedHistory (storage w) ++ [mkMessage "user" prompt None])
       :: calls)%list.
Proof.
  intros Hroles Hin Hne Hf Hp.
  rewrite (api_recipe_run env req w inp prompt Hin Hne Hf Hp).
  destruct (fallbackPolicy_log env (in_model inp) (req_sid req)
              (storedHistory (storage w)) (mkMessage "user" prompt None)
              (buildMessages (storedHistory (storage w)) (mkMessage "user" prompt None))
              (mkWorld (storage w) (ai_log w) (do_log w ++ [GetHistory])))
    as (calls & Hlog & _).
  exists calls. rewrite Hlog. cbn [ai_log].
  rewrite buildMessages_eq.
  replace (filter keepRole (storedHistory (storage w))) with (storedHistory (storage w));
    [reflexivity|].
  symmetry. apply forallb_filter_id. apply forallb_forall.
  rewrite Forall_forall in Hroles. exact Hroles.
Qed.

Lemma stored_history_is_sent_whole_witness :
  let w := mkWorld (Some (repeat sampleEntry 2)) [] [] in
  exists calls,
    ai_log (snd (api_recipe envComplete eggsRequest w))
    = plainCall DEFAULT_MODEL (systemMsg :: repeat sampleEntry 2 ++ [eggsMsg]) :: calls.
Proof.
  cbv zeta.
  assert (Hne : in_ingredients (mkInputs [JStr "eggs"] None DEFAULT_MODEL) <> [])
    by discriminate.
  assert (Hroles : Forall (fun m => keepRole m = true)
                          (storedHistory (storage (mkWorld (Some (repeat sampleEntry 2)) [] []))))
    by (repeat constructor).
  exact (stored_history_is_sent_whole envComplete eggsRequest
           (mkWorld (Some (repeat sampleEntry 2)) [] [])
           (mkInputs [JStr "eggs"] None DEFAULT_MODEL) (content eggsMsg)
           Hroles eq_refl Hne eq_refl eq_refl).
Defined.

(* ================================================================= *)
(** ** The assembled text *)

Lemma startsWith_refl (s : string) : startsWith s s = true.
Proof.
  unfold startsWith. induction s as [|c s IH]; [reflexivity|].
  cbn [String.prefix]. destruct (ascii_dec c c); [exact IH | congruence].
Qed.

Lemma startsWith_app_inv (a b s : string) :
  startsWith (a ++ b) s = true -> startsWith a s = true.
Proof.
  revert s. induction a as [|c a IH]; intros s H; [apply startsWith_nil|].
  destruct s as [|d s]; [discriminate|].
  unfold startsWith in *. change (String c a ++ b) with (String c (a ++ b)) in H.
  cbn [String.prefix] in *. destruct (ascii_dec c d); [apply IH; exact H | discriminate].
Qed.

Lemma autoContinue_extends (env : Env) (a : Attempt) (model : string)
      (history : list Message) (userMsg : Message) (remaining : nat) :
  forall full w full',
    fst (autoContinue env a model history userMsg remaining full w) = Ok full' ->
    startsWith full full' = true.
Proof.
  induction remaining as [|k IH]; intros full w full' H.
  - cbn in H. inversion H. apply startsWith_refl.
  - rewrite autoContinue_step in H.
    destruct (includes END full).
    + cbn in H. inversion H. apply startsWith_refl.
    + cbv zeta in H.
      destruct (answer env a (length (ai_log w))
                  (plainCall model (contMsgs a history userMsg full)))
        as [more|e]; [|discriminate].
      apply IH in H. apply startsWith_app_inv in H. exact H.
Qed.

(** X27.  Nothing of the first answer is lost or reordered: the text a run of
    the protocol assembles starts with the first answer, and is the first
    answer when that already holds the end marker. *)
Theorem continuation_keeps_first_answer
        (env : Env) (a : Attempt) (model : string) (history : list Message)
        (userMsg : Message) (messages : list Message) (w : World)
        (first full : string) :
  answer env a (length (ai_log w)) (plainCall model messages) = Ok first ->
  fst (continuation env a model history userMsg messages w) = Ok full ->
  startsWith first full = true /\
  (includes END first = true -> full = first).
Proof.
  intros Hfirst Hfull. rewrite continuation_eq in Hfull. cbv zeta in Hfull.
  rewrite Hfirst in Hfull. split.
  - exact (autoContinue_extends env a model history userMsg MAX_ROUNDS first _ full Hfull).
  - intros Hinc. unfold MAX_ROUNDS in Hfull. rewrite autoContinue_step, Hinc in Hfull.
    cbn in Hfull. inversion Hfull. reflexivity.
Qed.

Lemma continuation_keeps_first_answer_witness :
  startsWith "part" ("part" ++ nl ++ "part" ++ nl ++ "part" ++ nl ++ "part" ++ nl ++ "part")
  = true /\
  (includes END "part" = true ->
   "part" ++ nl ++ "part" ++ nl ++ "part" ++ nl ++ "part" ++ nl ++ "part" = "part").
Proof.
  apply (continuation_keeps_first_answer envNoMarker Primary DEFAULT_MODEL [] eggsMsg
           (buildMessages [] eggsMsg) emptyWorld); reflexivity.
Defined.

(* ================================================================= *)
(** ** The order of the store calls *)

Section StoreCalls.

Variable env : Env.

Lemma stubFetch_do_log (r : DoRequest) (w : World) :
  do_log (snd (stubFetch env r w)) = (do_log w ++ [r])%list.
Proof.
  unfold stubFetch.
  destruct (do_fault env (length (do_log w))); [reflexivity|].
  destruct (SessionDO_fetch (date_now env (length (do_log w))) r (storage w));
    reflexivity.
Qed.

Lemma persist_do_log (prompt text : string) (w : World) :
  exists l,
    do_log (snd (persist env (mkMessage "user" prompt None) text w))
    = (do_log w ++ l)%list /\
    savedTurns prompt l /\ l <> [].
Proof.
  unfold persist, bind. cbn [role content].
  pose proof (stubFetch_do_log (PostAppend "user" prompt) w) as H1.
  destruct (stubFetch env (PostAppend "user" prompt) w) as [[r1|e1] w1]; cbn [snd] in H1.
  - pose proof (stubFetch_do_log (PostAppend "assistant" text) w1) as H2.
    exists [PostAppend "user" prompt; PostAppend "assistant" text].
    split; [|split; [right; right; eauto | discriminate]].
    destruct (stubFetch env (PostAppend "assistant" text) w1) as [[r2|e2] w2];
      cbn [snd ret] in *; rewrite H2, H1, <- app_assoc; reflexivity.
  - exists [PostAppend "user" prompt].
    split; [exact H1|]. split; [right; left; reflexivity | discriminate].
Qed.

Lemma attempt_do_log (a : Attempt) (model sid : string) (history : list Message)
      (prompt : string) (messages : list Message) (w : World) :
  exists l,
    do_log (snd (attempt env a model sid history (mkMessage "user" prompt None)
                         messages w))
    = (do_log w ++ l)%list /\
    savedTurns prompt l.
Proof.
  rewrite attempt_eq.
  destruct (continuation_log env a model history (mkMessage "user" prompt None) messages w)
    as (conts & _ & _ & Hdo & _).
  destruct (continuation env a model history (mkMessage "user" prompt None) messages w)
    as [[full|e] w1]; cbn [snd] in Hdo.
  - destruct (persist_do_log prompt (trim (removeAll END full)) w1) as (l & Hl & Hs & _).
    exists l. split; [|exact Hs].
    destruct (persist env (mkMessage "user" prompt None) (trim (removeAll END full)) w1)
      as [[u|e] w2]; cbn [snd] in *; rewrite Hl, Hdo; reflexivity.
  - exists []. cbn [snd]. rewrite app_nil_r. split; [exact Hdo | left; reflexivity].
Qed.

Lemma fallbackPolicy_do_log (model sid : string) (history : list Message)
      (prompt : string) (messages : list Message) (w : World) :
  exists l1 l2,
    do_log (snd (fallbackPolicy env model sid history (mkMessage "user" prompt None)
                                messages w))
    = (do_log w ++ l1 ++ l2)%list /\
    savedTurns prompt l1 /\ savedTurns prompt l2.
Proof.
  destruct (attempt_do_log Primary model sid history prompt messages w)
    as (l1 & Hl1 & Hs1).
  destruct (attempt env Primary model sid history (mkMessage "user" prompt None) messages w)
    as [[r|err] w1] eqn:Hp; cbn [snd] in Hl1.
  - rewrite (fallbackPolicy_primary_ok env _ _ _ _ _ _ _ _ Hp).
    exists l1, []. cbn [snd]. rewrite app_nil_r.
    split; [exact Hl1|]. split; [exact Hs1 | left; reflexivity].
  - destruct (String.eqb_spec model FALLBACK_MODEL) as [Hm|Hm].
    + rewrite (fallbackPolicy_no_retry env _ _ _ _ _ _ _ _ Hp Hm).
      exists l1, []. cbn [snd]. rewrite app_nil_r.
      split; [exact Hl1|]. split; [exact Hs1 | left; reflexivity].
    + rewrite (fallbackPolicy_retry env _ _ _ _ _ _ _ _ Hp Hm).
      destruct (attempt_do_log Secondary FALLBACK_MODEL sid history prompt messages w1)
        as (l2 & Hl2 & Hs2).
      exists l1, l2. split; [|split; assumption].
      destruct (attempt env Secondary FALLBACK_MODEL sid history
                        (mkMessage "user" prompt None) messages w1)
        as [[r|e] w2]; cbn [snd] in *; rewrite Hl2, Hl1, <- app_assoc; reflexivity.
Qed.

End StoreCalls.

Lemma savedTurns_length (prompt : string) (l : list DoRequest) :
  savedTurns prompt l -> length l <= 2.
Proof.
  intros [H | [H | [text H]]]; subst l; cbn; lia.
Qed.

(** X28.  Within one request to the non-streaming route, whatever the model and
    the store do, the store is called at most five times: first the read
    of the history, then for each of the at most two attempts nothing, or
    the user append, or the user append followed by the assistant append.
    An assistant turn is never sent to the store before its user turn. *)
Theorem store_calls_of_a_request (env : Env) (req : Request) (w : World) :
  exists calls,
    do_log (snd (api_recipe env req w)) = (do_log w ++ calls)%list /\
    length calls <= 5 /\
    (calls = [] \/
     exists prompt l1 l2,
       calls = GetHistory :: (l1 ++ l2)%list /\
       savedTurns prompt l1 /\ savedTurns prompt l2).
Proof.
  unfold api_recipe, bind, lift.
  destruct (readInputs req) as [inp|e];
    [|exists []; cbn [snd length]; rewrite app_nil_r; repeat split; auto; lia].
  destruct (in_ingredients inp) as [|x xs];
    [exists []; cbn [snd length ret]; rewrite app_nil_r; repeat split; auto; lia|].
  pose proof (stubFetch_do_log env GetHistory w) as Hread.
  destruct (stubFetch env GetHistory w) as [[resp|e] w1]; cbn [snd] in Hread.
  - destruct (historyOfResponse resp) as [history|e].
    + destruct (userPromptFromInputs (x :: xs) (in_extras inp)) as [prompt|e].
      * destruct (fallbackPolicy_do_log env (in_model inp) (req_sid req) history prompt
                    (buildMessages history (mkMessage "user" prompt None)) w1)
          as (l1 & l2 & Hlog & Hs1 & Hs2).
        exists (GetHistory :: l1 ++ l2)%list.
        rewrite Hlog, Hread, <- app_assoc. split; [reflexivity|].
        pose proof (savedTurns_length prompt l1 Hs1).
        pose proof (savedTurns_length prompt l2 Hs2).
        split; [cbn [length]; rewrite length_app; lia|].
        right. exists prompt, l1, l2. auto.
      * exists [GetHistory]. cbn [snd length]. split; [exact Hread|]. split; [lia|].
        right. exists "", [], []. repeat split; left; reflexivity.
    + exists [GetHistory]. cbn [snd length]. split; [exact Hread|]. split; [lia|].
      right. exists "", [], []. repeat split; left; reflexivity.
  - exists [GetHistory]. cbn [snd length]. split; [exact Hread|]. split; [lia|].
    right. exists "", [], []. repeat split; left; reflexivity.
Qed.
